(** * PaymentService: a shallow embedding of [payment_service.py]

    The payment lifecycle of the document converter: pricing, creation of
    payment intents against the card and the crypto provider, webhook
    verification, reconciliation and the polling status resolver.

    The Python code is embedded as functions in a state-and-exception monad
    over an explicit world (ORM session, committed store, clock, provider
    call counter, log).  Prices are binary64 floats, as in the source.

    The record store is taken as the specification takes it, a
    transactional store: a commit succeeds and a row reads back as it was
    written; the defaults and [onupdate] hooks the ORM applies to
    [created_at] and [updated_at] are left out, so [updated_at] follows the
    assignments the service makes. *)

From Stdlib Require Import ZArith Lia Bool List Ascii String.
From Stdlib Require Import Floats.
From stdpp Require Import gmap strings pretty.

#[local] Set Warnings "-inexact-float,-register-all".
#[local] Open Scope string_scope.
#[local] Open Scope Z_scope.

(** ** Python values *)

(** The exceptions the service raises or catches.  All of them derive from
    Python's [Exception]; [JSONDecodeError] derives from [ValueError]. *)
Inductive exn : Type :=
| HTTPException (status_code : Z) (detail : string)
| ValueError (msg : string)
| JSONDecodeError (msg : string)
| OverflowError (msg : string)
| KeyError (msg : string)
| TypeError (msg : string)
| AttributeError (msg : string)
| SignatureVerificationError (msg : string)
| WebhookInvalidPayload (msg : string)
| WebhookInvalidSignature (msg : string)
| ProviderException (cls msg : string).

(** [isinstance(e, ValueError)]. *)
Definition is_ValueError (e : exn) : bool :=
  match e with
  | ValueError _ | JSONDecodeError _ => true
  | _ => false
  end.

Inductive res (A : Type) : Type :=
| Ok (a : A)
| Raise (e : exn).
Arguments Ok {A} a.
Arguments Raise {A} e.

(** JSON-like values: parsed payloads, provider objects and the [dict]s the
    service returns. *)
Inductive json : Type :=
| JNull
| JBool (b : bool)
| JInt (z : Z)
| JFloat (f : float)
| JStr (s : string)
| JArr (items : list json)
| JObj (fields : list (string * json)).

Fixpoint assoc (k : string) (kv : list (string * json)) : option json :=
  match kv with
  | [] => None
  | (k', v) :: rest => if String.eqb k k' then Some v else assoc k rest
  end.

(** [bool(v)]. *)
Definition truthy (v : json) : bool :=
  match v with
  | JNull => false
  | JBool b => b
  | JInt z => negb (Z.eqb z 0)
  | JFloat f => negb (PrimFloat.eqb f 0%float)
  | JStr s => negb (String.eqb s "")
  | JArr l => match l with [] => false | _ => true end
  | JObj l => match l with [] => false | _ => true end
  end.

(** [v[k]]. *)
Definition getitem (v : json) (k : string) : res json :=
  match v with
  | JObj kv => match assoc k kv with
               | Some x => Ok x
               | None => Raise (KeyError k)
               end
  | _ => Raise (TypeError "object is not subscriptable by str")
  end.

(** [v.k] on a provider object (a [dict] with attribute access). *)
Definition getattr (v : json) (k : string) : res json :=
  match v with
  | JObj kv => match assoc k kv with
               | Some x => Ok x
               | None => Raise (AttributeError k)
               end
  | _ => Raise (AttributeError k)
  end.

(** [v.get(k)]. *)
Definition dict_get (v : json) (k : string) : res json :=
  match v with
  | JObj kv => Ok (default JNull (assoc k kv))
  | _ => Raise (AttributeError "get")
  end.

(** [v == s] for a string literal [s]. *)
Definition eq_str (v : json) (s : string) : bool :=
  match v with
  | JStr s' => String.eqb s' s
  | _ => false
  end.

(** ** Python float arithmetic *)

Module PyFloat.

(** [float(z)] for an [int]: correctly rounded, [OverflowError] when the
    rounded value does not fit a double. *)
Definition of_int (z : Z) : res float :=
  let f := SF2Prim (binary_normalize prec emax z 0 false) in
  if PrimFloat.is_infinity f
  then Raise (OverflowError "int too large to convert to float")
  else Ok f.

Definition of_small_int (z : Z) : float :=
  if z <? 0 then PrimFloat.opp (PrimFloat.of_uint63 (Uint63.of_Z (- z)))
  else PrimFloat.of_uint63 (Uint63.of_Z z).

(** [int(x)]: truncation toward zero. *)
Definition to_int (x : float) : res Z :=
  match Prim2SF x with
  | S754_zero _ => Ok 0
  | S754_infinity _ => Raise (OverflowError "cannot convert float infinity to integer")
  | S754_nan => Raise (ValueError "cannot convert float NaN to integer")
  | S754_finite s m e =>
      let a := if 0 <=? e then Z.pos m * 2 ^ e else Z.pos m / 2 ^ (- e) in
      Ok (if s then - a else a)
  end.

(** Nearest integer to [num / den], ties to even ([0 < den]). *)
Definition round_half_even (num den : Z) : Z :=
  let q := num / den in
  match (2 * (num mod den)) ?= den with
  | Lt => q
  | Gt => q + 1
  | Eq => if Z.even q then q else q + 1
  end.

(** [round(x, 2)].  CPython rounds the exact binary value of [x] to two
    decimals half-to-even and reads the decimal back as the nearest
    double.  From [2^46] on, doubles are more than [0.01] apart and the
    nearest double is [x] itself; below, the scaled integer is under
    [2^53], so it converts exactly and the division by [100] is the
    correctly rounded read-back. *)
Definition round2 (x : float) : float :=
  match Prim2SF x with
  | S754_finite s m e =>
      if -6 <=? e then x
      else
        let q := round_half_even (Z.pos m * 100) (2 ^ (- e)) in
        let r := PrimFloat.div (of_small_int q) (of_small_int 100) in
        if s then PrimFloat.opp r else r
  | _ => x
  end.

End PyFloat.


(** ** Data model ([models.py]) *)

Inductive PaymentStatus : Type := PENDING | COMPLETED | FAILED | REFUNDED | EXPIRED.

Definition PaymentStatus_value (s : PaymentStatus) : string :=
  match s with
  | PENDING => "pending"
  | COMPLETED => "completed"
  | FAILED => "failed"
  | REFUNDED => "refunded"
  | EXPIRED => "expired"
  end.

Inductive PaymentMethod : Type := CREDIT_CARD | USDT | BTC | ETH | OTHER_CRYPTO.

Definition PaymentMethod_value (m : PaymentMethod) : string :=
  match m with
  | CREDIT_CARD => "credit_card"
  | USDT => "usdt"
  | BTC => "bitcoin"
  | ETH => "ethereum"
  | OTHER_CRYPTO => "other_crypto"
  end.

(** [PaymentMethod(s)]: the member whose value is [s], [ValueError] when
    there is none. *)
Definition PaymentMethod_of (s : string) : res PaymentMethod :=
  if String.eqb s "credit_card" then Ok CREDIT_CARD
  else if String.eqb s "usdt" then Ok USDT
  else if String.eqb s "bitcoin" then Ok BTC
  else if String.eqb s "ethereum" then Ok ETH
  else if String.eqb s "other_crypto" then Ok OTHER_CRYPTO
  else Raise (ValueError ("'" ++ s ++ "' is not a valid PaymentMethod")).

(** [s == m] for a [str] and a member of the [str]-mixin enum. *)
Definition method_eq (s : string) (m : PaymentMethod) : bool :=
  String.eqb s (PaymentMethod_value m).

#[global] Instance PaymentStatus_eq_dec : EqDecision PaymentStatus.
Proof. solve_decision. Defined.

(** The columns of [Conversion] the payment service reads or writes. *)
Module Conversion.
Record t : Type := mk {
  id : Z;
  original_filename : string;
  page_count : Z;
  is_paid : bool
}.
Definition set_is_paid (b : bool) (c : t) : t :=
  mk (id c) (original_filename c) (page_count c) b.
End Conversion.

(** The columns of [Payment] the payment service reads or writes
    ([crypto_received], [tx_hash], [confirmations], [card_last4],
    [card_brand] and [created_at] are touched nowhere in it).  Timestamps
    are seconds. *)
Module Payment.
Record t : Type := mk {
  id : Z;
  user_id : option Z;
  conversion_id : Z;
  payment_method : PaymentMethod;
  amount : float;
  amount_usd : float;
  currency : string;
  status : PaymentStatus;
  provider : option string;
  provider_payment_id : json;
  provider_data : json;
  crypto_address : json;
  crypto_amount : option float;
  updated_at : option Z;
  paid_at : option Z;
  expires_at : option Z
}.
Definition set_status (x : PaymentStatus) (p : t) : t :=
  mk (id p) (user_id p) (conversion_id p) (payment_method p) (amount p)
     (amount_usd p) (currency p) x (provider p) (provider_payment_id p)
     (provider_data p) (crypto_address p) (crypto_amount p) (updated_at p)
     (paid_at p) (expires_at p).
Definition set_provider (x : option string) (p : t) : t :=
  mk (id p) (user_id p) (conversion_id p) (payment_method p) (amount p)
     (amount_usd p) (currency p) (status p) x (provider_payment_id p)
     (provider_data p) (crypto_address p) (crypto_amount p) (updated_at p)
     (paid_at p) (expires_at p).
Definition set_provider_payment_id (x : json) (p : t) : t :=
  mk (id p) (user_id p) (conversion_id p) (payment_method p) (amount p)
     (amount_usd p) (currency p) (status p) (provider p) x
     (provider_data p) (crypto_address p) (crypto_amount p) (updated_at p)
     (paid_at p) (expires_at p).
Definition set_provider_data (x : json) (p : t) : t :=
  mk (id p) (user_id p) (conversion_id p) (payment_method p) (amount p)
     (amount_usd p) (currency p) (status p) (provider p) (provider_payment_id p)
     x (crypto_address p) (crypto_amount p) (updated_at p)
     (paid_at p) (expires_at p).
Definition set_crypto_address (x : json) (p : t) : t :=
  mk (id p) (user_id p) (conversion_id p) (payment_method p) (amount p)
     (amount_usd p) (currency p) (status p) (provider p) (provider_payment_id p)
     (provider_data p) x (crypto_amount p) (updated_at p)
     (paid_at p) (expires_at p).
Definition set_crypto_amount (x : option float) (p : t) : t :=
  mk (id p) (user_id p) (conversion_id p) (payment_method p) (amount p)
     (amount_usd p) (currency p) (status p) (provider p) (provider_payment_id p)
     (provider_data p) (crypto_address p) x (updated_at p)
     (paid_at p) (expires_at p).
Definition set_updated_at (x : option Z) (p : t) : t :=
  mk (id p) (user_id p) (conversion_id p) (payment_method p) (amount p)
     (amount_usd p) (currency p) (status p) (provider p) (provider_payment_id p)
     (provider_data p) (crypto_address p) (crypto_amount p) x
     (paid_at p) (expires_at p).
Definition set_paid_at (x : option Z) (p : t) : t :=
  mk (id p) (user_id p) (conversion_id p) (payment_method p) (amount p)
     (amount_usd p) (currency p) (status p) (provider p) (provider_payment_id p)
     (provider_data p) (crypto_address p) (crypto_amount p) (updated_at p)
     x (expires_at p).
End Payment.

(** A row of the [metrics] table ([utils.log_metric]). *)
Record Metric : Type := { event : string; value : float }.

(** ** The world the service runs in *)

(** The tables of the database.  [payments_seq] is the next value of the
    auto-increment primary key of [payments]. *)
Record Tables : Type := {
  payments : gmap Z Payment.t;
  conversions : gmap Z Conversion.t;
  metrics : list Metric;
  payments_seq : Z
}.

(** [session] is the state seen through the ORM session [db] (rows with
    their pending changes), [store] what has been committed.  [clock_reads]
    counts the readings of the system clock, [provider_calls] the requests
    sent to a payment provider, [log] holds the lines written by [logger]. *)
Record World : Type := {
  session : Tables;
  store : Tables;
  clock_reads : nat;
  provider_calls : nat;
  log : list string
}.

Definition with_session (t : Tables) (w : World) : World :=
  {| session := t; store := store w; clock_reads := clock_reads w;
     provider_calls := provider_calls w; log := log w |}.

Definition with_payments (ps : gmap Z Payment.t) (t : Tables) : Tables :=
  {| payments := ps; conversions := conversions t; metrics := metrics t;
     payments_seq := payments_seq t |}.

Definition with_conversions (cs : gmap Z Conversion.t) (t : Tables) : Tables :=
  {| payments := payments t; conversions := cs; metrics := metrics t;
     payments_seq := payments_seq t |}.

(** Computations: they may raise, and the changes made before an exception
    stay in the world. *)
Definition M (A : Type) : Type := World -> res A * World.

Definition ret {A} (a : A) : M A := fun w => (Ok a, w).
Definition raise {A} (e : exn) : M A := fun w => (Raise e, w).
Definition bind {A B} (m : M A) (k : A -> M B) : M B :=
  fun w => match m w with
           | (Ok a, w') => k a w'
           | (Raise e, w') => (Raise e, w')
           end.
(** [try: m  except Exception as e: h e]. *)
Definition try_except {A} (m : M A) (h : exn -> M A) : M A :=
  fun w => match m w with
           | (Ok a, w') => (Ok a, w')
           | (Raise e, w') => h e w'
           end.
Definition lift {A} (r : res A) : M A := fun w => (r, w).

Declare Scope py_scope.
Delimit Scope py_scope with py.
Notation "x <- m ;; k" := (bind m (fun x => k))
  (at level 100, m at next level, right associativity) : py_scope.
Notation "m ;;; k" := (bind m (fun _ => k))
  (at level 100, right associativity) : py_scope.
#[local] Open Scope py_scope.

(** ** Configuration and external collaborators *)

(** The fields of [config.Settings] the payment service uses. *)
Record Settings : Type := {
  stripe_secret_key : string;
  stripe_public_key : string;
  stripe_webhook_secret : string;
  coinbase_api_key : string;
  coinbase_webhook_secret : string;
  app_url : string;
  price_per_page : float;
  free_page_limit : Z
}.

(** What lies outside the repository: the clock, Python built-ins on
    strings, the SQL engine's coercion of a non-integer compared with the
    integer primary key, the providers' signature checks and the providers'
    network API.  The card provider's check also compares the signed
    timestamp with the system clock, so it takes the moment of the call (the
    number of clock readings so far); the network calls take the number of
    requests sent so far, so that two identical requests may be answered
    differently. *)
Record Env : Type := {
  utc : nat -> Z;
  str_exn : exn -> string;
  format_2f : float -> string;
  py_float : json -> res float;
  isoformat : Z -> string;
  str_lower : string -> string;
  json_loads : string -> res json;
  sql_coerce : json -> res (option Z);
  stripe_construct_event : nat -> string -> option string -> string -> res json;
  coinbase_verify_payload : string -> option string -> string -> res unit;
  stripe_PaymentIntent_create : nat -> json -> res json;
  stripe_PaymentIntent_retrieve : nat -> json -> res json;
  coinbase_charge_create : nat -> json -> res json;
  coinbase_charge_retrieve : nat -> json -> res json
}.

(** [init_payment_providers]: the Coinbase client exists only when an API
    key is configured. *)
Record Clients : Type := { coinbase : option string }.

Definition init_payment_providers (settings : Settings) : Clients :=
  {| coinbase := if negb (String.eqb (coinbase_api_key settings) "")
                 then Some (coinbase_api_key settings) else None |}.

(** [d[k] = v] and [{**d, **extra}] on association lists. *)
Fixpoint dict_set (k : string) (v : json) (kv : list (string * json))
  : list (string * json) :=
  match kv with
  | [] => [(k, v)]
  | (k', v') :: rest =>
      if String.eqb k k' then (k, v) :: rest else (k', v') :: dict_set k v rest
  end.

Definition dict_update (base extra : list (string * json)) : list (string * json) :=
  fold_left (fun acc kv => dict_set (fst kv) (snd kv) acc) extra base.

(** [**(metadata or {})]. *)
Definition metadata_or_empty (metadata : json) : res (list (string * json)) :=
  if truthy metadata then
    match metadata with
    | JObj kv => Ok kv
    | _ => Raise (TypeError "argument after ** must be a mapping")
    end
  else Ok [].

(** [obj.to_dict()]. *)
Definition to_dict (v : json) : res json :=
  match v with
  | JObj _ => Ok v
  | _ => Raise (AttributeError "to_dict")
  end.

Definition opt_json {A} (f : A -> json) (o : option A) : json :=
  match o with Some a => f a | None => JNull end.

Section Service.

Variable settings : Settings.
Variable env : Env.

Definition payment_clients : Clients := init_payment_providers settings.

(** *** Primitive effects *)

(** A call that reads the system clock. *)
Definition at_moment {A} (f : nat -> res A) : M A := fun w =>
  (f (clock_reads w),
   {| session := session w; store := store w; clock_reads := S (clock_reads w);
      provider_calls := provider_calls w; log := log w |}).

(** [datetime.utcnow()]. *)
Definition utcnow : M Z := at_moment (fun n => Ok (utc env n)).

Definition logger_error (line : string) : M unit := fun w =>
  (Ok tt,
   {| session := session w; store := store w; clock_reads := clock_reads w;
      provider_calls := provider_calls w; log := log w ++ [line] |}).

Definition call_provider (api : nat -> json -> res json) (request : json) : M json :=
  fun w =>
  (api (provider_calls w) request,
   {| session := session w; store := store w; clock_reads := clock_reads w;
      provider_calls := S (provider_calls w); log := log w |}).

(** [db.commit()]. *)
Definition db_commit : M unit := fun w =>
  (Ok tt,
   {| session := session w; store := session w; clock_reads := clock_reads w;
      provider_calls := provider_calls w; log := log w |}).

(** [db.add(obj)] for a new [Payment]; the primary key is the one the
    auto-increment column gives it at the commit that follows.  The result
    is the reference to the object. *)
Definition db_add (row : Z -> Payment.t) : M Z := fun w =>
  let i := payments_seq (session w) in
  (Ok i,
   with_session
     {| payments := <[i := row i]> (payments (session w));
        conversions := conversions (session w);
        metrics := metrics (session w);
        payments_seq := i + 1 |} w).

(** Reading an attribute of an ORM object loads its row; a reference whose
    row is gone raises. *)
Definition load_payment (ref : Z) : M Payment.t := fun w =>
  match payments (session w) !! ref with
  | Some p => (Ok p, w)
  | None => (Raise (ProviderException "ObjectDeletedError" "payments"), w)
  end.

Definition load_conversion (ref : Z) : M Conversion.t := fun w =>
  match conversions (session w) !! ref with
  | Some c => (Ok c, w)
  | None => (Raise (ProviderException "ObjectDeletedError" "conversions"), w)
  end.

(** [db.refresh(obj)]. *)
Definition db_refresh (ref : Z) : M unit :=
  (_ <- load_payment ref ;; ret tt)%py.

(** [obj.attr = x]: the object is the session's row. *)
Definition setattr_payment (ref : Z) (f : Payment.t -> Payment.t) : M unit :=
  fun w =>
  (Ok tt, with_session (with_payments (alter f ref (payments (session w))) (session w)) w).

Definition setattr_conversion (ref : Z) (f : Conversion.t -> Conversion.t) : M unit :=
  fun w =>
  (Ok tt, with_session (with_conversions (alter f ref (conversions (session w))) (session w)) w).

(** The primary key selected by [Payment.id == v]. *)
Definition payment_key (v : json) : res (option Z) :=
  match v with
  | JInt z => Ok (Some z)
  | _ => sql_coerce env v
  end.

(** [db.query(Payment).filter(Payment.id == v).first()]. *)
Definition query_payment (v : json) : M (option Z) := fun w =>
  match payment_key v with
  | Ok (Some i) =>
      match payments (session w) !! i with
      | Some _ => (Ok (Some i), w)
      | None => (Ok None, w)
      end
  | Ok None => (Ok None, w)
  | Raise e => (Raise e, w)
  end.

(** [db.query(Conversion).filter(Conversion.id == i).first()]. *)
Definition query_conversion (i : Z) : M (option Z) := fun w =>
  match conversions (session w) !! i with
  | Some _ => (Ok (Some i), w)
  | None => (Ok None, w)
  end.

(** [utils.log_metric]: a row of [metrics], written through a session of
    its own and committed at once. *)
Definition log_metric (ev : string) (v : float) : M unit := fun w =>
  let add t := {| payments := payments t; conversions := conversions t;
                  metrics := metrics t ++ [{| event := ev; value := v |}];
                  payments_seq := payments_seq t |} in
  (Ok tt,
   {| session := add (session w); store := add (store w);
      clock_reads := clock_reads w; provider_calls := provider_calls w;
      log := log w |}).

(** *** [PaymentService] *)

(** [calculate_price]. *)
Definition calculate_price (page_count : Z) : res float :=
  if page_count <=? free_page_limit settings then Ok 0%float
  else
    let extra_pages := page_count - free_page_limit settings in
    match PyFloat.of_int extra_pages with
    | Ok f => Ok (PyFloat.round2 (PrimFloat.mul f (price_per_page settings)))
    | Raise e => Raise e
    end.

(** [str(x) if x else 'anonymous']. *)
Definition user_id_str (u : option Z) : string :=
  match u with
  | Some i => if Z.eqb i 0 then "anonymous" else pretty i
  | None => "anonymous"
  end.

(** The metadata both adapters attach to the provider-side object. *)
Definition correlation_metadata (c : Conversion.t) (p : Payment.t)
  (extra : list (string * json)) : json :=
  JObj (dict_update
          [("conversion_id", JStr (pretty (Conversion.id c)));
           ("payment_id", JStr (pretty (Payment.id p)));
           ("user_id", JStr (user_id_str (Payment.user_id p)))]
          extra).

(** The keyword arguments of [stripe.PaymentIntent.create]. *)
Definition stripe_intent_params (c : Conversion.t) (p : Payment.t)
  (metadata : json) : res json :=
  match PyFloat.to_int (PrimFloat.mul (Payment.amount p) 100%float) with
  | Raise e => Raise e
  | Ok cents =>
      match metadata_or_empty metadata with
      | Raise e => Raise e
      | Ok extra =>
          match (if truthy metadata then dict_get metadata "email" else Ok JNull) with
          | Raise e => Raise e
          | Ok email =>
              Ok (JObj
                [("amount", JInt cents);
                 ("currency", JStr (str_lower env (Payment.currency p)));
                 ("metadata", correlation_metadata c p extra);
                 ("description",
                  JStr ("Payment for " ++ Conversion.original_filename c ++ " ("
                        ++ pretty (Conversion.page_count c) ++ " pages)"));
                 ("receipt_email", email);
                 ("automatic_payment_methods", JObj [("enabled", JBool true)])])
          end
      end
  end.

(** [_process_credit_card_payment]. *)
Definition _process_credit_card_payment (payment conversion : Z) (metadata : json)
  : M json :=
  try_except
    (p <- load_payment payment ;;
     c <- load_conversion conversion ;;
     params <- lift (stripe_intent_params c p metadata) ;;
     intent <- call_provider (stripe_PaymentIntent_create env) params ;;
     setattr_payment payment (Payment.set_provider (Some "stripe")) ;;;
     intent_id <- lift (getattr intent "id") ;;
     setattr_payment payment (Payment.set_provider_payment_id intent_id) ;;;
     d <- lift (to_dict intent) ;;
     setattr_payment payment (Payment.set_provider_data d) ;;;
     db_commit ;;;
     p' <- load_payment payment ;;
     secret <- lift (getattr intent "client_secret") ;;
     ret (JObj
       [("payment_id", JInt (Payment.id p'));
        ("client_secret", secret);
        ("publishable_key", JStr (stripe_public_key settings));
        ("amount", JFloat (Payment.amount p'));
        ("currency", JStr (Payment.currency p'));
        ("status", JStr (PaymentStatus_value (Payment.status p')));
        ("requires_action", JBool true);
        ("payment_method_types", JArr [JStr "card"])]))
    (fun e =>
       logger_error ("Stripe payment error: " ++ str_exn env e) ;;;
       raise e).

(** The keyword arguments of [charge.create]. *)
Definition coinbase_charge_data (c : Conversion.t) (p : Payment.t)
  (metadata : json) : res json :=
  match metadata_or_empty metadata with
  | Raise e => Raise e
  | Ok extra =>
      Ok (JObj
        [("name", JStr ("PDF Conversion: " ++ Conversion.original_filename c));
         ("description",
          JStr ("Payment for " ++ pretty (Conversion.page_count c)
                ++ " page document conversion"));
         ("pricing_type", JStr "fixed_price");
         ("local_price",
          JObj [("amount", JStr (format_2f env (Payment.amount p)));
                ("currency", JStr (Payment.currency p))]);
         ("metadata", correlation_metadata c p extra);
         ("redirect_url", JStr (app_url settings ++ "/payment/complete"));
         ("cancel_url", JStr (app_url settings ++ "/payment/cancel"))])
  end.

(** [_process_crypto_payment]. *)
Definition _process_crypto_payment (payment conversion : Z) (metadata : json)
  : M json :=
  match coinbase payment_clients with
  | None =>
      raise (HTTPException 500 "Cryptocurrency payments are not configured")
  | Some _ =>
      try_except
        (c <- load_conversion conversion ;;
         p <- load_payment payment ;;
         charge_data <- lift (coinbase_charge_data c p metadata) ;;
         charge <- call_provider (coinbase_charge_create env) charge_data ;;
         setattr_payment payment (Payment.set_provider (Some "coinbase")) ;;;
         charge_id <- lift (getattr charge "id") ;;
         setattr_payment payment (Payment.set_provider_payment_id charge_id) ;;;
         addresses <- lift (getattr charge "addresses") ;;
         btc <- lift (dict_get addresses "bitcoin") ;;
         address <- (if truthy btc then ret btc
                     else lift (dict_get addresses "ethereum")) ;;
         setattr_payment payment (Payment.set_crypto_address address) ;;;
         pricing <- lift (getattr charge "pricing") ;;
         local <- lift (getitem pricing "local") ;;
         local_amount <- lift (getitem local "amount") ;;
         crypto_amount <- lift (py_float env local_amount) ;;
         setattr_payment payment (Payment.set_crypto_amount (Some crypto_amount)) ;;;
         setattr_payment payment (Payment.set_provider_data charge) ;;;
         db_commit ;;;
         p' <- load_payment payment ;;
         hosted_url <- lift (getattr charge "hosted_url") ;;
         ret (JObj
           [("payment_id", JInt (Payment.id p'));
            ("checkout_url", hosted_url);
            ("crypto_address", Payment.crypto_address p');
            ("crypto_amount", opt_json JFloat (Payment.crypto_amount p'));
            ("currency", JStr (Payment.currency p'));
            ("status", JStr (PaymentStatus_value (Payment.status p')));
            ("expires_at",
             opt_json (fun t => JStr (isoformat env t)) (Payment.expires_at p'))]))
        (fun e =>
           logger_error ("Coinbase payment error: " ++ str_exn env e) ;;;
           raise e)
  end.

(** [_process_successful_payment]: the reconciliation step. *)
Definition _process_successful_payment (payment_id : json) (provider_data : json)
  : M json :=
  if negb (truthy payment_id) then
    raise (HTTPException 400 "No payment ID provided")
  else
    found <- query_payment payment_id ;;
    match found with
    | None => raise (HTTPException 404 "Payment not found")
    | Some payment =>
        setattr_payment payment (Payment.set_status COMPLETED) ;;;
        t_paid <- utcnow ;;
        setattr_payment payment (Payment.set_paid_at (Some t_paid)) ;;;
        t_upd <- utcnow ;;
        setattr_payment payment (Payment.set_updated_at (Some t_upd)) ;;;
        (if truthy provider_data
         then setattr_payment payment (Payment.set_provider_data provider_data)
         else ret tt) ;;;
        p <- load_payment payment ;;
        conversion <- query_conversion (Payment.conversion_id p) ;;
        match conversion with
        | Some c =>
            setattr_conversion c (Conversion.set_is_paid true) ;;;
            (* [conversion.updated_at] is no column: the attribute is lost *)
            _ <- utcnow ;; ret tt
        | None => ret tt
        end ;;;
        db_commit ;;;
        p' <- load_payment payment ;;
        ret (JObj
          [("status", JStr "success");
           ("payment_id", JInt (Payment.id p'));
           ("conversion_id", JInt (Payment.conversion_id p'));
           ("paid", JBool true)])
    end.

(** [create_payment_intent].  [conversion] is the reference to the
    [Conversion] object, [user] the [id] of the user when there is one. *)
Definition create_payment_intent (conversion : Z) (payment_method : string)
  (user : option Z) (metadata : json) : M json :=
  c <- load_conversion conversion ;;
  if Conversion.is_paid c then
    raise (HTTPException 400 "This conversion has already been paid for")
  else
    amount <- lift (calculate_price (Conversion.page_count c)) ;;
    if PrimFloat.leb amount 0%float then
      setattr_conversion conversion (Conversion.set_is_paid true) ;;;
      db_commit ;;;
      ret (JObj [("status", JStr "success"); ("paid", JBool true);
                 ("amount", JFloat 0%float)])
    else
      method <- lift (PaymentMethod_of payment_method) ;;
      now <- utcnow ;;
      payment <- db_add (fun i =>
        Payment.mk i user (Conversion.id c) method amount amount "USD" PENDING
                   None JNull JNull JNull None None None (Some (now + 24 * 3600))) ;;
      db_commit ;;;
      db_refresh payment ;;;
      try_except
        (if method_eq payment_method CREDIT_CARD then
           _process_credit_card_payment payment conversion metadata
         else if method_eq payment_method BTC || method_eq payment_method ETH
                 || method_eq payment_method USDT
                 || method_eq payment_method OTHER_CRYPTO then
           _process_crypto_payment payment conversion metadata
         else
           raise (HTTPException 400 ("Unsupported payment method: " ++ payment_method)))
        (fun e =>
           logger_error ("Error creating payment intent: " ++ str_exn env e) ;;;
           setattr_payment payment (Payment.set_status FAILED) ;;;
           setattr_payment payment
             (Payment.set_provider_data (JObj [("error", JStr (str_exn env e))])) ;;;
           db_commit ;;;
           raise (HTTPException 500 ("Error processing payment: " ++ str_exn env e))).

(** [_handle_stripe_webhook]. *)
Definition _handle_stripe_webhook (payload : string) (signature : option string)
  : M json :=
  event <- try_except
             (at_moment (fun n => stripe_construct_event env n payload signature
                                    (stripe_webhook_secret settings)))
             (fun e =>
                if is_ValueError e then
                  raise (HTTPException 400 ("Invalid payload: " ++ str_exn env e))
                else
                  match e with
                  | SignatureVerificationError _ =>
                      raise (HTTPException 400
                               ("Invalid signature: " ++ str_exn env e))
                  | _ => raise e
                  end) ;;
  ty <- lift (getitem event "type") ;;
  if eq_str ty "payment_intent.succeeded" then
    data <- lift (getitem event "data") ;;
    payment_intent <- lift (getitem data "object") ;;
    md <- lift (getattr payment_intent "metadata") ;;
    payment_id <- lift (dict_get md "payment_id") ;;
    _process_successful_payment payment_id payment_intent
  else
    ty' <- lift (getitem event "type") ;;
    ret (JObj [("status", JStr "success"); ("event", ty')]).

(** [_handle_coinbase_webhook]. *)
Definition _handle_coinbase_webhook (payload : string) (signature : option string)
  : M json :=
  try_except
    (request_data <- lift (json_loads env payload) ;;
     match coinbase_verify_payload env payload signature
             (coinbase_webhook_secret settings) with
     | Ok _ => ret tt
     | Raise e =>
         match e with
         | WebhookInvalidPayload _ | WebhookInvalidSignature _ =>
             raise (HTTPException 400
                      ("Webhook verification failed: " ++ str_exn env e))
         | _ => raise e
         end
     end ;;;
     event <- lift (dict_get request_data "event") ;;
     if negb (truthy event) then
       raise (HTTPException 400 "No event in payload")
     else
       ty <- lift (getitem event "type") ;;
       confirmed <- (if eq_str ty "charge:confirmed" then ret true
                     else ty2 <- lift (getitem event "type") ;;
                          ret (eq_str ty2 "charge:resolved")) ;;
       if (confirmed : bool) then
         charge <- lift (getitem event "data") ;;
         md <- lift (getitem charge "metadata") ;;
         payment_id <- lift (dict_get md "payment_id") ;;
         _process_successful_payment payment_id charge
       else
         ty' <- lift (getitem event "type") ;;
         ret (JObj [("status", JStr "success"); ("event", ty')]))
    (fun e =>
       match e with
       | JSONDecodeError _ => raise (HTTPException 400 "Invalid JSON payload")
       | _ => raise e
       end).

(** [handle_webhook]. *)
Definition handle_webhook (provider : string) (payload : string)
  (signature : option string) : M json :=
  try_except
    (if String.eqb provider "stripe" then
       _handle_stripe_webhook payload signature
     else if String.eqb provider "coinbase" then
       _handle_coinbase_webhook payload signature
     else
       raise (HTTPException 400 ("Unsupported payment provider: " ++ provider)))
    (fun e =>
       logger_error ("Webhook error: " ++ str_exn env e) ;;;
       raise (HTTPException 400 ("Error processing webhook: " ++ str_exn env e))).

(** The poll of [get_payment_status]: [Some] result when the provider
    reports success and the payment is reconciled, [None] otherwise. *)
Definition poll_provider (payment_id : Z) (p : Payment.t) : M (option json) :=
  match Payment.provider p with
  | Some name =>
      if String.eqb name "stripe" then
        intent <- call_provider (stripe_PaymentIntent_retrieve env)
                    (Payment.provider_payment_id p) ;;
        st <- lift (getattr intent "status") ;;
        if eq_str st "succeeded" then
          r <- _process_successful_payment (JInt payment_id) intent ;;
          ret (Some r)
        else ret None
      else if String.eqb name "coinbase" then
        match coinbase payment_clients with
        | None => raise (AttributeError "charge")
        | Some _ =>
            charge <- call_provider (coinbase_charge_retrieve env)
                        (Payment.provider_payment_id p) ;;
            st <- lift (getitem charge "status") ;;
            if eq_str st "CONFIRMED" || eq_str st "RESOLVED" then
              r <- _process_successful_payment (JInt payment_id) charge ;;
              ret (Some r)
            else ret None
        end
      else ret None
  | None => ret None
  end.

(** [get_payment_status]. *)
Definition get_payment_status (payment_id : Z) : M json :=
  found <- query_payment (JInt payment_id) ;;
  match found with
  | None => raise (HTTPException 404 "Payment not found")
  | Some payment =>
      p <- load_payment payment ;;
      if decide (Payment.status p = COMPLETED) then
        ret (JObj
          [("status", JStr "completed");
           ("paid", JBool true);
           ("payment_id", JInt (Payment.id p));
           ("conversion_id", JInt (Payment.conversion_id p));
           ("amount", JFloat (Payment.amount p));
           ("currency", JStr (Payment.currency p));
           ("paid_at",
            opt_json (fun t => JStr (isoformat env t)) (Payment.paid_at p))])
      else
        polled <- try_except (poll_provider payment_id p)
                    (fun e =>
                       logger_error ("Error checking payment status: "
                                     ++ str_exn env e) ;;;
                       ret None) ;;
        match polled with
        | Some r => ret r
        | None =>
            p' <- load_payment payment ;;
            ret (JObj
              [("status", JStr (PaymentStatus_value (Payment.status p')));
               ("paid", JBool (bool_decide (Payment.status p' = COMPLETED)));
               ("payment_id", JInt (Payment.id p'));
               ("conversion_id", JInt (Payment.conversion_id p'));
               ("amount", JFloat (Payment.amount p'));
               ("currency", JStr (Payment.currency p'));
               ("expires_at",
                opt_json (fun t => JStr (isoformat env t)) (Payment.expires_at p'))])
        end
  end.

End Service.

(** ** Sequences of operations *)

(** The three entry points of the subsystem. *)
Inductive op : Type :=
| CreateIntent (conversion : Z) (payment_method : string) (user : option Z)
               (metadata : json)
| HandleWebhook (provider payload : string) (signature : option string)
| GetStatus (payment_id : Z).

Definition run_op (settings : Settings) (env : Env) (o : op) : M json :=
  match o with
  | CreateIntent c m u md => create_payment_intent settings env c m u md
  | HandleWebhook pr body sig => handle_webhook settings env pr body sig
  | GetStatus i => get_payment_status settings env i
  end.

(** The world after a sequence of calls, whatever each call returned or
    raised. *)
Fixpoint run_ops (settings : Settings) (env : Env) (os : list op) (w : World)
  : World :=
  match os with
  | [] => w
  | o :: rest => run_ops settings env rest (snd (run_op settings env o w))
  end.

(** ** Properties of stores *)

(** The transitions the specification allows. *)
Definition spec_transition (s s' : PaymentStatus) : Prop :=
  s' = s
  \/ (s = PENDING /\ (s' = COMPLETED \/ s' = FAILED \/ s' = EXPIRED))
  \/ (s = COMPLETED /\ s' = REFUNDED).

(** The transitions the code makes. *)
Definition status_step (s s' : PaymentStatus) : Prop :=
  s' = s \/ s' = COMPLETED \/ (s = PENDING /\ s' = FAILED).

Definition status_rel (p p' : Payment.t) : Prop :=
  status_step (Payment.status p) (Payment.status p').

Definition created_status (p : Payment.t) : Prop :=
  Payment.status p = PENDING \/ Payment.status p = COMPLETED
  \/ Payment.status p = FAILED.

Definition terminal (s : PaymentStatus) : Prop :=
  s = COMPLETED \/ s = FAILED \/ s = REFUNDED.

(** Primary keys are below the auto-increment counter. *)
Definition wf (t : Tables) : Prop :=
  forall i, is_Some (payments t !! i) -> i < payments_seq t.

(** [t] comes from [t0]: a row of [t0] is still there and related to what it
    was by [rel]; a row that is new satisfies [fresh]. *)
Definition evolves (rel : Payment.t -> Payment.t -> Prop)
  (fresh : Payment.t -> Prop) (t0 t : Tables) : Prop :=
  (forall i p, payments t0 !! i = Some p ->
               exists p', payments t !! i = Some p' /\ rel p p')
  /\ (forall i p', payments t0 !! i = None -> payments t !! i = Some p' ->
                   fresh p').

(** The invariant kept along a run that started from tables [t0].  The
    committed store is followed when [track] holds. *)
Definition inv (rel : Payment.t -> Payment.t -> Prop)
  (fresh : Payment.t -> Prop) (track : Prop) (t0 : Tables) (w : World) : Prop :=
  wf t0 /\ wf (session w) /\ payments_seq t0 <= payments_seq (session w)
  /\ evolves rel fresh t0 (session w)
  /\ (track -> evolves rel fresh t0 (store w)).

Definition safe (rel : Payment.t -> Payment.t -> Prop)
  (fresh : Payment.t -> Prop) (track : Prop) (t0 : Tables) {A} (m : M A) : Prop :=
  forall w, inv rel fresh track t0 w -> inv rel fresh track t0 (snd (m w)).

(** A setter the invariant tolerates on any row. *)
Definition compat (rel : Payment.t -> Payment.t -> Prop)
  (fresh : Payment.t -> Prop) (f : Payment.t -> Payment.t) : Prop :=
  (forall p0 p, rel p0 p -> rel p0 (f p)) /\ (forall p, fresh p -> fresh (f p)).

(** What the service's assignments need of [rel] and [fresh]: every
    attribute it sets may be set on any row, FAILED may be set on a row
    created since, and a row as [create_payment_intent] builds it is
    accepted. *)
Definition tolerant (rel : Payment.t -> Payment.t -> Prop)
  (fresh : Payment.t -> Prop) : Prop :=
  (forall p, rel p p)
  /\ (forall x, compat rel fresh (Payment.set_provider x))
  /\ (forall x, compat rel fresh (Payment.set_provider_payment_id x))
  /\ (forall x, compat rel fresh (Payment.set_provider_data x))
  /\ (forall x, compat rel fresh (Payment.set_crypto_address x))
  /\ (forall x, compat rel fresh (Payment.set_crypto_amount x))
  /\ (forall x, compat rel fresh (Payment.set_updated_at x))
  /\ (forall x, compat rel fresh (Payment.set_paid_at x))
  /\ compat rel fresh (Payment.set_status COMPLETED)
  /\ (forall p, fresh p -> fresh (Payment.set_status FAILED p))
  /\ (forall i user cid method amount t,
        PrimFloat.leb amount 0%float = false ->
        fresh (Payment.mk i user cid method amount amount "USD" PENDING None
                 JNull JNull JNull None None None t)).

Definition amount_rel (p p' : Payment.t) : Prop :=
  Payment.amount p' = Payment.amount p
  /\ Payment.amount_usd p' = Payment.amount_usd p.

Definition charged (p : Payment.t) : Prop :=
  PrimFloat.leb (Payment.amount p) 0%float = false
  /\ Payment.amount_usd p = Payment.amount p.

(** ** A sample deployment *)

(** [config.py] with its defaults for pricing and URL; the keys have no
    default. *)
Definition sample_settings (coinbase_key : string) : Settings :=
  {| stripe_secret_key := "sk_test";
     stripe_public_key := "pk_test";
     stripe_webhook_secret := "whsec_stripe";
     coinbase_api_key := coinbase_key;
     coinbase_webhook_secret := "whsec_coinbase";
     app_url := "http://localhost:8000";
     price_per_page := 0.10%float;
     free_page_limit := 50 |}.

Definition sample_str_exn (e : exn) : string :=
  match e with
  | HTTPException c d => pretty c ++ ": " ++ d
  | ValueError m | JSONDecodeError m | OverflowError m | KeyError m
  | TypeError m | AttributeError m | SignatureVerificationError m
  | WebhookInvalidPayload m | WebhookInvalidSignature m => m
  | ProviderException _ m => m
  end.

Definition digit_of (a : Ascii.ascii) : option Z :=
  let n := Z.of_nat (Ascii.nat_of_ascii a) in
  if (48 <=? n) && (n <=? 57) then Some (n - 48) else None.

Fixpoint parse_digits (s : string) (acc : Z) : option Z :=
  match s with
  | EmptyString => Some acc
  | String a rest =>
      match digit_of a with
      | Some d => parse_digits rest (10 * acc + d)
      | None => None
      end
  end.

Definition sample_sql_coerce (v : json) : res (option Z) :=
  match v with
  | JStr s => Ok (if String.eqb s "" then None else parse_digits s 0)
  | JInt z => Ok (Some z)
  | JBool b => Ok (Some (if b then 1 else 0))
  | JNull => Ok None
  | _ => Raise (ProviderException "ProgrammingError" "cannot bind parameter")
  end.

(** A succeeded card intent whose metadata names payment [pid]. *)
Definition succeeded_intent (pid : string) : json :=
  JObj [("id", JStr "pi_1"); ("status", JStr "succeeded");
        ("metadata", JObj [("payment_id", JStr pid)])].

Definition succeeded_event (pid : string) : json :=
  JObj [("type", JStr "payment_intent.succeeded");
        ("data", JObj [("object", succeeded_intent pid)])].

(** A toy signature scheme: the header must be the secret itself; the body
    ["succeeded:1"] is the event above for payment 1. *)
Definition sample_construct_event (moment : nat) (payload : string)
  (signature : option string) (secret : string) : res json :=
  match signature with
  | Some s =>
      if String.eqb s secret then
        if String.eqb payload "succeeded:1" then Ok (succeeded_event "1")
        else Raise (ValueError "payload is not an event")
      else Raise (SignatureVerificationError "no matching signature")
  | None => Raise (SignatureVerificationError "no signature header")
  end.

Definition sample_json_loads (payload : string) : res json :=
  if String.eqb payload "{}" then Ok (JObj [])
  else if String.eqb payload "confirmed:1" then
    Ok (JObj [("event",
               JObj [("type", JStr "charge:confirmed");
                     ("data", JObj [("metadata", JObj [("payment_id", JStr "1")])])])])
  else Raise (JSONDecodeError "Expecting value").

Definition sample_verify_payload (payload : string) (signature : option string)
  (secret : string) : res unit :=
  match signature with
  | Some s => if String.eqb s secret then Ok tt
              else Raise (WebhookInvalidSignature "signature mismatch")
  | None => Raise (WebhookInvalidSignature "missing signature")
  end.

(** A card provider that accepts every intent and echoes the amount. *)
Definition stripe_accepts (n : nat) (params : json) : res json :=
  match getitem params "amount" with
  | Ok a => Ok (JObj [("id", JStr "pi_1"); ("client_secret", JStr "cs_1");
                      ("amount", a)])
  | Raise e => Raise e
  end.

(** A card provider that cannot be reached. *)
Definition stripe_unreachable (n : nat) (params : json) : res json :=
  Raise (ProviderException "APIConnectionError" "connection refused").

Definition sample_env (create : nat -> json -> res json) : Env :=
  {| utc := fun n => 1700000000 + Z.of_nat n;
     str_exn := sample_str_exn;
     format_2f := fun _ => "0.00";
     py_float := fun _ => Raise (ValueError "could not convert string to float");
     isoformat := fun t => pretty t;
     str_lower := fun s => if String.eqb s "USD" then "usd" else s;
     json_loads := sample_json_loads;
     sql_coerce := sample_sql_coerce;
     stripe_construct_event := sample_construct_event;
     coinbase_verify_payload := sample_verify_payload;
     stripe_PaymentIntent_create := create;
     stripe_PaymentIntent_retrieve := fun _ _ => Ok (succeeded_intent "1");
     coinbase_charge_create := stripe_unreachable;
     coinbase_charge_retrieve := stripe_unreachable |}.

Definition sample_conversion (pages : Z) (paid : bool) : Conversion.t :=
  Conversion.mk 1 "report.docx" pages paid.

Definition sample_payment (st : PaymentStatus) : Payment.t :=
  Payment.mk 1 None 1 CREDIT_CARD 3%float 3%float "USD" st (Some "stripe")
             (JStr "pi_1") (JObj [("id", JStr "pi_1")]) JNull None
             (Some 1600000000) (Some 1600000000) (Some 1600086400).

Definition tables_of (ps : list (Z * Payment.t)) (cs : list (Z * Conversion.t))
  (next : Z) : Tables :=
  {| payments := list_to_map ps; conversions := list_to_map cs;
     metrics := []; payments_seq := next |}.

Definition world_of (t : Tables) : World :=
  {| session := t; store := t; clock_reads := 0; provider_calls := 0; log := [] |}.

(** One conversion of [pages] pages and no payment yet. *)
Definition fresh_world (pages : Z) (paid : bool) : World :=
  world_of (tables_of [] [(1, sample_conversion pages paid)] 1).

(** The same conversion with payment 1 in status [st]. *)
Definition paying_world (st : PaymentStatus) (paid : bool) : World :=
  world_of (tables_of [(1, sample_payment st)] [(1, sample_conversion 80 paid)] 2).


(** ** The effect of a reconciliation *)

(** The row left by [_process_successful_payment] for a payment that was
    [p], when the clock has been read [n] times before. *)
Definition reconciled_row (env : Env) (provider_data : json) (n : nat)
  (p : Payment.t) : Payment.t :=
  let p1 := Payment.set_updated_at (Some (utc env (S n)))
              (Payment.set_paid_at (Some (utc env n))
                 (Payment.set_status COMPLETED p)) in
  if truthy provider_data then Payment.set_provider_data provider_data p1 else p1.

Definition reconciled_tables (env : Env) (provider_data : json) (n : nat)
  (i : Z) (p : Payment.t) (t : Tables) : Tables :=
  {| payments := <[i := reconciled_row env provider_data n p]> (payments t);
     conversions := alter (Conversion.set_is_paid true) (Payment.conversion_id p)
                      (conversions t);
     metrics := metrics t;
     payments_seq := payments_seq t |}.

Definition reconciled_world (env : Env) (provider_data : json) (i : Z)
  (p : Payment.t) (w : World) : World :=
  let t := reconciled_tables env provider_data (clock_reads w) i p (session w) in
  {| session := t; store := t;
     clock_reads :=
       match conversions (session w) !! Payment.conversion_id p with
       | Some _ => S (S (S (clock_reads w)))
       | None => S (S (clock_reads w))
       end;
     provider_calls := provider_calls w;
     log := log w |}.

Definition reconciled_reply (p : Payment.t) : json :=
  JObj [("status", JStr "success");
        ("payment_id", JInt (Payment.id p));
        ("conversion_id", JInt (Payment.conversion_id p));
        ("paid", JBool true)].

(** An inbound event that fails the provider's verification in the world
    [w]: the card provider's [construct_event] raises (bad signature or
    malformed body), or, for the crypto provider, the body does not parse or
    [verify_payload] raises. *)
Definition unverified (settings : Settings) (env : Env) (w : World)
  (provider payload : string) (signature : option string) : Prop :=
  (provider = "stripe"
   /\ exists e, stripe_construct_event env (clock_reads w) payload signature
                  (stripe_webhook_secret settings) = Raise e)
  \/ (provider = "coinbase"
      /\ ((exists e, json_loads env payload = Raise e)
          \/ (exists e, coinbase_verify_payload env payload signature
                          (coinbase_webhook_secret settings) = Raise e))).

(** The default prices of the first [n] page counts above the free limit
    are the doubles nearest to a tenth of the extra pages. *)
Definition exact_upto (n : nat) : bool :=
  forallb (fun k =>
    let extra := Z.of_nat (S k) in
    match calculate_price (sample_settings "") (50 + extra) with
    | Ok a => PrimFloat.eqb a
                (PrimFloat.div (PyFloat.of_small_int (10 * extra)) 100%float)
    | Raise _ => false
    end) (List.seq 0 n).

(** ** Rounding to two decimals, as the specification words it *)

(** [k] is the integer nearest to [num / den], and the even one of the two
    when [num / den] lies half-way between two integers ([0 < den]). *)
Definition nearest_even (num den k : Z) : Prop :=
  2 * Z.abs (num - k * den) <= den
  /\ (2 * Z.abs (num - k * den) = den -> Z.even k = true).

(** The double nearest to [k] hundredths, for [0 <= k < 2^53]: such a [k]
    and [100] are doubles themselves, and IEEE division rounds their exact
    quotient to the nearest double. *)
Definition hundredths (k : Z) : float :=
  PrimFloat.div (PyFloat.of_small_int k) 100%float.

(** [r] is [x] rounded to two decimals.  A finite double [x] is
    [m * 2^e] up to its sign.  Below [2^46] (that is, [e < -6]) a hundred
    times its magnitude is [m * 100 / 2^(-e)]; [r] is the double nearest to
    [k] hundredths, with the sign of [x], for the integer [k] nearest to
    that number, the even one at a tie.  From [2^46] on, neighbouring
    doubles are more than a hundredth apart and [r] is [x]; so it is for
    zeros, infinities and NaN. *)
Definition rounded_to_cents (x r : float) : Prop :=
  match Prim2SF x with
  | S754_finite s m e =>
      if e <? -6 then
        exists k, nearest_even (Z.pos m * 100) (2 ^ (- e)) k
                  /\ 0 <= k < 2 ^ 53
                  /\ r = (if s then PrimFloat.opp (hundredths k) else hundredths k)
      else r = x
  | _ => r = x
  end.

(** The sample settings with another page price. *)
Definition settings_at_price (price : float) : Settings :=
  {| stripe_secret_key := stripe_secret_key (sample_settings "");
     stripe_public_key := stripe_public_key (sample_settings "");
     stripe_webhook_secret := stripe_webhook_secret (sample_settings "");
     coinbase_api_key := "";
     coinbase_webhook_secret := coinbase_webhook_secret (sample_settings "");
     app_url := app_url (sample_settings "");
     price_per_page := price;
     free_page_limit := 50 |}.

(** ** Computations that raise only before they change anything *)

(** [quiet m]: [m] leaves the session and the store as they are. *)
Definition quiet {A} (m : M A) : Prop :=
  forall w, session (snd (m w)) = session w /\ store (snd (m w)) = store w.

(** [atomic m]: when [m] raises, the session and the store are as they were. *)
Definition atomic {A} (m : M A) : Prop :=
  forall w, (exists a, fst (m w) = Ok a)
            \/ (session (snd (m w)) = session w /\ store (snd (m w)) = store w).


(** The cents [_process_credit_card_payment] asks the card provider for, for
    a conversion of [pages] pages: [int(payment.amount * 100)] of the price. *)
Definition card_cents (settings : Settings) (pages : Z) : res Z :=
  match calculate_price settings pages with
  | Ok a => PyFloat.to_int (PrimFloat.mul a 100%float)
  | Raise e => Raise e
  end.

(** The numbers of extra pages up to [n] for which the cents asked are not
    ten times the extra pages (the price being 0.10 a page). *)
Definition lost_cents (n : nat) : list nat :=
  List.filter (fun k => match card_cents (sample_settings "") (50 + Z.of_nat k) with
                   | Ok c => negb (Z.eqb c (10 * Z.of_nat k))
                   | Raise _ => true
                   end) (List.seq 1 n).

(** ** Further properties of stores *)

(** The columns of a payment that are fixed when it is created. *)
Definition same_terms (p p' : Payment.t) : Prop :=
  Payment.id p' = Payment.id p
  /\ Payment.user_id p' = Payment.user_id p
  /\ Payment.conversion_id p' = Payment.conversion_id p
  /\ Payment.payment_method p' = Payment.payment_method p
  /\ Payment.amount p' = Payment.amount p
  /\ Payment.amount_usd p' = Payment.amount_usd p
  /\ Payment.currency p' = Payment.currency p
  /\ Payment.expires_at p' = Payment.expires_at p.

(** The conversions of [t] are those of [t0], none added or removed, each
    the same but for [is_paid], which may have gone from false to true. *)
Definition conversions_advance (t0 t : Tables) : Prop :=
  forall i,
    match conversions t0 !! i with
    | Some c =>
        exists c', conversions t !! i = Some c'
                   /\ Conversion.id c' = Conversion.id c
                   /\ Conversion.original_filename c' = Conversion.original_filename c
                   /\ Conversion.page_count c' = Conversion.page_count c
                   /\ (Conversion.is_paid c = true -> Conversion.is_paid c' = true)
    | None => conversions t !! i = None
    end.

Definition metrics_kept (t0 t : Tables) : Prop := metrics t = metrics t0.

(** A relation [R] between a baseline and the tables is kept by [m], in the
    session and, when [track] holds, in the committed store. *)
Definition keeps (R : Tables -> Tables -> Prop) (track : Prop) (t0 : Tables)
  {A} (m : M A) : Prop :=
  forall w,
    R t0 (session w) /\ (track -> R t0 (store w)) ->
    R t0 (session (snd (m w))) /\ (track -> R t0 (store (snd (m w)))).

(** What [keeps] needs of [R]: it survives the three writes the service
    makes, marking a conversion paid, setting attributes of a payment,
    and adding a payment. *)
Definition closed_under_writes (R : Tables -> Tables -> Prop) : Prop :=
  (forall t0 t ref,
     R t0 t ->
     R t0 (with_conversions
             (alter (Conversion.set_is_paid true) ref (conversions t)) t))
  /\ (forall t0 t ref f,
        R t0 t -> R t0 (with_payments (alter f ref (payments t)) t))
  /\ (forall t0 t row,
        R t0 t ->
        R t0 {| payments := <[payments_seq t := row]> (payments t);
                conversions := conversions t;
                metrics := metrics t;
                payments_seq := payments_seq t + 1 |}).

(** At most [n] requests are sent to a payment provider. *)
Definition calls_at_most (n : nat) {A} (m : M A) : Prop :=
  forall w,
    (provider_calls w <= provider_calls (snd (m w)) <= provider_calls w + n)%nat.

(** The number of operations in a sequence that may contact a provider. *)
Definition polling_ops (os : list op) : nat :=
  length (List.filter (fun o => match o with
                                | HandleWebhook _ _ _ => false
                                | _ => true
                                end) os).

(** [m] leaves the tables as they are or reconciles one payment that
    exists: the tables it leaves are [reconciled_tables] of that payment,
    committed. *)
Definition reconciling (env : Env) {A} (m : M A) : Prop :=
  forall w,
    (session (snd (m w)) = session w /\ store (snd (m w)) = store w)
    \/ (exists i p provider_data n,
          payments (session w) !! i = Some p
          /\ session (snd (m w))
             = reconciled_tables env provider_data n i p (session w)
          /\ store (snd (m w)) = session (snd (m w))).

(** The world once the system clock has been read once more. *)
Definition tick (w : World) : World :=
  {| session := session w; store := store w; clock_reads := S (clock_reads w);
     provider_calls := provider_calls w; log := log w |}.

(** The acknowledgement of an event that asks for no reconciliation. *)
Definition event_ack (ty : json) : json :=
  JObj [("status", JStr "success"); ("event", ty)].

(** A deployment whose providers deliver [ev] whatever they are asked: the
    card provider's verification returns it, it is what the body of a
    crypto webhook parses to, every signature being accepted, and it is the
    answer to every request; every amount reads as [0.0015]. *)
Definition env_delivering (ev : json) : Env :=
  {| utc := utc (sample_env stripe_accepts);
     str_exn := sample_str_exn;
     format_2f := format_2f (sample_env stripe_accepts);
     py_float := fun _ => Ok 0.0015%float;
     isoformat := isoformat (sample_env stripe_accepts);
     str_lower := str_lower (sample_env stripe_accepts);
     json_loads := fun _ => Ok ev;
     sql_coerce := sample_sql_coerce;
     stripe_construct_event := fun _ _ _ _ => Ok ev;
     coinbase_verify_payload := fun _ _ _ => Ok tt;
     stripe_PaymentIntent_create := stripe_accepts;
     stripe_PaymentIntent_retrieve := fun _ _ => Ok ev;
     coinbase_charge_create := fun _ _ => Ok ev;
     coinbase_charge_retrieve := fun _ _ => Ok ev |}.

(** [t'] differs from [t] at most in the payment [i], which is still there
    with the status and the terms it had. *)
Definition frame_rel (i : Z) (t t' : Tables) : Prop :=
  conversions t' = conversions t
  /\ payments_seq t' = payments_seq t
  /\ metrics t' = metrics t
  /\ (forall j, j <> i -> payments t' !! j = payments t !! j)
  /\ (forall p, payments t !! i = Some p ->
        exists p', payments t' !! i = Some p'
                   /\ same_terms p p'
                   /\ Payment.status p' = Payment.status p).

Definition adapter_frame (i : Z) {A} (m : M A) : Prop :=
  forall w, frame_rel i (session w) (session (snd (m w))).

(** When [m] returns, what it did is committed. *)
Definition settling {A} (m : M A) : Prop :=
  forall w, (exists a, fst (m w) = Ok a) ->
            store (snd (m w)) = session (snd (m w)).

(** [m] keeps a committed world committed. *)
Definition steady {A} (m : M A) : Prop :=
  forall w, store w = session w -> store (snd (m w)) = session (snd (m w)).

(** The row [create_payment_intent] adds for a conversion [c]. *)
Definition new_payment (env : Env) (w : World) (user : option Z)
  (c : Conversion.t) (method : PaymentMethod) (amount : float) : Payment.t :=
  Payment.mk (payments_seq (session w)) user (Conversion.id c) method amount
    amount "USD" PENDING None JNull JNull JNull None None None
    (Some (utc env (clock_reads w) + 24 * 3600)).

(** The world once one more request has been sent to a provider. *)
Definition called (w : World) : World :=
  {| session := session w; store := store w; clock_reads := clock_reads w;
     provider_calls := S (provider_calls w); log := log w |}.

(** The world with the session [t], committed. *)
Definition committed (t : Tables) (w : World) : World :=
  {| session := t; store := t; clock_reads := clock_reads w;
     provider_calls := provider_calls w; log := log w |}.

(** The tables once the row [p] is added under the next key. *)
Definition tables_with_new (p : Payment.t) (t : Tables) : Tables :=
  {| payments := <[payments_seq t := p]> (payments t);
     conversions := conversions t;
     metrics := metrics t;
     payments_seq := payments_seq t + 1 |}.

(** The world once [line] has been written to the log. *)
Definition logged (line : string) (w : World) : World :=
  {| session := session w; store := store w; clock_reads := clock_reads w;
     provider_calls := provider_calls w; log := log w ++ [line] |}.

(** The answer of [get_payment_status] for a payment that is not
    COMPLETED and that the poll has not reconciled. *)
Definition unpaid_reply (env : Env) (p : Payment.t) : json :=
  JObj [("status", JStr (PaymentStatus_value (Payment.status p)));
        ("paid", JBool false);
        ("payment_id", JInt (Payment.id p));
        ("conversion_id", JInt (Payment.conversion_id p));
        ("amount", JFloat (Payment.amount p));
        ("currency", JStr (Payment.currency p));
        ("expires_at",
         opt_json (fun t => JStr (isoformat env t)) (Payment.expires_at p))].

(** The world once the status poll has logged the error [e] and gone on. *)
Definition swallowed (env : Env) (e : exn) (w : World) : World :=
  logged ("Error checking payment status: " ++ str_exn env e) w.

(** A deployment whose card provider cannot be reached, for new intents
    and for polls. *)
Definition env_offline : Env :=
  {| utc := utc (sample_env stripe_unreachable);
     str_exn := sample_str_exn;
     format_2f := format_2f (sample_env stripe_unreachable);
     py_float := py_float (sample_env stripe_unreachable);
     isoformat := isoformat (sample_env stripe_unreachable);
     str_lower := str_lower (sample_env stripe_unreachable);
     json_loads := sample_json_loads;
     sql_coerce := sample_sql_coerce;
     stripe_construct_event := sample_construct_event;
     coinbase_verify_payload := sample_verify_payload;
     stripe_PaymentIntent_create := stripe_unreachable;
     stripe_PaymentIntent_retrieve := stripe_unreachable;
     coinbase_charge_create := stripe_unreachable;
     coinbase_charge_retrieve := stripe_unreachable |}.

(** The conversion of 80 pages with payment 1 as [p]. *)
Definition world_with_payment (p : Payment.t) : World :=
  world_of (tables_of [(1, p)] [(1, sample_conversion 80 false)] 2).

(** Every COMPLETED payment whose conversion exists has it marked paid. *)
Definition completed_are_paid (t : Tables) : Prop :=
  forall i p c,
    payments t !! i = Some p ->
    Payment.status p = COMPLETED ->
    conversions t !! Payment.conversion_id p = Some c ->
    Conversion.is_paid c = true.

(** * Theorems *)

(** ** Python floats *)

(** The rounding agrees with CPython on the usual suspects: [2.675] is just
    below the tie, [0.125] and [0.375] are exact ties. *)
Example round2_samples :
  PyFloat.round2 2.675%float = 2.67%float
  /\ PyFloat.round2 0.125%float = 0.12%float
  /\ PyFloat.round2 0.375%float = 0.38%float
  /\ PyFloat.round2 (PrimFloat.mul 23%float 0.1%float) = 2.3%float
  /\ PyFloat.round2 0.001%float = 0%float.
Proof. repeat split. Qed.

Example to_int_samples :
  PyFloat.to_int (PrimFloat.mul 2.3%float 100%float) = Ok 229
  /\ PyFloat.to_int (-2.5)%float = Ok (-2)
  /\ PyFloat.of_int 30 = Ok 30%float
  /\ PyFloat.of_int (2 ^ 53 + 1) = Ok 9007199254740992%float.
Proof. vm_compute. repeat split. Qed.

(** The integer chosen is a nearest one, and the even one at a tie. *)
Lemma round_half_even_nearest (num den : Z) :
  0 < den ->
  2 * Z.abs (num - PyFloat.round_half_even num den * den) <= den.
Proof.
  intros Hden. unfold PyFloat.round_half_even.
  pose proof (Z.div_mod num den ltac:(lia)) as Hdm.
  pose proof (Z.mod_pos_bound num den Hden) as Hb.
  destruct (Z.compare_spec (2 * (num mod den)) den) as [He|Hl|Hg].
  - destruct (Z.even (num / den)); nia.
  - nia.
  - nia.
Qed.

Lemma round_half_even_tie (num den : Z) :
  0 < den -> 2 * (num mod den) = den ->
  Z.even (PyFloat.round_half_even num den) = true.
Proof.
  intros Hden Ht. unfold PyFloat.round_half_even.
  rewrite Ht, Z.compare_refl.
  destruct (Z.even (num / den)) eqn:E; [exact E|].
  rewrite Z.even_add, E. reflexivity.
Qed.

(** The integer chosen by [round_half_even] is the one the specification
    asks for, and the only one. *)
Lemma round_half_even_spec (num den : Z) :
  0 < den -> nearest_even num den (PyFloat.round_half_even num den).
Proof.
  intros Hden. split; [apply round_half_even_nearest, Hden|].
  destruct (Z.eq_dec (2 * (num mod den)) den) as [Ht|Hn];
    [intros _; apply round_half_even_tie; assumption|].
  intros Heq. exfalso. revert Heq. unfold PyFloat.round_half_even.
  pose proof (Z.div_mod num den ltac:(lia)) as Hdm.
  pose proof (Z.mod_pos_bound num den Hden) as Hb.
  destruct (Z.compare_spec (2 * (num mod den)) den) as [He|Hl|Hg];
    [contradiction|nia|nia].
Qed.

Lemma nearest_even_unique (num den k k' : Z) :
  0 < den -> nearest_even num den k -> nearest_even num den k' -> k = k'.
Proof.
  intros Hden [Hk Hek] [Hk' Hek'].
  destruct (Z.eq_dec k k') as [|Hne]; [assumption|exfalso].
  assert (Hadj : k' = k + 1 \/ k = k' + 1) by nia.
  assert (Htie : 2 * Z.abs (num - k * den) = den
                 /\ 2 * Z.abs (num - k' * den) = den) by nia.
  destruct Htie as [Ht Ht'].
  specialize (Hek Ht). specialize (Hek' Ht').
  destruct Hadj as [->| ->].
  - rewrite Z.even_add, Hek in Hek'. discriminate.
  - rewrite Z.even_add, Hek' in Hek. discriminate.
Qed.

(** The mantissa of a double has at most 53 bits. *)
Lemma digits2_pos_bound (m : positive) : Z.pos m < 2 ^ Z.pos (digits2_pos m).
Proof.
  induction m as [m IH|m IH|]; simpl digits2_pos;
    rewrite ?Pos2Z.inj_succ, ?Z.pow_succ_r by lia; lia.
Qed.

Lemma mantissa_bound (x : float) (s : bool) (m : positive) (e : Z) :
  Prim2SF x = S754_finite s m e -> Z.pos m < 2 ^ 53.
Proof.
  intros Hx. pose proof (Prim2SF_valid x) as Hv. rewrite Hx in Hv.
  unfold SpecFloat.valid_binary, bounded, canonical_mantissa, fexp in Hv.
  apply andb_prop in Hv. destruct Hv as [Hc _]. apply Z.eqb_eq in Hc.
  pose proof (digits2_pos_bound m) as Hd.
  assert (Hle : Z.pos (digits2_pos m) <= 53) by (unfold prec in Hc; lia).
  eapply Z.lt_le_trans; [exact Hd|].
  apply Z.pow_le_mono_r; lia.
Qed.

(** [round(x, 2)] rounds to two decimals, for every double. *)
Lemma round2_rounds_to_cents (x : float) : rounded_to_cents x (PyFloat.round2 x).
Proof.
  unfold rounded_to_cents, PyFloat.round2.
  destruct (Prim2SF x) as [| | |s m e] eqn:Hx; try reflexivity.
  destruct (Z.ltb_spec e (-6)) as [He|He].
  - assert (Hleb : (-6 <=? e) = false) by (apply Z.leb_gt; exact He).
    rewrite Hleb.
    assert (Hden : 128 <= 2 ^ (- e)).
    { change 128 with (2 ^ 7). apply Z.pow_le_mono_r; lia. }
    pose proof (mantissa_bound x s m e Hx) as Hm.
    pose proof (round_half_even_spec (Z.pos m * 100) (2 ^ (- e)) ltac:(lia))
      as Hk.
    exists (PyFloat.round_half_even (Z.pos m * 100) (2 ^ (- e))).
    split; [exact Hk|]. split; [|reflexivity].
    destruct Hk as [Hk _].
    change (2 ^ 53) with 9007199254740992 in *.
    split; nia.
  - assert (Hleb : (-6 <=? e) = true) by (apply Z.leb_le; lia).
    rewrite Hleb. reflexivity.
Qed.

(** C4: the price is [0] up to the free page limit and, above it, the
    product of the extra pages and the page price rounded to two decimals:
    the double nearest to [k] hundredths, for the integer [k] nearest to a
    hundred times the product (the even one at a tie).  With the limit 50
    and the price 0.10, 80 pages cost exactly 3.00.  The function reads
    nothing but its argument and the settings. *)
Theorem calculate_price_contract (settings : Settings) (page_count : Z) :
  0 <= page_count ->
  (page_count <= free_page_limit settings ->
   calculate_price settings page_count = Ok 0%float)
  /\ (free_page_limit settings < page_count ->
      forall f, PyFloat.of_int (page_count - free_page_limit settings) = Ok f ->
      exists r,
        calculate_price settings page_count = Ok r
        /\ rounded_to_cents (PrimFloat.mul f (price_per_page settings)) r)
  /\ (free_page_limit settings = 50 -> price_per_page settings = 0.10%float ->
      page_count = 80 -> calculate_price settings page_count = Ok 3%float).
Proof.
  intros _. unfold calculate_price. repeat split.
  - intros Hle. apply Z.leb_le in Hle. rewrite Hle. reflexivity.
  - intros Hlt f Hf. apply Z.leb_gt in Hlt. rewrite Hlt, Hf.
    eexists. split; [reflexivity|]. apply round2_rounds_to_cents.
  - intros -> -> ->. reflexivity.
Qed.

(** At 73 pages the product [23 * 0.10] is the double above 2.3, a hundred
    times which is nearest to 230, and the price is the double 2.3; at the
    page price 0.125 one extra page is a tie between 12 and 13 hundredths
    and costs 0.12, at 0.375 a tie between 37 and 38 and costs 0.38. *)
Lemma calculate_price_contract_witness :
  calculate_price (sample_settings "") 80 = Ok 3%float
  /\ calculate_price (sample_settings "") 50 = Ok 0%float
  /\ (calculate_price (sample_settings "") 73 = Ok (hundredths 230)
      /\ rounded_to_cents (PrimFloat.mul 23%float 0.10%float) (hundredths 230)
      /\ PrimFloat.eqb (PrimFloat.mul 23%float 0.10%float) (hundredths 230) = false)
  /\ (calculate_price (settings_at_price 0.125) 51 = Ok (hundredths 12)
      /\ rounded_to_cents (PrimFloat.mul 1%float 0.125%float) (hundredths 12))
  /\ (calculate_price (settings_at_price 0.375) 51 = Ok (hundredths 38)
      /\ rounded_to_cents (PrimFloat.mul 1%float 0.375%float) (hundredths 38)).
Proof.
  destruct (calculate_price_contract (sample_settings "") 80 ltac:(lia))
    as (_ & _ & Hex).
  destruct (calculate_price_contract (sample_settings "") 50 ltac:(lia))
    as (Hfree & _).
  destruct (calculate_price_contract (sample_settings "") 73 ltac:(lia))
    as (_ & H73 & _).
  destruct (calculate_price_contract (settings_at_price 0.125) 51 ltac:(lia))
    as (_ & Heven & _).
  destruct (calculate_price_contract (settings_at_price 0.375) 51 ltac:(lia))
    as (_ & Hodd & _).
  split; [|split; [|split; [|split]]].
  - apply Hex; reflexivity.
  - apply Hfree. simpl. lia.
  - destruct (H73 ltac:(simpl; lia) 23%float eq_refl) as (r & Hr & Hround).
    vm_compute in Hr. injection Hr as <-.
    split; [reflexivity|]. split; [exact Hround|reflexivity].
  - destruct (Heven ltac:(simpl; lia) 1%float eq_refl) as (r & Hr & Hround).
    vm_compute in Hr. injection Hr as <-.
    split; [reflexivity|exact Hround].
  - destruct (Hodd ltac:(simpl; lia) 1%float eq_refl) as (r & Hr & Hround).
    vm_compute in Hr. injection Hr as <-.
    split; [reflexivity|exact Hround].
Defined.

(** C8: whatever the provider name, body and signature, [handle_webhook]
    returns or raises an [HTTPException] with status 400. *)
Theorem handle_webhook_never_5xx (settings : Settings) (env : Env)
  (provider payload : string) (signature : option string) (w : World) :
  match fst (handle_webhook settings env provider payload signature w) with
  | Ok _ => True
  | Raise e => exists detail, e = HTTPException 400 detail
  end.
Proof.
  unfold handle_webhook, try_except.
  destruct (_ w) as [[r|e] w']; simpl; [exact I|].
  eexists. reflexivity.
Qed.

Lemma default_prices_exact : exact_upto 2000 = true.
Proof. vm_compute. reflexivity. Qed.

(** Up to 22 extra pages the cents are right; the 23rd is the first to
    lose one, and 144 of the first 1999 do. *)
Lemma first_lost_cent :
  lost_cents 22 = [] /\ lost_cents 23 = [23%nat]
  /\ length (lost_cents 1999) = 144%nat.
Proof. vm_compute. repeat split. Qed.

(** C9 fails at 73 pages: the price is 2.30, a hundred times which is 230,
    and the card provider is asked for 229 cents, because [int(2.3 * 100)]
    truncates [229.99999999999997].  The intent stored in [provider_data]
    echoes the amount that was sent. *)
Theorem card_amount_loses_a_cent :
  let w := snd (create_payment_intent (sample_settings "") (sample_env stripe_accepts)
                  1 "credit_card" None JNull (fresh_world 73 false)) in
  calculate_price (sample_settings "") 73 = Ok 2.3%float
  /\ PyFloat.to_int (PrimFloat.mul 2.3%float 100%float) = Ok 229
  /\ exists p, payments (store w) !! 1 = Some p
               /\ Payment.amount p = 2.3%float
               /\ getitem (Payment.provider_data p) "amount" = Ok (JInt 229).
Proof.
  vm_compute. repeat split. eexists. repeat split.
Qed.

(** C7: an unsupported method on a conversion that has a price escapes as
    the [ValueError] of [PaymentMethod(...)], not as an [HTTPException] with
    status 400; on a free conversion it is not rejected at all. *)
Theorem unsupported_method_not_rejected_as_400 :
  create_payment_intent (sample_settings "") (sample_env stripe_accepts)
    1 "paypal" None JNull (fresh_world 80 false)
  = (Raise (ValueError "'paypal' is not a valid PaymentMethod"),
     fresh_world 80 false)
  /\ fst (create_payment_intent (sample_settings "") (sample_env stripe_accepts)
            1 "paypal" None JNull (fresh_world 10 false))
     = Ok (JObj [("status", JStr "success"); ("paid", JBool true);
                 ("amount", JFloat 0%float)]).
Proof.
  split; vm_compute; reflexivity.
Qed.

(** Whatever the method, when [PaymentMethod(...)] rejects it for an unpaid
    conversion with a price, its exception leaves [create_payment_intent]
    as it is, before the clock is read and before any row is added. *)
Lemma unsupported_method_escapes (settings : Settings) (env : Env)
  (conversion : Z) (payment_method : string) (user : option Z) (metadata : json)
  (w : World) (c : Conversion.t) (amount : float) (e : exn) :
  conversions (session w) !! conversion = Some c ->
  Conversion.is_paid c = false ->
  calculate_price settings (Conversion.page_count c) = Ok amount ->
  PrimFloat.leb amount 0%float = false ->
  PaymentMethod_of payment_method = Raise e ->
  e = ValueError ("'" ++ payment_method ++ "' is not a valid PaymentMethod")
  /\ create_payment_intent settings env conversion payment_method user metadata w
     = (Raise e, w).
Proof.
  intros Hc Hpaid Hprice Hpos Hm. split.
  - unfold PaymentMethod_of in Hm.
    repeat match type of Hm with
           | (if ?b then _ else _) = _ => destruct b; [discriminate|]
           end.
    congruence.
  - unfold create_payment_intent, bind, load_conversion, lift.
    rewrite Hc. cbv beta iota. rewrite Hpaid, Hprice. cbv beta iota.
    rewrite Hpos, Hm. reflexivity.
Qed.

(** C6 as stated fails: with no Coinbase key a crypto intent raises, and
    payment 1, absent before, is in the committed store, FAILED. *)
Lemma crypto_unconfigured_persists_payment :
  let w := fresh_world 80 false in
  let r := create_payment_intent (sample_settings "") (sample_env stripe_accepts)
             1 "bitcoin" None JNull w in
  payments (store w) !! 1 = None
  /\ (exists detail, fst r = Raise (HTTPException 500 detail))
  /\ (Payment.status <$> payments (store (snd r)) !! 1) = Some FAILED.
Proof.
  vm_compute. repeat split. eexists. reflexivity.
Qed.

Lemma alter_lookup_insert {A} (f : A -> A) (m : gmap Z A) (i : Z) (x : A) :
  m !! i = Some x -> alter f i m = <[i := f x]> m.
Proof.
  intros H. rewrite <- (insert_id m i x H) at 1. apply alter_insert_eq.
Qed.

Lemma alter_absent {A} (f : A -> A) (m : gmap Z A) (i : Z) :
  m !! i = None -> alter f i m = m.
Proof.
  intros H. apply map_eq. intros j. rewrite lookup_alter.
  case_decide; [subst; rewrite H; reflexivity | reflexivity].
Qed.

(** A reconciliation whose identifier selects the row [p]: it succeeds,
    whatever the status of [p], and leaves the world [reconciled_world]. *)
Lemma reconcile_run (env : Env) (payment_id provider_data : json) (w : World)
  (i : Z) (p : Payment.t) :
  truthy payment_id = true ->
  payment_key env payment_id = Ok (Some i) ->
  payments (session w) !! i = Some p ->
  _process_successful_payment env payment_id provider_data w
  = (Ok (reconciled_reply p), reconciled_world env provider_data i p w).
Proof.
  intros Ht Hk Hp.
  unfold _process_successful_payment. rewrite Ht. simpl.
  unfold bind at 1. unfold query_payment. rewrite Hk, Hp.
  unfold reconciled_world, reconciled_tables, reconciled_row, reconciled_reply.
  unfold bind, setattr_payment, setattr_conversion, utcnow, load_payment,
    query_conversion, db_commit, ret, with_session, with_payments,
    with_conversions.
  cbn -[alter insert lookup].
  rewrite (alter_lookup_insert _ _ _ _ Hp).
  rewrite !alter_insert_eq.
  destruct (truthy provider_data); cbn -[alter insert lookup];
    rewrite ?alter_insert_eq, lookup_insert_eq; cbn -[alter insert lookup];
    destruct (conversions (session w) !! Payment.conversion_id p) eqn:Hc;
    cbn -[alter insert lookup];
    rewrite ?lookup_insert_eq; cbn -[alter insert lookup];
    rewrite ?(alter_absent _ _ _ Hc); reflexivity.
Qed.

(** ** Rejected events change nothing *)

Section Atomic.

Variable settings : Settings.
Variable env : Env.

Lemma quiet_ret {A} (a : A) : quiet (ret a).
Proof. intros w. split; reflexivity. Qed.

Lemma quiet_raise {A} (e : exn) : quiet (@raise A e).
Proof. intros w. split; reflexivity. Qed.

Lemma quiet_lift {A} (r : res A) : quiet (lift r).
Proof. intros w. split; reflexivity. Qed.

Lemma quiet_at_moment {A} (f : nat -> res A) : quiet (at_moment f).
Proof. intros w. split; reflexivity. Qed.

Lemma quiet_logger_error (line : string) : quiet (logger_error line).
Proof. intros w. split; reflexivity. Qed.

Lemma quiet_bind {A B} (m : M A) (k : A -> M B) :
  quiet m -> (forall a, quiet (k a)) -> quiet (bind m k).
Proof.
  intros Hm Hk w. unfold bind. destruct (Hm w) as [H1 H2].
  destruct (m w) as [[a|e] w1]; simpl in *.
  - destruct (Hk a w1) as [H3 H4]. split; congruence.
  - split; assumption.
Qed.

Lemma quiet_try {A} (m : M A) (h : exn -> M A) :
  quiet m -> (forall e, quiet (h e)) -> quiet (try_except m h).
Proof.
  intros Hm Hh w. unfold try_except. destruct (Hm w) as [H1 H2].
  destruct (m w) as [[a|e] w1]; simpl in *.
  - split; assumption.
  - destruct (Hh e w1) as [H3 H4]. split; congruence.
Qed.

Lemma quiet_atomic {A} (m : M A) : quiet m -> atomic m.
Proof. intros H w. right. apply H. Qed.

Lemma atomic_bind {A B} (m : M A) (k : A -> M B) :
  quiet m -> (forall a, atomic (k a)) -> atomic (bind m k).
Proof.
  intros Hm Hk w. unfold bind. destruct (Hm w) as [H1 H2].
  destruct (m w) as [[a|e] w1]; simpl in *.
  - destruct (Hk a w1) as [H | [H3 H4]]; [left; exact H | right; split; congruence].
  - right. split; assumption.
Qed.

Lemma atomic_try {A} (m : M A) (h : exn -> M A) :
  atomic m -> (forall e, quiet (h e)) -> atomic (try_except m h).
Proof.
  intros Hm Hh w. unfold try_except. specialize (Hm w).
  destruct (m w) as [[a|e] w1]; simpl in *.
  - left. eauto.
  - destruct Hm as [[a Ha] | [H1 H2]]; [discriminate|].
    right. destruct (Hh e w1) as [H3 H4]. split; congruence.
Qed.

Ltac quiet_step :=
  match goal with
  | |- quiet (bind _ _) => apply quiet_bind; [|intros ?]
  | |- quiet (try_except _ _) => apply quiet_try; [|intros ?]
  | |- quiet (ret _) => apply quiet_ret
  | |- quiet (raise _) => apply quiet_raise
  | |- quiet (lift _) => apply quiet_lift
  | |- quiet (at_moment _) => apply quiet_at_moment
  | |- quiet (logger_error _) => apply quiet_logger_error
  | |- quiet (if ?b then _ else _) => destruct b
  | |- quiet (match ?x with _ => _ end) => destruct x
  end.

Lemma atomic_reconcile (payment_id provider_data : json) :
  atomic (_process_successful_payment env payment_id provider_data).
Proof.
  intros w. destruct (truthy payment_id) eqn:Ht.
  - destruct (payment_key env payment_id) as [[i|]|e] eqn:Hk.
    + destruct (payments (session w) !! i) as [p|] eqn:Hp.
      * left. rewrite (reconcile_run env payment_id provider_data w i p Ht Hk Hp).
        eauto.
      * right. unfold _process_successful_payment. rewrite Ht. simpl.
        unfold bind, query_payment. rewrite Hk, Hp. split; reflexivity.
    + right. unfold _process_successful_payment. rewrite Ht. simpl.
      unfold bind, query_payment. rewrite Hk. split; reflexivity.
    + right. unfold _process_successful_payment. rewrite Ht. simpl.
      unfold bind, query_payment. rewrite Hk. split; reflexivity.
  - right. unfold _process_successful_payment. rewrite Ht. split; reflexivity.
Qed.

Ltac atomic_step :=
  match goal with
  | |- atomic (_process_successful_payment _ _ _) => apply atomic_reconcile
  | |- atomic (bind _ _) => apply atomic_bind; [repeat quiet_step|intros ?]
  | |- atomic (try_except _ _) => apply atomic_try; [|intros ?; repeat quiet_step]
  | |- atomic (ret _) => apply quiet_atomic, quiet_ret
  | |- atomic (raise _) => apply quiet_atomic, quiet_raise
  | |- atomic (if ?b then _ else _) => destruct b
  | |- atomic (match ?x with _ => _ end) => destruct x
  end.

Lemma atomic_handle_webhook (provider payload : string) (signature : option string) :
  atomic (handle_webhook settings env provider payload signature).
Proof.
  unfold handle_webhook, _handle_stripe_webhook, _handle_coinbase_webhook.
  repeat atomic_step.
Qed.

End Atomic.

(** C10: when the payment exists and no conversion has its
    [conversion_id], the reconciliation still completes the payment,
    commits and answers [paid: True]; the conversions are as they were. *)
Theorem reconcile_without_conversion (env : Env) (payment_id provider_data : json)
  (w : World) (i : Z) (p : Payment.t) :
  truthy payment_id = true ->
  payment_key env payment_id = Ok (Some i) ->
  payments (session w) !! i = Some p ->
  conversions (session w) !! Payment.conversion_id p = None ->
  exists w',
    _process_successful_payment env payment_id provider_data w
    = (Ok (JObj [("status", JStr "success");
                 ("payment_id", JInt (Payment.id p));
                 ("conversion_id", JInt (Payment.conversion_id p));
                 ("paid", JBool true)]), w')
    /\ store w' = session w'
    /\ (Payment.status <$> payments (store w') !! i) = Some COMPLETED
    /\ conversions (store w') = conversions (session w).
Proof.
  intros Ht Hk Hp Hc.
  rewrite (reconcile_run env payment_id provider_data w i p Ht Hk Hp).
  eexists. split; [reflexivity|].
  unfold reconciled_world, reconciled_tables. cbn -[alter insert lookup].
  split; [reflexivity|]. split.
  - rewrite lookup_insert_eq. unfold reconciled_row.
    destruct (truthy provider_data); reflexivity.
  - apply alter_absent, Hc.
Qed.

Lemma reconcile_without_conversion_witness :
  exists w',
    _process_successful_payment (sample_env stripe_accepts) (JStr "1")
      (succeeded_intent "1")
      (world_of (tables_of [(1, sample_payment PENDING)] [] 2))
    = (Ok (JObj [("status", JStr "success"); ("payment_id", JInt 1);
                 ("conversion_id", JInt 1); ("paid", JBool true)]), w')
    /\ store w' = session w'
    /\ (Payment.status <$> payments (store w') !! 1) = Some COMPLETED
    /\ conversions (store w') = ∅.
Proof.
  apply (reconcile_without_conversion (sample_env stripe_accepts) (JStr "1")
           (succeeded_intent "1")
           (world_of (tables_of [(1, sample_payment PENDING)] [] 2))
           1 (sample_payment PENDING));
    reflexivity.
Defined.

(** C1 as stated fails: a valid succeeded event re-stamps [paid_at] and
    replaces [provider_data] of a COMPLETED payment, and moves a FAILED
    payment to COMPLETED. *)
Lemma reconcile_not_noop_at_terminal :
  let run st :=
    handle_webhook (sample_settings "") (sample_env stripe_accepts)
      "stripe" "succeeded:1" (Some "whsec_stripe") (paying_world st true) in
  terminal COMPLETED /\ terminal FAILED
  /\ (Payment.paid_at <$> payments (store (paying_world COMPLETED true)) !! 1)
     = Some (Some 1600000000)
  /\ (exists r, fst (run COMPLETED) = Ok r)
  /\ (Payment.paid_at <$> payments (store (snd (run COMPLETED))) !! 1)
     = Some (Some 1700000001)
  /\ (Payment.provider_data <$> payments (store (snd (run COMPLETED))) !! 1)
     = Some (succeeded_intent "1")
  /\ (Payment.status <$> payments (store (snd (run FAILED))) !! 1)
     = Some COMPLETED.
Proof.
  unfold terminal. vm_compute. repeat split; eauto.
Qed.

(** C1, amended: on a payment in a terminal status the reconciliation
    returns success and writes no metric, but it is no no-op: the row ends
    COMPLETED with [paid_at] and [updated_at] read from the clock anew and
    [provider_data] replaced by a non-empty payload, the conversion's
    [is_paid] is set again, and the result is committed.  The other payments
    are untouched. *)
Theorem reconcile_at_terminal (env : Env) (payment_id provider_data : json)
  (w : World) (i : Z) (p : Payment.t) :
  truthy payment_id = true ->
  payment_key env payment_id = Ok (Some i) ->
  payments (session w) !! i = Some p ->
  terminal (Payment.status p) ->
  exists w' p',
    _process_successful_payment env payment_id provider_data w
    = (Ok (JObj [("status", JStr "success");
                 ("payment_id", JInt (Payment.id p));
                 ("conversion_id", JInt (Payment.conversion_id p));
                 ("paid", JBool true)]), w')
    /\ store w' = session w'
    /\ payments (session w') !! i = Some p'
    /\ Payment.status p' = COMPLETED
    /\ Payment.paid_at p' = Some (utc env (clock_reads w))
    /\ Payment.updated_at p' = Some (utc env (S (clock_reads w)))
    /\ Payment.provider_data p'
       = (if truthy provider_data then provider_data else Payment.provider_data p)
    /\ (forall j, j <> i -> payments (session w') !! j = payments (session w) !! j)
    /\ conversions (session w')
       = alter (Conversion.set_is_paid true) (Payment.conversion_id p)
           (conversions (session w))
    /\ metrics (session w') = metrics (session w)
    /\ log w' = log w.
Proof.
  intros Ht Hk Hp _.
  rewrite (reconcile_run env payment_id provider_data w i p Ht Hk Hp).
  exists (reconciled_world env provider_data i p w),
         (reconciled_row env provider_data (clock_reads w) p).
  unfold reconciled_world, reconciled_tables. cbn -[alter insert lookup].
  repeat split.
  - apply lookup_insert_eq.
  - unfold reconciled_row. destruct (truthy provider_data); reflexivity.
  - unfold reconciled_row. destruct (truthy provider_data); reflexivity.
  - unfold reconciled_row. destruct (truthy provider_data); reflexivity.
  - unfold reconciled_row. destruct (truthy provider_data); reflexivity.
  - intros j Hj. apply lookup_insert_ne. congruence.
Qed.

Lemma reconcile_at_terminal_witness :
  exists w' p',
    _process_successful_payment (sample_env stripe_accepts) (JStr "1")
      (succeeded_intent "1") (paying_world REFUNDED true)
    = (Ok (JObj [("status", JStr "success"); ("payment_id", JInt 1);
                 ("conversion_id", JInt 1); ("paid", JBool true)]), w')
    /\ store w' = session w'
    /\ payments (session w') !! 1 = Some p'
    /\ Payment.status p' = COMPLETED
    /\ Payment.paid_at p' = Some 1700000000
    /\ Payment.updated_at p' = Some 1700000001
    /\ Payment.provider_data p' = succeeded_intent "1"
    /\ (forall j, j <> 1 -> payments (session w') !! j
                            = payments (session (paying_world REFUNDED true)) !! j)
    /\ conversions (session w')
       = alter (Conversion.set_is_paid true) 1
           (conversions (session (paying_world REFUNDED true)))
    /\ metrics (session w') = []
    /\ log w' = [].
Proof.
  apply (reconcile_at_terminal (sample_env stripe_accepts) (JStr "1")
           (succeeded_intent "1") (paying_world REFUNDED true) 1
           (sample_payment REFUNDED)).
  - reflexivity.
  - reflexivity.
  - reflexivity.
  - right. right. reflexivity.
Defined.

(** C3: an event that fails verification, or whose body is malformed, is
    rejected with status 400 and leaves the session and the committed store
    as they were, on the card path and on the crypto path; and whenever
    [handle_webhook] raises, for whatever reason, both are as they were. *)
Theorem unverified_webhook_rejected (settings : Settings) (env : Env)
  (provider payload : string) (signature : option string) (w : World) :
  let r := handle_webhook settings env provider payload signature w in
  (unverified settings env w provider payload signature ->
   exists detail,
     fst r = Raise (HTTPException 400 detail)
     /\ session (snd r) = session w
     /\ store (snd r) = store w
     /\ provider_calls (snd r) = provider_calls w)
  /\ (forall e, fst r = Raise e ->
       session (snd r) = session w /\ store (snd r) = store w).
Proof.
  intros r. split.
  - subst r.
    intros [[-> [e He]] | [-> [[e He] | [e He]]]];
      unfold handle_webhook, try_except; simpl.
    + unfold _handle_stripe_webhook, bind, try_except, at_moment. rewrite He.
      destruct (is_ValueError e); [simpl; eauto 10|].
      destruct e; simpl; eauto 10.
    + unfold _handle_coinbase_webhook, try_except, bind, lift. rewrite He.
      destruct e; simpl; eauto 10.
    + unfold _handle_coinbase_webhook, try_except, bind, lift. rewrite He.
      destruct (json_loads env payload) as [rd|e0].
      * destruct e; simpl; eauto 10.
      * destruct e0; simpl; eauto 10.
  - intros e He.
    destruct (atomic_handle_webhook settings env provider payload signature w)
      as [[a Ha] | H]; [|exact H].
    fold r in Ha. congruence.
Qed.

Lemma unverified_webhook_rejected_witness :
  let forged := handle_webhook (sample_settings "") (sample_env stripe_accepts)
                  "stripe" "succeeded:1" (Some "forged")
                  (paying_world PENDING false) in
  let unsigned := handle_webhook (sample_settings "") (sample_env stripe_accepts)
                    "coinbase" "confirmed:1" None (paying_world PENDING false) in
  (exists detail, fst forged = Raise (HTTPException 400 detail)
                  /\ session (snd forged) = session (paying_world PENDING false)
                  /\ store (snd forged) = store (paying_world PENDING false)
                  /\ provider_calls (snd forged) = 0%nat)
  /\ (exists detail, fst unsigned = Raise (HTTPException 400 detail)
                     /\ session (snd unsigned) = session (paying_world PENDING false)
                     /\ store (snd unsigned) = store (paying_world PENDING false)
                     /\ provider_calls (snd unsigned) = 0%nat).
Proof.
  split.
  - apply (unverified_webhook_rejected (sample_settings "")
             (sample_env stripe_accepts) "stripe" "succeeded:1" (Some "forged")
             (paying_world PENDING false)).
    left. split; [reflexivity|]. eexists. reflexivity.
  - apply (unverified_webhook_rejected (sample_settings "")
             (sample_env stripe_accepts) "coinbase" "confirmed:1" None
             (paying_world PENDING false)).
    right. split; [reflexivity|]. right. eexists. reflexivity.
Defined.

Lemma crypto_method_cases (m : string) :
  method_eq m BTC || method_eq m ETH || method_eq m USDT
  || method_eq m OTHER_CRYPTO = true ->
  m = "bitcoin" \/ m = "ethereum" \/ m = "usdt" \/ m = "other_crypto".
Proof.
  unfold method_eq. simpl. intros H.
  repeat (apply orb_true_iff in H; destruct H as [H|H]);
    apply String.eqb_eq in H; auto.
Qed.

(** C6, amended: with no crypto credential configured, a crypto intent for
    an unpaid conversion with a price fails with status 500, the detail
    quoting the adapter's "not configured" error; the payment row created
    for the call is committed in status FAILED with that error as
    [provider_data], and the conversions are untouched. *)
Theorem crypto_unconfigured_fails_payment (settings : Settings) (env : Env)
  (conversion : Z) (payment_method : string) (user : option Z) (metadata : json)
  (w : World) (c : Conversion.t) (amount : float) :
  coinbase_api_key settings = "" ->
  method_eq payment_method BTC || method_eq payment_method ETH
  || method_eq payment_method USDT || method_eq payment_method OTHER_CRYPTO = true ->
  conversions (session w) !! conversion = Some c ->
  Conversion.is_paid c = false ->
  calculate_price settings (Conversion.page_count c) = Ok amount ->
  PrimFloat.leb amount 0%float = false ->
  exists w' method,
    create_payment_intent settings env conversion payment_method user metadata w
    = (Raise (HTTPException 500
                ("Error processing payment: "
                 ++ str_exn env (HTTPException 500
                                   "Cryptocurrency payments are not configured"))),
       w')
    /\ PaymentMethod_of payment_method = Ok method
    /\ store w' = session w'
    /\ payments (store w')
       = <[payments_seq (session w) :=
             Payment.mk (payments_seq (session w)) user (Conversion.id c) method
               amount amount "USD" FAILED None JNull
               (JObj [("error",
                       JStr (str_exn env
                               (HTTPException 500
                                  "Cryptocurrency payments are not configured")))])
               JNull None None None
               (Some (utc env (clock_reads w) + 24 * 3600))]>
           (payments (session w))
    /\ conversions (store w') = conversions (session w).
Proof.
  intros Hkey Hm Hc Hpaid Hprice Hpos.
  unfold create_payment_intent.
  unfold bind at 1. unfold load_conversion. rewrite Hc, Hpaid.
  unfold bind at 1. unfold lift. rewrite Hprice, Hpos.
  assert (Hcl : coinbase (payment_clients settings) = None).
  { unfold payment_clients, init_payment_providers. rewrite Hkey. reflexivity. }
  destruct (crypto_method_cases _ Hm) as [-> | [-> | [-> | ->]]];
    cbn -[alter insert lookup Z.mul payment_clients];
    unfold db_refresh;
    unfold bind, db_add, db_commit, load_payment, try_except,
      _process_crypto_payment, raise, logger_error, setattr_payment, ret,
      with_session, with_payments;
    cbn -[alter insert lookup Z.mul payment_clients];
    rewrite lookup_insert_eq, Hcl; cbn -[alter insert lookup Z.mul payment_clients];
    eexists _, _; (split; [reflexivity|]); (split; [reflexivity|]);
    cbn -[alter insert lookup Z.mul];
    (split; [reflexivity|]); (split; [|reflexivity]);
    rewrite !alter_insert_eq; reflexivity.
Qed.

(** ** Invariants of the payments table *)

Section Frame.

Variable rel : Payment.t -> Payment.t -> Prop.
Variable fresh : Payment.t -> Prop.
Variable track : Prop.
Variable t0 : Tables.

#[local] Abbreviation safe' := (safe rel fresh track t0).
#[local] Abbreviation inv' := (inv rel fresh track t0).

Lemma inv_same_payments (w w' : World) :
  payments (session w') = payments (session w) ->
  payments_seq (session w') = payments_seq (session w) ->
  payments (store w') = payments (store w) ->
  inv' w -> inv' w'.
Proof.
  intros Hs Hq Hst (Hwf0 & Hwf & Hseq & Hev & Hevs).
  unfold inv, wf, evolves in *. rewrite Hs, Hq, Hst. auto.
Qed.

Lemma inv_commit (w w' : World) :
  session w' = session w -> store w' = session w -> inv' w -> inv' w'.
Proof.
  intros Hs Hst (Hwf0 & Hwf & Hseq & Hev & Hevs).
  unfold inv. rewrite Hs, Hst. auto.
Qed.

Lemma safe_ret {A} (a : A) : safe' (ret a).
Proof. intros w H. exact H. Qed.

Lemma safe_raise {A} (e : exn) : safe' (@raise A e).
Proof. intros w H. exact H. Qed.

Lemma safe_lift {A} (r : res A) : safe' (lift r).
Proof. intros w H. exact H. Qed.

Lemma safe_bind {A B} (m : M A) (k : A -> M B) :
  safe' m -> (forall a, safe' (k a)) -> safe' (bind m k).
Proof.
  intros Hm Hk w H. unfold bind. specialize (Hm w H).
  destruct (m w) as [[a|e] w1]; simpl in *; [apply Hk, Hm | exact Hm].
Qed.

Lemma safe_try {A} (m : M A) (h : exn -> M A) :
  safe' m -> (forall e, safe' (h e)) -> safe' (try_except m h).
Proof.
  intros Hm Hh w H. unfold try_except. specialize (Hm w H).
  destruct (m w) as [[a|e] w1]; simpl in *; [exact Hm | apply Hh, Hm].
Qed.

Lemma safe_at_moment {A} (f : nat -> res A) : safe' (at_moment f).
Proof. intros w H. revert H. apply inv_same_payments; reflexivity. Qed.

Lemma safe_utcnow (env : Env) : safe' (utcnow env).
Proof. apply safe_at_moment. Qed.

Lemma safe_logger_error (line : string) : safe' (logger_error line).
Proof. intros w H. revert H. apply inv_same_payments; reflexivity. Qed.

Lemma safe_call_provider (api : nat -> json -> res json) (request : json) :
  safe' (call_provider api request).
Proof. intros w H. revert H. apply inv_same_payments; reflexivity. Qed.

Lemma safe_db_commit : safe' db_commit.
Proof. intros w H. revert H. apply inv_commit; reflexivity. Qed.

Lemma safe_load_payment (ref : Z) : safe' (load_payment ref).
Proof.
  intros w H. unfold load_payment.
  destruct (payments (session w) !! ref); exact H.
Qed.

Lemma safe_load_conversion (ref : Z) : safe' (load_conversion ref).
Proof.
  intros w H. unfold load_conversion.
  destruct (conversions (session w) !! ref); exact H.
Qed.

Lemma safe_query_payment (env : Env) (v : json) : safe' (query_payment env v).
Proof.
  intros w H. unfold query_payment.
  destruct (payment_key env v) as [[i|]|e]; try exact H.
  destruct (payments (session w) !! i); exact H.
Qed.

Lemma safe_query_conversion (i : Z) : safe' (query_conversion i).
Proof.
  intros w H. unfold query_conversion.
  destruct (conversions (session w) !! i); exact H.
Qed.

Lemma safe_setattr_conversion (ref : Z) (f : Conversion.t -> Conversion.t) :
  safe' (setattr_conversion ref f).
Proof. intros w H. revert H. apply inv_same_payments; reflexivity. Qed.

Lemma safe_setattr_payment (ref : Z) (f : Payment.t -> Payment.t) :
  compat rel fresh f -> safe' (setattr_payment ref f).
Proof.
  intros [Hrel Hfresh] w (Hwf0 & Hwf & Hseq & [Hold Hnew] & Hevs).
  unfold setattr_payment, inv. cbn -[alter].
  refine (conj Hwf0 (conj _ (conj Hseq (conj (conj _ _) Hevs))));
    unfold wf; cbn -[alter].
  - intros i Hi. apply Hwf. rewrite lookup_alter_is_Some in Hi. exact Hi.
  - intros i p Hp. destruct (Hold i p Hp) as (p' & Hp' & Hr).
    rewrite lookup_alter. case_decide.
    + subst. rewrite Hp'. simpl. eauto.
    + eauto.
  - intros i p' Hnone Hp'. rewrite lookup_alter in Hp'. case_decide.
    + subst. destruct (payments (session w) !! i) as [q|] eqn:Hq;
        simpl in Hp'; [|discriminate].
      injection Hp' as <-. eauto.
    + eauto.
Qed.

(** A row created since [t0] may take any value [fresh] accepts. *)
Lemma safe_setattr_created (ref : Z) (f : Payment.t -> Payment.t) :
  payments t0 !! ref = None -> (forall p, fresh p -> fresh (f p)) ->
  safe' (setattr_payment ref f).
Proof.
  intros Hnone0 Hfresh w (Hwf0 & Hwf & Hseq & [Hold Hnew] & Hevs).
  unfold setattr_payment, inv. cbn -[alter].
  refine (conj Hwf0 (conj _ (conj Hseq (conj (conj _ _) Hevs))));
    unfold wf; cbn -[alter].
  - intros i Hi. apply Hwf. rewrite lookup_alter_is_Some in Hi. exact Hi.
  - intros i p Hp. destruct (Hold i p Hp) as (p' & Hp' & Hr).
    rewrite lookup_alter_ne; [eauto | congruence].
  - intros i p' Hnone Hp'. rewrite lookup_alter in Hp'. case_decide.
    + subst. destruct (payments (session w) !! i) as [q|] eqn:Hq;
        simpl in Hp'; [|discriminate].
      injection Hp' as <-. eauto.
    + eauto.
Qed.

(** [db.add] and what follows it: the new reference is a key that [t0]
    does not have. *)
Lemma safe_db_add {B} (row : Z -> Payment.t) (k : Z -> M B) :
  (forall i, fresh (row i)) ->
  (forall i, payments t0 !! i = None -> safe' (k i)) ->
  safe' (bind (db_add row) k).
Proof.
  intros Hrow Hk w H. unfold bind, db_add.
  destruct H as (Hwf0 & Hwf & Hseq & [Hold Hnew] & Hevs).
  assert (Hnone0 : payments t0 !! payments_seq (session w) = None).
  { destruct (payments t0 !! payments_seq (session w)) eqn:E; [|reflexivity].
    assert (payments_seq (session w) < payments_seq t0) by (apply Hwf0; eauto).
    lia. }
  apply (Hk _ Hnone0).
  unfold inv, with_session. cbn -[insert].
  refine (conj Hwf0 (conj _ (conj _ (conj (conj _ _) Hevs))));
    unfold wf; cbn -[insert]; [|lia|..].
  - intros i Hi. rewrite lookup_insert_is_Some in Hi.
    destruct Hi as [<- | [_ Hi]]; [lia | specialize (Hwf i Hi); lia].
  - intros i p Hp. destruct (Hold i p Hp) as (p' & Hp' & Hr).
    rewrite lookup_insert_ne; [eauto | congruence].
  - intros i p' Hnone Hp'. rewrite lookup_insert in Hp'. case_decide.
    + injection Hp' as <-. apply Hrow.
    + eauto.
Qed.

End Frame.

Section FrameService.

Variable rel : Payment.t -> Payment.t -> Prop.
Variable fresh : Payment.t -> Prop.
Variable track : Prop.
Variable t0 : Tables.
Variable settings : Settings.
Variable env : Env.

Hypothesis Htol : tolerant rel fresh.

#[local] Abbreviation safe' := (safe rel fresh track t0).

Ltac tol_setter :=
  destruct Htol as (_ & ? & ? & ? & ? & ? & ? & ? & ? & _); auto.

(** One step of the structural argument: split binds and handlers, close
    the primitives, case on what the code tests. *)
Ltac safe_step :=
  match goal with
  | |- safe _ _ _ _ (bind _ _) => apply safe_bind; [|intros ?]
  | |- safe _ _ _ _ (try_except _ _) => apply safe_try; [|intros ?]
  | |- safe _ _ _ _ (ret _) => apply safe_ret
  | |- safe _ _ _ _ (raise _) => apply safe_raise
  | |- safe _ _ _ _ (lift _) => apply safe_lift
  | |- safe _ _ _ _ (utcnow _) => apply safe_utcnow
  | |- safe _ _ _ _ (at_moment _) => apply safe_at_moment
  | |- safe _ _ _ _ (logger_error _) => apply safe_logger_error
  | |- safe _ _ _ _ (call_provider _ _) => apply safe_call_provider
  | |- safe _ _ _ _ db_commit => apply safe_db_commit
  | |- safe _ _ _ _ (load_payment _) => apply safe_load_payment
  | |- safe _ _ _ _ (load_conversion _) => apply safe_load_conversion
  | |- safe _ _ _ _ (query_payment _ _) => apply safe_query_payment
  | |- safe _ _ _ _ (query_conversion _) => apply safe_query_conversion
  | |- safe _ _ _ _ (setattr_conversion _ _) => apply safe_setattr_conversion
  | |- safe _ _ _ _ (setattr_payment _ _) =>
      apply safe_setattr_payment; tol_setter
  | |- safe _ _ _ _ (if ?b then _ else _) => destruct b
  | |- safe _ _ _ _ (match ?x with _ => _ end) => destruct x
  end.

Lemma safe_reconcile (payment_id provider_data : json) :
  safe' (_process_successful_payment env payment_id provider_data).
Proof. unfold _process_successful_payment. repeat safe_step. Qed.

Lemma safe_card (payment conversion : Z) (metadata : json) :
  safe' (_process_credit_card_payment settings env payment conversion metadata).
Proof. unfold _process_credit_card_payment. repeat safe_step. Qed.

Lemma safe_crypto (payment conversion : Z) (metadata : json) :
  safe' (_process_crypto_payment settings env payment conversion metadata).
Proof. unfold _process_crypto_payment. repeat safe_step. Qed.

Lemma safe_create_payment_intent (conversion : Z) (payment_method : string)
  (user : option Z) (metadata : json) :
  safe' (create_payment_intent settings env conversion payment_method user metadata).
Proof.
  unfold create_payment_intent.
  apply safe_bind; [apply safe_load_conversion | intros c].
  destruct (Conversion.is_paid c); [apply safe_raise|].
  apply safe_bind; [apply safe_lift | intros amount].
  destruct (PrimFloat.leb amount 0%float) eqn:Hamount; [repeat safe_step|].
  apply safe_bind; [apply safe_lift | intros method].
  apply safe_bind; [apply safe_utcnow | intros now].
  apply safe_db_add.
  - intros i. destruct Htol as (_ & _ & _ & _ & _ & _ & _ & _ & _ & _ & Hrow).
    apply Hrow, Hamount.
  - intros payment Hnew.
    apply safe_bind; [apply safe_db_commit | intros _].
    apply safe_bind; [unfold db_refresh; repeat safe_step | intros _].
    apply safe_try.
    + destruct (method_eq payment_method CREDIT_CARD); [apply safe_card|].
      destruct (_ || _); [apply safe_crypto | apply safe_raise].
    + intros e.
      apply safe_bind; [apply safe_logger_error | intros _].
      apply safe_bind.
      { apply safe_setattr_created; [exact Hnew|].
        destruct Htol as (_ & _ & _ & _ & _ & _ & _ & _ & _ & Hf & _). exact Hf. }
      intros _. repeat safe_step.
Qed.

Lemma safe_handle_webhook (provider payload : string) (signature : option string) :
  safe' (handle_webhook settings env provider payload signature).
Proof.
  unfold handle_webhook, _handle_stripe_webhook, _handle_coinbase_webhook.
  repeat first [apply safe_reconcile | safe_step].
Qed.

Lemma safe_get_payment_status (payment_id : Z) :
  safe' (get_payment_status settings env payment_id).
Proof.
  unfold get_payment_status, poll_provider.
  repeat first [apply safe_reconcile | safe_step].
Qed.

Lemma safe_run_op (o : op) : safe' (run_op settings env o).
Proof.
  destruct o; simpl.
  - apply safe_create_payment_intent.
  - apply safe_handle_webhook.
  - apply safe_get_payment_status.
Qed.

Lemma inv_run_ops (os : list op) (w : World) :
  inv rel fresh track t0 w -> inv rel fresh track t0 (run_ops settings env os w).
Proof.
  revert w. induction os as [|o os IH]; intros w H; simpl; [exact H|].
  apply IH, safe_run_op, H.
Qed.

End FrameService.

Lemma status_tolerant : tolerant status_rel created_status.
Proof.
  unfold tolerant, compat, status_rel, created_status, status_step.
  repeat split; intros; simpl; auto.
Qed.

Lemma amount_tolerant : tolerant amount_rel charged.
Proof.
  unfold tolerant, compat, amount_rel, charged.
  repeat split; intros; simpl; auto; tauto.
Qed.

Lemma evolves_refl (rel : Payment.t -> Payment.t -> Prop)
  (fresh : Payment.t -> Prop) (t : Tables) :
  (forall p, rel p p) -> evolves rel fresh t t.
Proof.
  intros Hrefl. split.
  - intros i p Hp. eauto.
  - intros i p' Hnone Hp'. congruence.
Qed.

(** A float that is neither [<= 0] nor NaN is positive. *)
Lemma not_leb_zero_positive (x : float) :
  PrimFloat.leb x 0%float = false -> PrimFloat.is_nan x = false ->
  PrimFloat.ltb 0%float x = true.
Proof.
  unfold PrimFloat.is_nan. rewrite FloatAxioms.leb_spec, FloatAxioms.ltb_spec, FloatAxioms.eqb_spec.
  change (Prim2SF 0%float) with (S754_zero false).
  destruct (Prim2SF x) as [s|s| |s m e]; try destruct s; simpl;
    intros H1 H2; try discriminate; try reflexivity.
  all: unfold SFeqb, SFcompare in H2; simpl in H2;
    rewrite ?Z.compare_refl, ?Pos.compare_refl in H2; simpl in H2;
    try discriminate.
Qed.

(** C2 as stated fails: an intent the card provider could not be reached
    for is FAILED, and a later succeeded event for it makes it COMPLETED. *)
Lemma failed_payment_gets_completed :
  let s := sample_settings "" in
  let e := sample_env stripe_unreachable in
  let w1 := run_ops s e [CreateIntent 1 "credit_card" None JNull]
              (fresh_world 80 false) in
  let w2 := run_ops s e [HandleWebhook "stripe" "succeeded:1" (Some "whsec_stripe")]
              w1 in
  (Payment.status <$> payments (store w1) !! 1) = Some FAILED
  /\ (Payment.status <$> payments (store w2) !! 1) = Some COMPLETED
  /\ ~ spec_transition FAILED COMPLETED.
Proof.
  split; [vm_compute; reflexivity|]. split; [vm_compute; reflexivity|].
  unfold spec_transition. intros [H | [[H _] | [H _]]]; discriminate.
Qed.

(** C2, amended: along every sequence of operations the status of a payment
    stays as it is, becomes COMPLETED (from any status), or goes from
    PENDING to FAILED; so COMPLETED is never left and no operation sets
    EXPIRED or REFUNDED.  A payment created on the way is PENDING, COMPLETED
    or FAILED.  This holds of the session and, from a committed start, of
    the committed store. *)
Theorem status_steps_along_runs (settings : Settings) (env : Env) (os : list op)
  (w : World) :
  wf (session w) ->
  let w' := run_ops settings env os w in
  (forall i p, payments (session w) !! i = Some p ->
     exists p', payments (session w') !! i = Some p'
                /\ status_step (Payment.status p) (Payment.status p'))
  /\ (forall i p', payments (session w) !! i = None ->
        payments (session w') !! i = Some p' -> created_status p')
  /\ (store w = session w ->
      (forall i p, payments (session w) !! i = Some p ->
         exists p', payments (store w') !! i = Some p'
                    /\ status_step (Payment.status p) (Payment.status p'))
      /\ (forall i p', payments (session w) !! i = None ->
            payments (store w') !! i = Some p' -> created_status p')).
Proof.
  intros Hwf w'.
  assert (Hrefl : evolves status_rel created_status (session w) (session w)).
  { apply evolves_refl. apply status_tolerant. }
  assert (H1 : inv status_rel created_status False (session w) w').
  { apply inv_run_ops; [apply status_tolerant|].
    unfold inv. repeat split; try assumption; try lia; try apply Hrefl; tauto. }
  destruct H1 as (_ & _ & _ & [Hold Hnew] & _).
  split; [exact Hold|]. split; [exact Hnew|].
  intros Hst.
  assert (H2 : inv status_rel created_status True (session w) w').
  { apply inv_run_ops; [apply status_tolerant|].
    unfold inv. rewrite Hst.
    repeat split; try assumption; try lia; try apply Hrefl. }
  destruct H2 as (_ & _ & _ & _ & Hs). exact (Hs I).
Qed.

Lemma wf_paying_world (st : PaymentStatus) (paid : bool) :
  wf (session (paying_world st paid)).
Proof.
  intros i [p Hp]. simpl in *.
  destruct (decide (i = 1)) as [-> | Hne]; [lia|].
  rewrite lookup_insert_ne in Hp by congruence.
  rewrite lookup_empty in Hp. discriminate.
Defined.

Lemma wf_fresh_world (pages : Z) (paid : bool) :
  wf (session (fresh_world pages paid)).
Proof.
  intros i [p Hp]. simpl in Hp. rewrite lookup_empty in Hp. discriminate.
Defined.

Lemma status_steps_along_runs_witness :
  exists p',
    payments (session (run_ops (sample_settings "") (sample_env stripe_unreachable)
                         [GetStatus 1;
                          HandleWebhook "stripe" "succeeded:1" (Some "whsec_stripe")]
                         (paying_world EXPIRED false))) !! 1 = Some p'
    /\ status_step EXPIRED (Payment.status p').
Proof.
  destruct (status_steps_along_runs (sample_settings "")
              (sample_env stripe_unreachable)
              [GetStatus 1;
               HandleWebhook "stripe" "succeeded:1" (Some "whsec_stripe")]
              (paying_world EXPIRED false) (wf_paying_world EXPIRED false))
    as (Hold & _).
  apply (Hold 1 (sample_payment EXPIRED)). reflexivity.
Defined.

(** C5: when the price of a conversion is not above zero, no payment row is
    created, and if the conversion was not paid yet it is marked paid, the
    change is committed and the reply says that nothing is to pay.  A payment
    row that [create_payment_intent] does create holds an amount that is not
    [<= 0], the same in [amount] and [amount_usd]: strictly positive unless
    the price is not a number. *)
Theorem free_conversion_creates_no_payment (settings : Settings) (env : Env)
  (conversion : Z) (payment_method : string) (user : option Z) (metadata : json)
  (w : World) :
  let r := create_payment_intent settings env conversion payment_method user
             metadata w in
  (forall c amount,
     conversions (session w) !! conversion = Some c ->
     calculate_price settings (Conversion.page_count c) = Ok amount ->
     PrimFloat.leb amount 0%float = true ->
     payments (session (snd r)) = payments (session w)
     /\ payments_seq (session (snd r)) = payments_seq (session w)
     /\ (Conversion.is_paid c = false ->
         fst r = Ok (JObj [("status", JStr "success"); ("paid", JBool true);
                           ("amount", JFloat 0%float)])
         /\ store (snd r) = session (snd r)
         /\ conversions (store (snd r)) !! conversion
            = Some (Conversion.set_is_paid true c)))
  /\ (wf (session w) ->
      forall i p, payments (session w) !! i = None ->
        payments (session (snd r)) !! i = Some p ->
        PrimFloat.leb (Payment.amount p) 0%float = false
        /\ Payment.amount_usd p = Payment.amount p
        /\ (PrimFloat.is_nan (Payment.amount p) = false ->
            PrimFloat.ltb 0%float (Payment.amount p) = true
            /\ PrimFloat.ltb 0%float (Payment.amount_usd p) = true)).
Proof.
  intros r. split.
  - intros c amount Hc Hprice Hzero. subst r.
    unfold create_payment_intent, bind, load_conversion, lift.
    rewrite Hc. cbv beta iota.
    destruct (Conversion.is_paid c) eqn:Hpaid.
    + simpl. split; [reflexivity|]. split; [reflexivity|]. intros ?; discriminate.
    + rewrite Hprice. cbv beta iota. rewrite Hzero.
      unfold setattr_conversion, db_commit, ret, with_session, with_conversions.
      cbn -[alter lookup].
      split; [reflexivity|]. split; [reflexivity|]. intros _.
      split; [reflexivity|]. split; [reflexivity|].
      rewrite lookup_alter_eq, Hc. reflexivity.
  - intros Hwf i p Hnone Hp.
    assert (H : inv amount_rel charged False (session w) (snd r)).
    { apply safe_create_payment_intent; [apply amount_tolerant|].
      unfold inv.
      refine (conj Hwf (conj Hwf (conj _ (conj _ _))));
        [lia | apply evolves_refl, amount_tolerant | tauto]. }
    destruct H as (_ & _ & _ & [_ Hnew] & _).
    destruct (Hnew i p Hnone Hp) as [Hle Husd].
    split; [exact Hle|]. split; [exact Husd|].
    intros Hnan. rewrite Husd.
    split; apply not_leb_zero_positive; assumption.
Qed.

Lemma free_conversion_creates_no_payment_witness :
  let free := create_payment_intent (sample_settings "")
                (sample_env stripe_accepts) 1 "credit_card" None JNull
                (fresh_world 50 false) in
  let priced := create_payment_intent (sample_settings "")
                  (sample_env stripe_accepts) 1 "credit_card" None JNull
                  (fresh_world 80 false) in
  (payments (session (snd free)) = payments (session (fresh_world 50 false))
   /\ fst free = Ok (JObj [("status", JStr "success"); ("paid", JBool true);
                           ("amount", JFloat 0%float)])
   /\ conversions (store (snd free)) !! 1 = Some (sample_conversion 50 true))
  /\ (exists p, payments (session (snd priced)) !! 1 = Some p
                /\ PrimFloat.ltb 0%float (Payment.amount p) = true
                /\ PrimFloat.ltb 0%float (Payment.amount_usd p) = true).
Proof.
  intros free priced. split.
  - destruct (free_conversion_creates_no_payment (sample_settings "")
                (sample_env stripe_accepts) 1 "credit_card" None JNull
                (fresh_world 50 false)) as [Hfree _].
    destruct (Hfree (sample_conversion 50 false) 0%float)
      as (Hpay & _ & Hreply); [reflexivity..|].
    destruct (Hreply eq_refl) as (Hr & _ & Hc).
    split; [exact Hpay|]. split; [exact Hr | exact Hc].
  - destruct (free_conversion_creates_no_payment (sample_settings "")
                (sample_env stripe_accepts) 1 "credit_card" None JNull
                (fresh_world 80 false)) as [_ Hcharged].
    destruct (payments (session (snd priced)) !! 1) as [p|] eqn:Hp;
      [|vm_compute in Hp; discriminate].
    exists p. split; [reflexivity|].
    destruct (Hcharged (wf_fresh_world 80 false) 1 p eq_refl Hp) as (_ & _ & Hpos).
    apply Hpos. vm_compute in Hp. injection Hp as <-. reflexivity.
Defined.

Lemma crypto_unconfigured_fails_payment_witness :
  exists w' method,
    create_payment_intent (sample_settings "") (sample_env stripe_accepts)
      1 "bitcoin" None JNull (fresh_world 80 false)
    = (Raise (HTTPException 500
         "Error processing payment: 500: Cryptocurrency payments are not configured"),
       w')
    /\ PaymentMethod_of "bitcoin" = Ok method
    /\ store w' = session w'
    /\ payments (store w')
       = <[1 := Payment.mk 1 None 1 method 3%float 3%float "USD" FAILED None JNull
                 (JObj [("error",
                         JStr "500: Cryptocurrency payments are not configured")])
                 JNull None None None (Some (1700000000 + 24 * 3600))]> ∅
    /\ conversions (store w') = conversions (session (fresh_world 80 false)).
Proof.
  apply (crypto_unconfigured_fails_payment (sample_settings "")
           (sample_env stripe_accepts) 1 "bitcoin" None JNull
           (fresh_world 80 false) (sample_conversion 80 false) 3%float);
    reflexivity.
Defined.

(** * Further properties *)

(** ** What a run never changes *)

Lemma terms_tolerant : tolerant same_terms (fun _ => True).
Proof.
  unfold tolerant, compat, same_terms.
  repeat split; intros; simpl; auto; tauto.
Qed.

(** X1: over any sequence of operations no payment is deleted and none has
    its identifier, user, conversion, method, amount, amount in USD,
    currency or expiry changed, in the session and, from a committed start,
    in the store. *)
Theorem payment_terms_are_fixed (settings : Settings) (env : Env) (os : list op)
  (w : World) (i : Z) (p : Payment.t) :
  wf (session w) ->
  payments (session w) !! i = Some p ->
  let w' := run_ops settings env os w in
  (exists p', payments (session w') !! i = Some p' /\ same_terms p p')
  /\ (store w = session w ->
      exists p', payments (store w') !! i = Some p' /\ same_terms p p').
Proof.
  intros Hwf Hp w'.
  assert (Hrefl : evolves same_terms (fun _ => True) (session w) (session w)).
  { apply evolves_refl. apply terms_tolerant. }
  split.
  - assert (H : inv same_terms (fun _ => True) False (session w) w').
    { apply inv_run_ops; [apply terms_tolerant|].
      unfold inv. refine (conj Hwf (conj Hwf (conj _ (conj Hrefl _)))); [lia|tauto]. }
    destruct H as (_ & _ & _ & [Hold _] & _). exact (Hold i p Hp).
  - intros Hst.
    assert (H : inv same_terms (fun _ => True) True (session w) w').
    { apply inv_run_ops; [apply terms_tolerant|].
      unfold inv. rewrite Hst.
      refine (conj Hwf (conj Hwf (conj _ (conj Hrefl _)))); [lia|auto]. }
    destruct H as (_ & _ & _ & _ & Hs). destruct (Hs I) as [Hold _].
    exact (Hold i p Hp).
Qed.

Lemma payment_terms_are_fixed_witness :
  exists p',
    payments (session (run_ops (sample_settings "") (sample_env stripe_accepts)
                         [HandleWebhook "stripe" "succeeded:1" (Some "whsec_stripe");
                          CreateIntent 1 "credit_card" None JNull;
                          GetStatus 1]
                         (paying_world PENDING false))) !! 1 = Some p'
    /\ same_terms (sample_payment PENDING) p'.
Proof.
  destruct (payment_terms_are_fixed (sample_settings "")
              (sample_env stripe_accepts)
              [HandleWebhook "stripe" "succeeded:1" (Some "whsec_stripe");
               CreateIntent 1 "credit_card" None JNull;
               GetStatus 1]
              (paying_world PENDING false) 1 (sample_payment PENDING)
              (wf_paying_world PENDING false) eq_refl) as [H _].
  exact H.
Defined.

Section Keeps.

Variable R : Tables -> Tables -> Prop.
Variable track : Prop.
Variable t0 : Tables.
Variable settings : Settings.
Variable env : Env.

Hypothesis Hclosed : closed_under_writes R.

#[local] Abbreviation keeps' := (keeps R track t0).

Lemma keeps_same_tables {A} (m : M A) :
  (forall w, session (snd (m w)) = session w /\ store (snd (m w)) = store w) ->
  keeps' m.
Proof. intros H w Hw. destruct (H w) as [-> ->]. exact Hw. Qed.

Lemma keeps_quiet {A} (m : M A) : quiet m -> keeps' m.
Proof. intros H. apply keeps_same_tables. exact H. Qed.

Lemma keeps_bind {A B} (m : M A) (k : A -> M B) :
  keeps' m -> (forall a, keeps' (k a)) -> keeps' (bind m k).
Proof.
  intros Hm Hk w H. unfold bind. specialize (Hm w H).
  destruct (m w) as [[a|e] w1]; simpl in *; [apply Hk, Hm | exact Hm].
Qed.

Lemma keeps_try {A} (m : M A) (h : exn -> M A) :
  keeps' m -> (forall e, keeps' (h e)) -> keeps' (try_except m h).
Proof.
  intros Hm Hh w H. unfold try_except. specialize (Hm w H).
  destruct (m w) as [[a|e] w1]; simpl in *; [exact Hm | apply Hh, Hm].
Qed.

Lemma keeps_call_provider (api : nat -> json -> res json) (request : json) :
  keeps' (call_provider api request).
Proof. apply keeps_same_tables. intros w. split; reflexivity. Qed.

Lemma keeps_load_payment (ref : Z) : keeps' (load_payment ref).
Proof.
  apply keeps_same_tables. intros w. unfold load_payment.
  destruct (payments (session w) !! ref); split; reflexivity.
Qed.

Lemma keeps_load_conversion (ref : Z) : keeps' (load_conversion ref).
Proof.
  apply keeps_same_tables. intros w. unfold load_conversion.
  destruct (conversions (session w) !! ref); split; reflexivity.
Qed.

Lemma keeps_query_payment (v : json) : keeps' (query_payment env v).
Proof.
  apply keeps_same_tables. intros w. unfold query_payment.
  destruct (payment_key env v) as [[i|]|e]; try (split; reflexivity).
  destruct (payments (session w) !! i); split; reflexivity.
Qed.

Lemma keeps_query_conversion (i : Z) : keeps' (query_conversion i).
Proof.
  apply keeps_same_tables. intros w. unfold query_conversion.
  destruct (conversions (session w) !! i); split; reflexivity.
Qed.

Lemma keeps_db_commit : keeps' db_commit.
Proof. intros w [Hs Hst]. simpl. split; [exact Hs | intros _; exact Hs]. Qed.

Lemma keeps_mark_paid (ref : Z) :
  keeps' (setattr_conversion ref (Conversion.set_is_paid true)).
Proof.
  intros w [Hs Hst]. split; [|exact Hst].
  destruct Hclosed as (Hpaid & _ & _). apply Hpaid, Hs.
Qed.

Lemma keeps_setattr_payment (ref : Z) (f : Payment.t -> Payment.t) :
  keeps' (setattr_payment ref f).
Proof.
  intros w [Hs Hst]. split; [|exact Hst].
  destruct Hclosed as (_ & Hattr & _). apply Hattr, Hs.
Qed.

Lemma keeps_db_add (row : Z -> Payment.t) : keeps' (db_add row).
Proof.
  intros w [Hs Hst]. split; [|exact Hst].
  destruct Hclosed as (_ & _ & Hadd). apply Hadd, Hs.
Qed.

Ltac keeps_step :=
  match goal with
  | |- keeps _ _ _ (bind _ _) => apply keeps_bind; [|intros ?]
  | |- keeps _ _ _ (try_except _ _) => apply keeps_try; [|intros ?]
  | |- keeps _ _ _ (ret _) => apply keeps_quiet, quiet_ret
  | |- keeps _ _ _ (raise _) => apply keeps_quiet, quiet_raise
  | |- keeps _ _ _ (lift _) => apply keeps_quiet, quiet_lift
  | |- keeps _ _ _ (utcnow _) => apply keeps_quiet, quiet_at_moment
  | |- keeps _ _ _ (at_moment _) => apply keeps_quiet, quiet_at_moment
  | |- keeps _ _ _ (logger_error _) => apply keeps_quiet, quiet_logger_error
  | |- keeps _ _ _ (call_provider _ _) => apply keeps_call_provider
  | |- keeps _ _ _ db_commit => apply keeps_db_commit
  | |- keeps _ _ _ (db_add _) => apply keeps_db_add
  | |- keeps _ _ _ (load_payment _) => apply keeps_load_payment
  | |- keeps _ _ _ (load_conversion _) => apply keeps_load_conversion
  | |- keeps _ _ _ (query_payment _ _) => apply keeps_query_payment
  | |- keeps _ _ _ (query_conversion _) => apply keeps_query_conversion
  | |- keeps _ _ _ (setattr_conversion _ _) => apply keeps_mark_paid
  | |- keeps _ _ _ (setattr_payment _ _) => apply keeps_setattr_payment
  | |- keeps _ _ _ (if ?b then _ else _) => destruct b
  | |- keeps _ _ _ (match ?x with _ => _ end) => destruct x
  end.

Lemma keeps_run_op (o : op) : keeps' (run_op settings env o).
Proof.
  destruct o; simpl.
  - unfold create_payment_intent, db_refresh, _process_credit_card_payment,
      _process_crypto_payment.
    repeat keeps_step.
  - unfold handle_webhook, _handle_stripe_webhook, _handle_coinbase_webhook,
      _process_successful_payment.
    repeat keeps_step.
  - unfold get_payment_status, poll_provider, _process_successful_payment.
    repeat keeps_step.
Qed.

Lemma keeps_run_ops (os : list op) (w : World) :
  R t0 (session w) /\ (track -> R t0 (store w)) ->
  R t0 (session (run_ops settings env os w))
  /\ (track -> R t0 (store (run_ops settings env os w))).
Proof.
  revert w. induction os as [|o os IH]; intros w H; simpl; [exact H|].
  apply IH, keeps_run_op, H.
Qed.

End Keeps.

Lemma conversions_advance_closed : closed_under_writes conversions_advance.
Proof.
  unfold closed_under_writes, conversions_advance. repeat split.
  - intros t0 t ref H i. specialize (H i). cbn -[alter].
    destruct (conversions t0 !! i) as [c|].
    + destruct H as (c' & Hc' & Hid & Hfn & Hpc & Hpaid).
      rewrite lookup_alter. case_decide.
      * subst. rewrite Hc'. simpl. eexists. split; [reflexivity|].
        simpl. auto.
      * eauto 10.
    + rewrite lookup_alter. case_decide; [subst; rewrite H|]; auto.
  - intros t0 t ref f H i. exact (H i).
  - intros t0 t row H i. exact (H i).
Qed.

Lemma metrics_kept_closed : closed_under_writes metrics_kept.
Proof.
  unfold closed_under_writes, metrics_kept. repeat split; auto.
Qed.

Lemma conversions_advance_refl (t : Tables) : conversions_advance t t.
Proof.
  intros i. destruct (conversions t !! i) as [c|]; [|reflexivity].
  exists c. auto.
Qed.

(** X2: over any sequence of operations no conversion is added or removed,
    none has its identifier, file name or page count changed, and a
    conversion that is paid stays paid. *)
Theorem paid_flag_never_reverts (settings : Settings) (env : Env) (os : list op)
  (w : World) :
  let w' := run_ops settings env os w in
  conversions_advance (session w) (session w')
  /\ (store w = session w -> conversions_advance (session w) (store w')).
Proof.
  intros w'. split.
  - apply (keeps_run_ops conversions_advance False (session w) settings env
             conversions_advance_closed os w).
    split; [apply conversions_advance_refl | tauto].
  - intros Hst.
    apply (keeps_run_ops conversions_advance True (session w) settings env
             conversions_advance_closed os w); [|exact I].
    rewrite Hst. split; [|intros _]; apply conversions_advance_refl.
Qed.

(** X3: no operation of the service writes a row of [metrics]: the table is
    the same after any sequence of operations. *)
Theorem service_writes_no_metric (settings : Settings) (env : Env) (os : list op)
  (w : World) :
  let w' := run_ops settings env os w in
  metrics (session w') = metrics (session w)
  /\ (store w = session w -> metrics (store w') = metrics (session w)).
Proof.
  intros w'. split.
  - apply (keeps_run_ops metrics_kept False (session w) settings env
             metrics_kept_closed os w).
    split; [reflexivity | tauto].
  - intros Hst.
    apply (keeps_run_ops metrics_kept True (session w) settings env
             metrics_kept_closed os w); [|exact I].
    rewrite Hst. split; [|intros _]; reflexivity.
Qed.

Lemma paid_flag_never_reverts_witness :
  let w' := run_ops (sample_settings "") (sample_env stripe_accepts)
              [HandleWebhook "stripe" "succeeded:1" (Some "whsec_stripe");
               CreateIntent 1 "credit_card" None JNull]
              (paying_world PENDING false) in
  conversions_advance (session (paying_world PENDING false)) (session w')
  /\ conversions_advance (session (paying_world PENDING false)) (store w').
Proof.
  intros w'.
  destruct (paid_flag_never_reverts (sample_settings "")
              (sample_env stripe_accepts)
              [HandleWebhook "stripe" "succeeded:1" (Some "whsec_stripe");
               CreateIntent 1 "credit_card" None JNull]
              (paying_world PENDING false)) as [Hs Hst].
  split; [exact Hs | exact (Hst eq_refl)].
Defined.

Lemma service_writes_no_metric_witness :
  let w' := run_ops (sample_settings "") (sample_env stripe_accepts)
              [HandleWebhook "stripe" "succeeded:1" (Some "whsec_stripe");
               GetStatus 1]
              (paying_world PENDING false) in
  metrics (session w') = [] /\ metrics (store w') = [].
Proof.
  intros w'.
  destruct (service_writes_no_metric (sample_settings "")
              (sample_env stripe_accepts)
              [HandleWebhook "stripe" "succeeded:1" (Some "whsec_stripe");
               GetStatus 1]
              (paying_world PENDING false)) as [Hs Hst].
  split; [exact Hs | exact (Hst eq_refl)].
Defined.

(** ** Requests sent to the providers *)

Section Calls.

Variable settings : Settings.
Variable env : Env.

Lemma calls_quiet_counter {A} (m : M A) :
  (forall w, provider_calls (snd (m w)) = provider_calls w) -> calls_at_most 0 m.
Proof. intros H w. rewrite H. lia. Qed.

Lemma calls_weaken {A} (n n' : nat) (m : M A) :
  (n <= n')%nat -> calls_at_most n m -> calls_at_most n' m.
Proof. intros Hle H w. specialize (H w). lia. Qed.

Lemma calls_bind {A B} (n1 n2 : nat) (m : M A) (k : A -> M B) :
  calls_at_most n1 m -> (forall a, calls_at_most n2 (k a)) ->
  calls_at_most (n1 + n2) (bind m k).
Proof.
  intros Hm Hk w. unfold bind. specialize (Hm w).
  destruct (m w) as [[a|e] w1]; simpl in *.
  - specialize (Hk a w1). lia.
  - lia.
Qed.

Lemma calls_try {A} (n1 n2 : nat) (m : M A) (h : exn -> M A) :
  calls_at_most n1 m -> (forall e, calls_at_most n2 (h e)) ->
  calls_at_most (n1 + n2) (try_except m h).
Proof.
  intros Hm Hh w. unfold try_except. specialize (Hm w).
  destruct (m w) as [[a|e] w1]; simpl in *.
  - lia.
  - specialize (Hh e w1). lia.
Qed.

Lemma calls_call_provider (api : nat -> json -> res json) (request : json) :
  calls_at_most 1 (call_provider api request).
Proof. intros w. simpl. lia. Qed.

Ltac calls_zero :=
  repeat match goal with
  | |- calls_at_most 0 (bind _ _) => apply (calls_bind 0 0); [|intros ?]
  | |- calls_at_most 0 (try_except _ _) => apply (calls_try 0 0); [|intros ?]
  | |- calls_at_most 0 (if ?b then _ else _) => destruct b
  | |- calls_at_most 0 (match ?x with _ => _ end) => destruct x
  | |- calls_at_most 0 (load_payment _) =>
      apply calls_quiet_counter; intros w; unfold load_payment;
      destruct (payments (session w) !! _); reflexivity
  | |- calls_at_most 0 (load_conversion _) =>
      apply calls_quiet_counter; intros w; unfold load_conversion;
      destruct (conversions (session w) !! _); reflexivity
  | |- calls_at_most 0 (query_payment _ _) =>
      apply calls_quiet_counter; intros w; unfold query_payment;
      destruct (payment_key _ _) as [[?|]|?]; try reflexivity;
      destruct (payments (session w) !! _); reflexivity
  | |- calls_at_most 0 (query_conversion _) =>
      apply calls_quiet_counter; intros w; unfold query_conversion;
      destruct (conversions (session w) !! _); reflexivity
  | |- calls_at_most 0 _ => apply calls_quiet_counter; intros w; reflexivity
  end.

Lemma calls_reconcile (payment_id provider_data : json) :
  calls_at_most 0 (_process_successful_payment env payment_id provider_data).
Proof. unfold _process_successful_payment. calls_zero. Qed.

Lemma calls_handle_webhook (provider payload : string) (signature : option string) :
  calls_at_most 0 (handle_webhook settings env provider payload signature).
Proof.
  unfold handle_webhook, _handle_stripe_webhook, _handle_coinbase_webhook,
    _process_successful_payment.
  calls_zero.
Qed.

(** The tail after a request: nothing more is sent. *)
Ltac calls_one :=
  repeat match goal with
  | |- calls_at_most 1 (bind (call_provider _ _) _) =>
      apply (calls_bind 1 0); [apply calls_call_provider | intros ?; calls_zero]
  | |- calls_at_most 1 (bind _ _) =>
      first [ apply (calls_bind 0 1); [solve [calls_zero] | intros ?]
            | apply (calls_bind 1 0); [|intros ?; solve [calls_zero]] ]
  | |- calls_at_most 1 (try_except _ _) =>
      apply (calls_try 1 0); [|intros ?; calls_zero]
  | |- calls_at_most 1 (if ?b then _ else _) => destruct b
  | |- calls_at_most 1 (match ?x with _ => _ end) => destruct x
  | |- calls_at_most 1 _ => apply (calls_weaken 0 1); [lia | calls_zero]
  end.

Lemma calls_create_payment_intent (conversion : Z) (payment_method : string)
  (user : option Z) (metadata : json) :
  calls_at_most 1
    (create_payment_intent settings env conversion payment_method user metadata).
Proof.
  unfold create_payment_intent, db_refresh, _process_credit_card_payment,
    _process_crypto_payment.
  calls_one.
Qed.

Lemma calls_get_payment_status (payment_id : Z) :
  calls_at_most 1 (get_payment_status settings env payment_id).
Proof.
  unfold get_payment_status, poll_provider, _process_successful_payment.
  calls_one.
Qed.

End Calls.

(** X4: handling a webhook sends no request to any provider, creating an
    intent and resolving a status send at most one each; so a sequence of
    operations sends at most as many requests as it has operations other
    than webhooks, and the count never decreases. *)
Theorem provider_requests_bounded (settings : Settings) (env : Env) (os : list op)
  (w : World) :
  (provider_calls w <= provider_calls (run_ops settings env os w)
   <= provider_calls w + polling_ops os)%nat.
Proof.
  revert w. induction os as [|o os IH]; intros w; simpl; [lia|].
  specialize (IH (snd (run_op settings env o w))).
  destruct o; unfold polling_ops in *; simpl in *.
  - pose proof (calls_create_payment_intent settings env conversion
                  payment_method user metadata w). lia.
  - pose proof (calls_handle_webhook settings env provider payload signature w).
    lia.
  - pose proof (calls_get_payment_status settings env payment_id w). lia.
Qed.

(** ** What a webhook or a status call can do to the tables *)

Section Reconciling.

Variable settings : Settings.
Variable env : Env.

Lemma reconciling_quiet {A} (m : M A) : quiet m -> reconciling env m.
Proof. intros H w. left. apply H. Qed.

Lemma reconciling_bind {A B} (m : M A) (k : A -> M B) :
  quiet m -> (forall a, reconciling env (k a)) -> reconciling env (bind m k).
Proof.
  intros Hm Hk w. unfold bind. destruct (Hm w) as [H1 H2].
  destruct (m w) as [[a|e] w1]; simpl in *.
  - destruct (Hk a w1) as [[H3 H4] | (i & p & pd & n & Hp & Hs & Hst)].
    + left. split; congruence.
    + right. exists i, p, pd, n. rewrite <- H1. auto.
  - left. split; assumption.
Qed.

Lemma reconciling_then {A B} (m : M A) (k : A -> M B) :
  reconciling env m -> (forall a, quiet (k a)) -> reconciling env (bind m k).
Proof.
  intros Hm Hk w. unfold bind. specialize (Hm w).
  destruct (m w) as [[a|e] w1]; simpl in *; [|exact Hm].
  destruct (Hk a w1) as [H3 H4].
  destruct Hm as [[H1 H2] | (i & p & pd & n & Hp & Hs & Hst)].
  - left. split; congruence.
  - right. exists i, p, pd, n. rewrite H3, H4. auto.
Qed.

Lemma reconciling_try {A} (m : M A) (h : exn -> M A) :
  reconciling env m -> (forall e, quiet (h e)) ->
  reconciling env (try_except m h).
Proof.
  intros Hm Hh w. unfold try_except. specialize (Hm w).
  destruct (m w) as [[a|e] w1]; simpl in *; [exact Hm|].
  destruct (Hh e w1) as [H3 H4].
  destruct Hm as [[H1 H2] | (i & p & pd & n & Hp & Hs & Hst)].
  - left. split; congruence.
  - right. exists i, p, pd, n. rewrite H3, H4. auto.
Qed.

Lemma reconciling_reconcile (payment_id provider_data : json) :
  reconciling env (_process_successful_payment env payment_id provider_data).
Proof.
  intros w. destruct (truthy payment_id) eqn:Ht.
  - destruct (payment_key env payment_id) as [[i|]|e] eqn:Hk.
    + destruct (payments (session w) !! i) as [p|] eqn:Hp.
      * right. rewrite (reconcile_run env payment_id provider_data w i p Ht Hk Hp).
        exists i, p, provider_data, (clock_reads w). auto.
      * left. unfold _process_successful_payment. rewrite Ht. simpl.
        unfold bind, query_payment. rewrite Hk, Hp. split; reflexivity.
    + left. unfold _process_successful_payment. rewrite Ht. simpl.
      unfold bind, query_payment. rewrite Hk. split; reflexivity.
    + left. unfold _process_successful_payment. rewrite Ht. simpl.
      unfold bind, query_payment. rewrite Hk. split; reflexivity.
  - left. unfold _process_successful_payment. rewrite Ht. split; reflexivity.
Qed.

Lemma quiet_call_provider (api : nat -> json -> res json) (request : json) :
  quiet (call_provider api request).
Proof. intros w. split; reflexivity. Qed.

Lemma quiet_load_payment (ref : Z) : quiet (load_payment ref).
Proof.
  intros w. unfold load_payment.
  destruct (payments (session w) !! ref); split; reflexivity.
Qed.

Lemma quiet_query_payment (v : json) : quiet (query_payment env v).
Proof.
  intros w. unfold query_payment.
  destruct (payment_key env v) as [[i|]|e]; try (split; reflexivity).
  destruct (payments (session w) !! i); split; reflexivity.
Qed.

Ltac quiet_more :=
  repeat match goal with
  | |- quiet (bind _ _) => apply quiet_bind; [|intros ?]
  | |- quiet (try_except _ _) => apply quiet_try; [|intros ?]
  | |- quiet (ret _) => apply quiet_ret
  | |- quiet (raise _) => apply quiet_raise
  | |- quiet (lift _) => apply quiet_lift
  | |- quiet (at_moment _) => apply quiet_at_moment
  | |- quiet (logger_error _) => apply quiet_logger_error
  | |- quiet (call_provider _ _) => apply quiet_call_provider
  | |- quiet (load_payment _) => apply quiet_load_payment
  | |- quiet (query_payment _ _) => apply quiet_query_payment
  | |- quiet (if ?b then _ else _) => destruct b
  | |- quiet (match ?x with _ => _ end) => destruct x
  end.

Ltac reconciling_step :=
  match goal with
  | |- reconciling _ (_process_successful_payment _ _ _) =>
      apply reconciling_reconcile
  | |- reconciling _ (bind (_process_successful_payment _ _ _) _) =>
      apply reconciling_then; [apply reconciling_reconcile | intros ?; quiet_more]
  | |- reconciling _ (bind (try_except (poll_provider _ _ _ _) _) _) =>
      apply reconciling_then; [|intros ?; solve [quiet_more]]
  | |- reconciling _ (bind _ _) =>
      apply reconciling_bind; [solve [quiet_more] | intros ?]
  | |- reconciling _ (try_except _ _) =>
      apply reconciling_try; [|intros ?; solve [quiet_more]]
  | |- reconciling _ (if ?b then _ else _) => destruct b
  | |- reconciling _ (match ?x with _ => _ end) => destruct x
  | |- reconciling _ _ => apply reconciling_quiet; solve [quiet_more]
  end.

Lemma reconciling_handle_webhook (provider payload : string)
  (signature : option string) :
  reconciling env (handle_webhook settings env provider payload signature).
Proof.
  unfold handle_webhook, _handle_stripe_webhook, _handle_coinbase_webhook.
  repeat reconciling_step.
Qed.

Lemma reconciling_poll (payment_id : Z) (p : Payment.t) :
  reconciling env (poll_provider settings env payment_id p).
Proof. unfold poll_provider. repeat reconciling_step. Qed.

Lemma reconciling_get_payment_status (payment_id : Z) :
  reconciling env (get_payment_status settings env payment_id).
Proof.
  unfold get_payment_status.
  repeat first [apply reconciling_poll | reconciling_step].
Qed.

End Reconciling.

(** X5: a webhook or a status call leaves the tables as they are or
    reconciles one payment that exists, leaving [reconciled_tables] of it,
    committed: it touches no other payment and no conversion but that
    payment's. *)
Theorem webhook_and_status_only_reconcile (settings : Settings) (env : Env) :
  (forall provider payload signature,
     reconciling env (handle_webhook settings env provider payload signature))
  /\ (forall payment_id,
        reconciling env (get_payment_status settings env payment_id)).
Proof.
  split; intros.
  - apply reconciling_handle_webhook.
  - apply reconciling_get_payment_status.
Qed.

Lemma lookup_reconciled_is_Some (env : Env) (pd : json) (n : nat) (i j : Z)
  (p : Payment.t) (t : Tables) :
  is_Some (payments t !! j) ->
  is_Some (payments (reconciled_tables env pd n i p t) !! j).
Proof.
  intros H. unfold reconciled_tables. cbn -[insert].
  rewrite lookup_insert_is_Some. destruct (decide (i = j)); auto.
Qed.

(** X6: resolving the status of a payment that does not exist raises 404 and
    changes nothing; for one that exists it never raises, whatever the
    provider does; and for a COMPLETED one it answers from the row, without
    a request to the provider and without any change. *)
Theorem status_call_outcomes (settings : Settings) (env : Env) (payment_id : Z)
  (w : World) :
  match payments (session w) !! payment_id with
  | None =>
      get_payment_status settings env payment_id w
      = (Raise (HTTPException 404 "Payment not found"), w)
  | Some p =>
      (exists r, fst (get_payment_status settings env payment_id w) = Ok r)
      /\ (Payment.status p = COMPLETED ->
          get_payment_status settings env payment_id w
          = (Ok (JObj
               [("status", JStr "completed");
                ("paid", JBool true);
                ("payment_id", JInt (Payment.id p));
                ("conversion_id", JInt (Payment.conversion_id p));
                ("amount", JFloat (Payment.amount p));
                ("currency", JStr (Payment.currency p));
                ("paid_at",
                 opt_json (fun t => JStr (isoformat env t)) (Payment.paid_at p))]),
             w))
  end.
Proof.
  destruct (payments (session w) !! payment_id) as [p|] eqn:Hp.
  - destruct (get_payment_status settings env payment_id w) as [out w'] eqn:Hrun.
    unfold get_payment_status in Hrun.
    unfold bind at 1 in Hrun. unfold query_payment in Hrun.
    simpl payment_key in Hrun. cbv beta iota in Hrun.
    rewrite Hp in Hrun. cbv beta iota in Hrun.
    unfold bind at 1 in Hrun. unfold load_payment at 1 in Hrun.
    rewrite Hp in Hrun. cbv beta iota in Hrun.
    destruct (decide (Payment.status p = COMPLETED)) as [Hc|Hc].
    + unfold ret in Hrun. injection Hrun as <- <-.
      split; [eexists; reflexivity | intros _; reflexivity].
    + split; [|intros H; contradiction].
      set (poll := try_except (poll_provider settings env payment_id p) _) in Hrun.
      assert (Hrec : reconciling env poll).
      { subst poll. apply reconciling_try; [apply reconciling_poll|].
        intros e. apply quiet_bind; [apply quiet_logger_error|].
        intros _. apply quiet_ret. }
      assert (Hok : exists a, fst (poll w) = Ok a).
      { subst poll. unfold try_except.
        destruct (poll_provider settings env payment_id p w) as [[a|e] w1];
          simpl; eauto. }
      unfold bind in Hrun. specialize (Hrec w). destruct Hok as [a Ha].
      destruct (poll w) as [r w2]. simpl in Ha, Hrec. subst r.
      destruct a as [r|].
      { unfold ret in Hrun. injection Hrun as <- <-. simpl. eauto. }
      assert (Hrow : is_Some (payments (session w2) !! payment_id)).
      { destruct Hrec as [[Hs _] | (i & q & pd & n & _ & Hs & _)]; rewrite Hs.
        - rewrite Hp. eauto.
        - apply lookup_reconciled_is_Some. rewrite Hp. eauto. }
      destruct Hrow as [p' Hp']. unfold load_payment in Hrun. rewrite Hp' in Hrun.
      unfold ret in Hrun. injection Hrun as <- <-. simpl. eauto.
  - unfold get_payment_status, bind, query_payment. simpl payment_key.
    cbv beta iota. rewrite Hp. reflexivity.
Qed.

Lemma status_call_outcomes_witness :
  get_payment_status (sample_settings "") (sample_env stripe_unreachable) 1
    (paying_world COMPLETED true)
  = (Ok (JObj [("status", JStr "completed"); ("paid", JBool true);
               ("payment_id", JInt 1); ("conversion_id", JInt 1);
               ("amount", JFloat 3%float); ("currency", JStr "USD");
               ("paid_at", JStr "1600000000")]),
     paying_world COMPLETED true).
Proof.
  pose proof (status_call_outcomes (sample_settings "")
                (sample_env stripe_unreachable) 1 (paying_world COMPLETED true))
    as H.
  change (payments (session (paying_world COMPLETED true)) !! 1)
    with (Some (sample_payment COMPLETED)) in H.
  destruct H as [_ H]. exact (H eq_refl).
Defined.

(** ** Verified events *)

Lemma run_bind {A B} (m : M A) (k : A -> M B) (w : World) :
  bind m k w = match m w with
               | (Ok a, w') => k a w'
               | (Raise e, w') => (Raise e, w')
               end.
Proof. reflexivity. Qed.

Lemma run_try {A} (m : M A) (h : exn -> M A) (w : World) :
  try_except m h w = match m w with
                     | (Ok a, w') => (Ok a, w')
                     | (Raise e, w') => h e w'
                     end.
Proof. reflexivity. Qed.

Lemma run_lift {A} (r : res A) (w : World) : lift r w = (r, w).
Proof. reflexivity. Qed.

(** Run the next [x <- lift r ;; ...] with what [H] says [r] is. *)
Ltac run_lift_step H := rewrite run_bind, run_lift, H; cbv beta iota.

(** X7: a verified card event of type [payment_intent.succeeded] whose
    metadata names a payment that exists reconciles it: the reply is the
    success reply for that payment and the world is [reconciled_world],
    with the intent as [provider_data]. *)
Theorem card_webhook_reconciles (settings : Settings) (env : Env)
  (payload : string) (signature : option string) (w : World)
  (event data intent md payment_id : json) (i : Z) (p : Payment.t) :
  stripe_construct_event env (clock_reads w) payload signature
    (stripe_webhook_secret settings) = Ok event ->
  getitem event "type" = Ok (JStr "payment_intent.succeeded") ->
  getitem event "data" = Ok data ->
  getitem data "object" = Ok intent ->
  getattr intent "metadata" = Ok md ->
  dict_get md "payment_id" = Ok payment_id ->
  truthy payment_id = true ->
  payment_key env payment_id = Ok (Some i) ->
  payments (session w) !! i = Some p ->
  handle_webhook settings env "stripe" payload signature w
  = (Ok (reconciled_reply p), reconciled_world env intent i p (tick w)).
Proof.
  intros Hev Hty Hdata Hobj Hmd Hid Ht Hk Hp.
  unfold handle_webhook. simpl String.eqb. cbv beta iota.
  rewrite run_try. unfold _handle_stripe_webhook.
  rewrite run_bind, run_try. unfold at_moment at 1. rewrite Hev. cbv beta iota.
  run_lift_step Hty. unfold eq_str. rewrite String.eqb_refl.
  run_lift_step Hdata. run_lift_step Hobj. run_lift_step Hmd. run_lift_step Hid.
  pose proof (reconcile_run env payment_id intent (tick w) i p Ht Hk Hp) as Hrun.
  unfold tick at 1 in Hrun. rewrite Hrun. reflexivity.
Qed.

Lemma card_webhook_reconciles_witness :
  handle_webhook (sample_settings "") (sample_env stripe_accepts) "stripe"
    "succeeded:1" (Some "whsec_stripe") (paying_world PENDING false)
  = (Ok (reconciled_reply (sample_payment PENDING)),
     reconciled_world (sample_env stripe_accepts) (succeeded_intent "1") 1
       (sample_payment PENDING) (tick (paying_world PENDING false))).
Proof.
  apply (card_webhook_reconciles (sample_settings "") (sample_env stripe_accepts)
           "succeeded:1" (Some "whsec_stripe") (paying_world PENDING false)
           (succeeded_event "1") (JObj [("object", succeeded_intent "1")])
           (succeeded_intent "1") (JObj [("payment_id", JStr "1")]) (JStr "1")
           1 (sample_payment PENDING));
    reflexivity.
Defined.

(** X8: a crypto webhook whose body parses, whose signature verifies and
    whose event is of type [charge:confirmed] or [charge:resolved]
    reconciles the payment its metadata names, with the charge as
    [provider_data]; verification reads no clock. *)
Theorem crypto_webhook_reconciles (settings : Settings) (env : Env)
  (payload : string) (signature : option string) (w : World)
  (request_data event ty charge md payment_id : json) (i : Z) (p : Payment.t) :
  json_loads env payload = Ok request_data ->
  coinbase_verify_payload env payload signature
    (coinbase_webhook_secret settings) = Ok tt ->
  dict_get request_data "event" = Ok event ->
  truthy event = true ->
  getitem event "type" = Ok ty ->
  eq_str ty "charge:confirmed" || eq_str ty "charge:resolved" = true ->
  getitem event "data" = Ok charge ->
  getitem charge "metadata" = Ok md ->
  dict_get md "payment_id" = Ok payment_id ->
  truthy payment_id = true ->
  payment_key env payment_id = Ok (Some i) ->
  payments (session w) !! i = Some p ->
  handle_webhook settings env "coinbase" payload signature w
  = (Ok (reconciled_reply p), reconciled_world env charge i p w).
Proof.
  intros Hload Hver Hev Htev Hty Hconf Hdata Hmd Hid Ht Hk Hp.
  unfold handle_webhook. simpl String.eqb. cbv beta iota.
  rewrite run_try. unfold _handle_coinbase_webhook. rewrite run_try.
  run_lift_step Hload. rewrite run_bind. rewrite Hver.
  unfold ret at 1. cbv beta iota.
  run_lift_step Hev. rewrite Htev. change (negb true) with false. cbv beta iota.
  run_lift_step Hty.
  destruct (eq_str ty "charge:confirmed") eqn:E; simpl in Hconf.
  2: { rewrite run_bind. rewrite run_bind, run_lift. cbv beta iota. rewrite Hconf.
       unfold ret at 1. cbv beta iota.
       run_lift_step Hdata. run_lift_step Hmd. run_lift_step Hid.
       rewrite (reconcile_run env payment_id charge w i p Ht Hk Hp).
       reflexivity. }
  rewrite run_bind. unfold ret at 1. cbv beta iota.
  run_lift_step Hdata. run_lift_step Hmd. run_lift_step Hid.
  rewrite (reconcile_run env payment_id charge w i p Ht Hk Hp).
  reflexivity.
Qed.

Lemma crypto_webhook_reconciles_witness :
  handle_webhook (sample_settings "") (sample_env stripe_accepts) "coinbase"
    "confirmed:1" (Some "whsec_coinbase") (paying_world PENDING false)
  = (Ok (reconciled_reply (sample_payment PENDING)),
     reconciled_world (sample_env stripe_accepts)
       (JObj [("metadata", JObj [("payment_id", JStr "1")])]) 1
       (sample_payment PENDING) (paying_world PENDING false)).
Proof.
  apply (crypto_webhook_reconciles (sample_settings "")
           (sample_env stripe_accepts) "confirmed:1" (Some "whsec_coinbase")
           (paying_world PENDING false)
           (JObj [("event",
                   JObj [("type", JStr "charge:confirmed");
                         ("data", JObj [("metadata",
                                         JObj [("payment_id", JStr "1")])])])])
           (JObj [("type", JStr "charge:confirmed");
                  ("data", JObj [("metadata", JObj [("payment_id", JStr "1")])])])
           (JStr "charge:confirmed")
           (JObj [("metadata", JObj [("payment_id", JStr "1")])])
           (JObj [("payment_id", JStr "1")]) (JStr "1")
           1 (sample_payment PENDING));
    reflexivity.
Defined.

(** X9: a verified event of any other type is acknowledged with its type
    and changes nothing: the card path reads the clock once, the crypto
    path leaves the world as it is. *)
Theorem other_events_are_acknowledged (settings : Settings) (env : Env)
  (payload : string) (signature : option string) (w : World)
  (event ty : json) :
  getitem event "type" = Ok ty ->
  (stripe_construct_event env (clock_reads w) payload signature
     (stripe_webhook_secret settings) = Ok event ->
   eq_str ty "payment_intent.succeeded" = false ->
   handle_webhook settings env "stripe" payload signature w
   = (Ok (event_ack ty), tick w))
  /\ (forall request_data,
        json_loads env payload = Ok request_data ->
        coinbase_verify_payload env payload signature
          (coinbase_webhook_secret settings) = Ok tt ->
        dict_get request_data "event" = Ok event ->
        truthy event = true ->
        eq_str ty "charge:confirmed" = false ->
        eq_str ty "charge:resolved" = false ->
        handle_webhook settings env "coinbase" payload signature w
        = (Ok (event_ack ty), w)).
Proof.
  intros Hty. split.
  - intros Hev Hne.
    unfold handle_webhook. simpl String.eqb. cbv beta iota.
    rewrite run_try. unfold _handle_stripe_webhook.
    rewrite run_bind, run_try. unfold at_moment at 1. rewrite Hev. cbv beta iota.
    run_lift_step Hty. rewrite Hne.
    rewrite run_bind, run_lift. reflexivity.
  - intros request_data Hload Hver Hev Htev Hn1 Hn2.
    unfold handle_webhook. simpl String.eqb. cbv beta iota.
    rewrite run_try. unfold _handle_coinbase_webhook. rewrite run_try.
    run_lift_step Hload. rewrite run_bind. rewrite Hver.
    unfold ret at 1. cbv beta iota.
    run_lift_step Hev. rewrite Htev. change (negb true) with false. cbv beta iota.
    run_lift_step Hty. rewrite Hn1.
    rewrite run_bind. rewrite run_bind, run_lift. cbv beta iota. rewrite Hn2.
    unfold ret at 1. cbv beta iota.
    rewrite run_bind, run_lift. reflexivity.
Qed.

Lemma other_events_are_acknowledged_witness :
  let ev := JObj [("type", JStr "charge:created");
                  ("event", JObj [("type", JStr "charge:created")])] in
  handle_webhook (sample_settings "") (env_delivering ev) "stripe" "body" None
    (paying_world PENDING false)
  = (Ok (event_ack (JStr "charge:created")), tick (paying_world PENDING false))
  /\ handle_webhook (sample_settings "") (env_delivering ev) "coinbase" "body"
       None (paying_world PENDING false)
     = (Ok (event_ack (JStr "charge:created")), paying_world PENDING false).
Proof.
  intros ev. split.
  - destruct (other_events_are_acknowledged (sample_settings "")
                (env_delivering ev) "body" None (paying_world PENDING false)
                ev (JStr "charge:created") eq_refl) as [H _].
    apply H; reflexivity.
  - destruct (other_events_are_acknowledged (sample_settings "")
                (env_delivering ev) "body" None (paying_world PENDING false)
                (JObj [("type", JStr "charge:created")])
                (JStr "charge:created") eq_refl) as [_ H].
    apply (H ev); reflexivity.
Defined.

(** ** What creating an intent leaves behind *)

Lemma same_terms_refl (p : Payment.t) : same_terms p p.
Proof. unfold same_terms. repeat split. Qed.

Lemma same_terms_trans (p q r : Payment.t) :
  same_terms p q -> same_terms q r -> same_terms p r.
Proof.
  unfold same_terms. intros (?&?&?&?&?&?&?&?) (?&?&?&?&?&?&?&?).
  repeat split; congruence.
Qed.

Lemma frame_rel_refl (i : Z) (t : Tables) : frame_rel i t t.
Proof.
  unfold frame_rel. repeat split; auto.
  intros p Hp. exists p. auto using same_terms_refl.
Qed.

Lemma frame_rel_trans (i : Z) (t1 t2 t3 : Tables) :
  frame_rel i t1 t2 -> frame_rel i t2 t3 -> frame_rel i t1 t3.
Proof.
  intros (Hc1 & Hs1 & Hm1 & Ho1 & Hi1) (Hc2 & Hs2 & Hm2 & Ho2 & Hi2).
  unfold frame_rel. repeat split; try congruence.
  - intros j Hj. rewrite Ho2, Ho1; auto.
  - intros p Hp. destruct (Hi1 p Hp) as (p' & Hp' & Ht' & Hst').
    destruct (Hi2 p' Hp') as (p'' & Hp'' & Ht'' & Hst'').
    exists p''. split; [exact Hp''|]. split; [|congruence].
    eapply same_terms_trans; eassumption.
Qed.

Section AdapterFrame.

Variable settings : Settings.
Variable env : Env.
Variable i : Z.

Lemma frame_same_session {A} (m : M A) :
  (forall w, session (snd (m w)) = session w) -> adapter_frame i m.
Proof. intros H w. rewrite H. apply frame_rel_refl. Qed.

Lemma frame_quiet {A} (m : M A) : quiet m -> adapter_frame i m.
Proof. intros H. apply frame_same_session. intros w. apply H. Qed.

Lemma frame_bind {A B} (m : M A) (k : A -> M B) :
  adapter_frame i m -> (forall a, adapter_frame i (k a)) ->
  adapter_frame i (bind m k).
Proof.
  intros Hm Hk w. unfold bind. specialize (Hm w).
  destruct (m w) as [[a|e] w1]; simpl in *; [|exact Hm].
  eapply frame_rel_trans; [exact Hm | apply Hk].
Qed.

Lemma frame_try {A} (m : M A) (h : exn -> M A) :
  adapter_frame i m -> (forall e, adapter_frame i (h e)) ->
  adapter_frame i (try_except m h).
Proof.
  intros Hm Hh w. unfold try_except. specialize (Hm w).
  destruct (m w) as [[a|e] w1]; simpl in *; [exact Hm|].
  eapply frame_rel_trans; [exact Hm | apply Hh].
Qed.

Lemma frame_db_commit : adapter_frame i db_commit.
Proof. apply frame_same_session. reflexivity. Qed.

Lemma frame_load_conversion (ref : Z) : adapter_frame i (load_conversion ref).
Proof.
  apply frame_same_session. intros w. unfold load_conversion.
  destruct (conversions (session w) !! ref); reflexivity.
Qed.

Lemma frame_setattr (f : Payment.t -> Payment.t) :
  (forall p, same_terms p (f p) /\ Payment.status (f p) = Payment.status p) ->
  adapter_frame i (setattr_payment i f).
Proof.
  intros Hf w. unfold setattr_payment, frame_rel. cbn -[alter].
  repeat split; auto.
  - intros j Hj. apply lookup_alter_ne. congruence.
  - intros p Hp. rewrite lookup_alter_eq, Hp. simpl.
    exists (f p). split; [reflexivity | apply Hf].
Qed.

Ltac frame_step :=
  match goal with
  | |- adapter_frame _ (bind _ _) => apply frame_bind; [|intros ?]
  | |- adapter_frame _ (try_except _ _) => apply frame_try; [|intros ?]
  | |- adapter_frame _ (ret _) => apply frame_quiet, quiet_ret
  | |- adapter_frame _ (raise _) => apply frame_quiet, quiet_raise
  | |- adapter_frame _ (lift _) => apply frame_quiet, quiet_lift
  | |- adapter_frame _ (logger_error _) => apply frame_quiet, quiet_logger_error
  | |- adapter_frame _ (call_provider _ _) => apply frame_quiet, quiet_call_provider
  | |- adapter_frame _ (load_payment _) => apply frame_quiet, quiet_load_payment
  | |- adapter_frame _ (load_conversion _) => apply frame_load_conversion
  | |- adapter_frame _ db_commit => apply frame_db_commit
  | |- adapter_frame _ (setattr_payment _ _) =>
      apply frame_setattr; intros ?; unfold same_terms; simpl; tauto
  | |- adapter_frame _ (if ?b then _ else _) => destruct b
  | |- adapter_frame _ (match ?x with _ => _ end) => destruct x
  end.

(** The dispatch of [create_payment_intent] to the adapters. *)
Lemma frame_dispatch (payment_method : string) (conversion : Z) (metadata : json) :
  adapter_frame i
    (if method_eq payment_method CREDIT_CARD then
       _process_credit_card_payment settings env i conversion metadata
     else if method_eq payment_method BTC || method_eq payment_method ETH
             || method_eq payment_method USDT
             || method_eq payment_method OTHER_CRYPTO then
       _process_crypto_payment settings env i conversion metadata
     else
       raise (HTTPException 400 ("Unsupported payment method: " ++ payment_method))).
Proof.
  unfold _process_credit_card_payment, _process_crypto_payment.
  repeat frame_step.
Qed.

Lemma steady_quiet {A} (m : M A) : quiet m -> steady m.
Proof. intros H w Hw. destruct (H w) as [-> ->]. exact Hw. Qed.

Lemma steady_bind {A B} (m : M A) (k : A -> M B) :
  steady m -> (forall a, steady (k a)) -> steady (bind m k).
Proof.
  intros Hm Hk w Hw. unfold bind. specialize (Hm w Hw).
  destruct (m w) as [[a|e] w1]; simpl in *; [apply Hk, Hm | exact Hm].
Qed.

Lemma settling_raises {A} (m : M A) :
  (forall w, exists e, fst (m w) = Raise e) -> settling m.
Proof. intros H w [a Ha]. destruct (H w) as [e He]. congruence. Qed.

Lemma settling_skip {A B} (m : M A) (k : A -> M B) :
  (forall a, settling (k a)) -> settling (bind m k).
Proof.
  intros Hk w. unfold bind.
  destruct (m w) as [[a|e] w1]; simpl; [apply Hk|].
  intros [a Ha]. discriminate.
Qed.

Lemma settling_commit {B} (k : unit -> M B) :
  (forall a, steady (k a)) -> settling (bind db_commit k).
Proof.
  intros Hk w _. unfold bind, db_commit. apply Hk. reflexivity.
Qed.

Lemma settling_try {A} (m : M A) (h : exn -> M A) :
  settling m -> (forall e, settling (h e)) -> settling (try_except m h).
Proof.
  intros Hm Hh w. unfold try_except. specialize (Hm w).
  destruct (m w) as [[a|e] w1]; simpl in *; [intros _; apply Hm; eauto|].
  apply Hh.
Qed.

Ltac quiet_tail :=
  repeat match goal with
  | |- quiet (bind _ _) => apply quiet_bind; [|intros ?]
  | |- quiet (ret _) => apply quiet_ret
  | |- quiet (raise _) => apply quiet_raise
  | |- quiet (lift _) => apply quiet_lift
  | |- quiet (logger_error _) => apply quiet_logger_error
  | |- quiet (load_payment _) => apply quiet_load_payment
  | |- quiet (if ?b then _ else _) => destruct b
  | |- quiet (match ?x with _ => _ end) => destruct x
  end.

Ltac steady_tail :=
  repeat match goal with
  | |- steady (bind _ _) => apply steady_bind; [|intros ?]
  | |- steady (if ?b then _ else _) => destruct b
  | |- steady (match ?x with _ => _ end) => destruct x
  | |- steady _ => apply steady_quiet; quiet_tail
  end.

Ltac settling_step :=
  match goal with
  | |- settling (bind db_commit _) => apply settling_commit; intros ?; steady_tail
  | |- settling (bind _ _) => apply settling_skip; intros ?
  | |- settling (try_except _ _) => apply settling_try; [|intros ?]
  | |- settling (raise _) => apply settling_raises; intros ?; eexists; reflexivity
  | |- settling (if ?b then _ else _) => destruct b
  | |- settling (match ?x with _ => _ end) => destruct x
  end.

Lemma settling_dispatch (payment_method : string) (conversion : Z) (metadata : json) :
  settling
    (if method_eq payment_method CREDIT_CARD then
       _process_credit_card_payment settings env i conversion metadata
     else if method_eq payment_method BTC || method_eq payment_method ETH
             || method_eq payment_method USDT
             || method_eq payment_method OTHER_CRYPTO then
       _process_crypto_payment settings env i conversion metadata
     else
       raise (HTTPException 400 ("Unsupported payment method: " ++ payment_method))).
Proof.
  unfold _process_credit_card_payment, _process_crypto_payment.
  repeat settling_step.
Qed.

End AdapterFrame.


(** The run of [create_payment_intent] once the payment row is added. *)
Lemma priced_intent_outcome (settings : Settings) (env : Env)
  (conversion : Z) (payment_method : string) (user : option Z) (metadata : json)
  (w : World) (c : Conversion.t) (amount : float) (method : PaymentMethod) :
  conversions (session w) !! conversion = Some c ->
  Conversion.is_paid c = false ->
  calculate_price settings (Conversion.page_count c) = Ok amount ->
  PrimFloat.leb amount 0%float = false ->
  PaymentMethod_of payment_method = Ok method ->
  let i := payments_seq (session w) in
  let r := create_payment_intent settings env conversion payment_method user
             metadata w in
  store (snd r) = session (snd r)
  /\ payments_seq (session (snd r)) = i + 1
  /\ conversions (session (snd r)) = conversions (session w)
  /\ (forall j, j <> i -> payments (session (snd r)) !! j = payments (session w) !! j)
  /\ exists p,
       payments (session (snd r)) !! i = Some p
       /\ same_terms (new_payment env w user c method amount) p
       /\ match fst r with
          | Ok _ => Payment.status p = PENDING
          | Raise e =>
              Payment.status p = FAILED
              /\ exists cause,
                   e = HTTPException 500
                         ("Error processing payment: " ++ str_exn env cause)
                   /\ Payment.provider_data p
                      = JObj [("error", JStr (str_exn env cause))]
          end.
Proof.
  intros Hc Hpaid Hprice Hpos Hm i r. subst r.
  destruct (create_payment_intent settings env conversion payment_method user
              metadata w) as [out w'] eqn:Hrun.
  unfold create_payment_intent in Hrun.
  rewrite run_bind in Hrun. unfold load_conversion at 1 in Hrun.
  rewrite Hc in Hrun. cbv beta iota in Hrun. rewrite Hpaid in Hrun.
  rewrite run_bind, run_lift, Hprice in Hrun. cbv beta iota in Hrun.
  rewrite Hpos in Hrun.
  rewrite run_bind, run_lift, Hm in Hrun. cbv beta iota in Hrun.
  rewrite run_bind in Hrun. unfold utcnow at 1, at_moment at 1 in Hrun.
  cbv beta iota in Hrun.
  rewrite run_bind in Hrun. unfold db_add at 1 in Hrun.
  cbv beta iota zeta in Hrun. unfold with_session in Hrun.
  cbn [session store clock_reads provider_calls log payments_seq] in Hrun.
  fold i in Hrun.
  rewrite run_bind in Hrun. unfold db_commit at 1 in Hrun.
  cbn [session store clock_reads provider_calls log] in Hrun.
  cbv beta iota in Hrun.
  rewrite run_bind in Hrun. unfold db_refresh at 1 in Hrun.
  rewrite run_bind in Hrun. unfold load_payment at 1 in Hrun.
  cbn [session payments] in Hrun. rewrite lookup_insert_eq in Hrun.
  cbv beta iota in Hrun. unfold ret at 1 in Hrun. cbv beta iota in Hrun.
  rewrite run_try in Hrun.
  set (row := Payment.mk i user (Conversion.id c) method amount amount "USD"
                PENDING None JNull JNull JNull None None None
                (Some (utc env (clock_reads w) + 24 * 3600))) in Hrun.
  set (t2 := {| payments := <[i := row]> (payments (session w));
                conversions := conversions (session w);
                metrics := metrics (session w);
                payments_seq := i + 1 |}) in Hrun.
  set (w2 := {| session := t2; store := t2; clock_reads := S (clock_reads w);
                provider_calls := provider_calls w; log := log w |}) in Hrun.
  pose proof (frame_dispatch settings env i payment_method conversion metadata w2)
    as Hframe.
  pose proof (settling_dispatch settings env i payment_method conversion metadata
                w2) as Hsettle.
  match type of Hrun with
  | (let (_, _) := ?run in _) = _ => set (dispatched := run) in *
  end.
  destruct dispatched as [[a|e] w3]; simpl in Hframe, Hsettle.
  - injection Hrun as <- <-. simpl.
    destruct Hframe as (Hcv & Hsq & _ & Hoth & Hrow).
    destruct (Hrow row) as (p & Hp & Hterms & Hst);
      [apply lookup_insert_eq|].
    split; [apply Hsettle; eauto|]. split; [exact Hsq|].
    split; [exact Hcv|]. split.
    + intros j Hj. rewrite (Hoth j Hj). apply lookup_insert_ne. congruence.
    + exists p. split; [exact Hp|]. split; [exact Hterms | exact Hst].
  - unfold bind, logger_error, setattr_payment, db_commit, raise, with_session,
      with_payments in Hrun.
    cbn -[alter] in Hrun. injection Hrun as <- <-. cbn -[alter].
    destruct Hframe as (Hcv & Hsq & _ & Hoth & Hrow).
    destruct (Hrow row) as (p & Hp & Hterms & Hst);
      [apply lookup_insert_eq|].
    split; [reflexivity|]. split; [exact Hsq|]. split; [exact Hcv|]. split.
    + intros j Hj. rewrite !lookup_alter_ne by congruence.
      rewrite (Hoth j Hj). apply lookup_insert_ne. congruence.
    + rewrite !lookup_alter_eq, Hp. simpl. eexists. split; [reflexivity|].
      split; [exact Hterms|]. simpl. split; [reflexivity|].
      exists e. split; reflexivity.
Qed.

(** X10: for an unpaid conversion with a price and a supported method,
    [create_payment_intent] adds exactly one payment, under the next key,
    with the terms of [new_payment], and commits; the other payments and
    the conversions are as they were.  When it returns the payment is
    PENDING; when it raises, the exception is an [HTTPException] with status
    500 and the payment is FAILED, with the text of the error that the 500
    quotes as [provider_data].  No payment is left PENDING by a failure. *)
Theorem created_payment_is_pending_or_failed (settings : Settings) (env : Env)
  (conversion : Z) (payment_method : string) (user : option Z) (metadata : json)
  (w : World) (c : Conversion.t) (amount : float) (method : PaymentMethod) :
  conversions (session w) !! conversion = Some c ->
  Conversion.is_paid c = false ->
  calculate_price settings (Conversion.page_count c) = Ok amount ->
  PrimFloat.leb amount 0%float = false ->
  PaymentMethod_of payment_method = Ok method ->
  let i := payments_seq (session w) in
  let r := create_payment_intent settings env conversion payment_method user
             metadata w in
  store (snd r) = session (snd r)
  /\ payments_seq (session (snd r)) = i + 1
  /\ conversions (session (snd r)) = conversions (session w)
  /\ (forall j, j <> i -> payments (session (snd r)) !! j = payments (session w) !! j)
  /\ exists p,
       payments (session (snd r)) !! i = Some p
       /\ same_terms (new_payment env w user c method amount) p
       /\ match fst r with
          | Ok _ => Payment.status p = PENDING
          | Raise e =>
              Payment.status p = FAILED
              /\ exists cause,
                   e = HTTPException 500
                         ("Error processing payment: " ++ str_exn env cause)
                   /\ Payment.provider_data p
                      = JObj [("error", JStr (str_exn env cause))]
          end.
Proof.
  intros Hc Hpaid Hprice Hpos Hm.
  exact (priced_intent_outcome settings env conversion payment_method user
           metadata w c amount method Hc Hpaid Hprice Hpos Hm).
Qed.

Lemma created_payment_is_pending_or_failed_witness :
  let r := create_payment_intent (sample_settings "")
             (sample_env stripe_unreachable) 1 "credit_card" None JNull
             (fresh_world 80 false) in
  store (snd r) = session (snd r)
  /\ payments_seq (session (snd r)) = 2
  /\ exists p, payments (session (snd r)) !! 1 = Some p
               /\ Payment.status p = FAILED
               /\ Payment.provider_data p
                  = JObj [("error", JStr "connection refused")].
Proof.
  intros r.
  destruct (created_payment_is_pending_or_failed (sample_settings "")
              (sample_env stripe_unreachable) 1 "credit_card" None JNull
              (fresh_world 80 false) (sample_conversion 80 false) 3%float
              CREDIT_CARD eq_refl eq_refl eq_refl eq_refl eq_refl)
    as (Hst & Hseq & _ & _ & p & Hp & _ & Hcase).
  split; [exact Hst|]. split; [exact Hseq|].
  exists p. split; [exact Hp|].
  assert (Hfst : fst r = Raise (HTTPException 500
                   "Error processing payment: connection refused"))
    by (vm_compute; reflexivity).
  fold r in Hcase. rewrite Hfst in Hcase.
  destruct Hcase as (Hfailed & cause & _ & Hdata).
  split; [exact Hfailed|].
  vm_compute in Hp. injection Hp as <-. reflexivity.
Defined.

(** ** The adapters when the provider answers *)

Lemma getattr_is_object (v : json) (k : string) (x : json) :
  getattr v k = Ok x -> to_dict v = Ok v.
Proof. destruct v; simpl; intros H; try discriminate. reflexivity. Qed.

(** X11: when the card provider answers with an intent that has an [id]
    and a [client_secret], the intent for an unpaid conversion with a price
    is opened: one request is sent, carrying [stripe_intent_params] of the
    new payment; the payment is committed PENDING with provider [stripe],
    the intent's id and the intent itself; the reply carries the client
    secret and the publishable key. *)
Theorem card_intent_is_opened (settings : Settings) (env : Env)
  (conversion : Z) (user : option Z) (metadata : json) (w : World)
  (c : Conversion.t) (amount : float) (params intent intent_id secret : json) :
  conversions (session w) !! conversion = Some c ->
  Conversion.is_paid c = false ->
  calculate_price settings (Conversion.page_count c) = Ok amount ->
  PrimFloat.leb amount 0%float = false ->
  stripe_intent_params env c (new_payment env w user c CREDIT_CARD amount)
    metadata = Ok params ->
  stripe_PaymentIntent_create env (provider_calls w) params = Ok intent ->
  getattr intent "id" = Ok intent_id ->
  getattr intent "client_secret" = Ok secret ->
  create_payment_intent settings env conversion "credit_card" user metadata w
  = (Ok (JObj
       [("payment_id", JInt (payments_seq (session w)));
        ("client_secret", secret);
        ("publishable_key", JStr (stripe_public_key settings));
        ("amount", JFloat amount);
        ("currency", JStr "USD");
        ("status", JStr "pending");
        ("requires_action", JBool true);
        ("payment_method_types", JArr [JStr "card"])]),
     committed
       (tables_with_new
          (Payment.set_provider_data intent
             (Payment.set_provider_payment_id intent_id
                (Payment.set_provider (Some "stripe")
                   (new_payment env w user c CREDIT_CARD amount))))
          (session w))
       (called (tick w))).
Proof.
  intros Hc Hpaid Hprice Hpos Hparams Hcreate Hid Hsecret.
  pose proof (getattr_is_object intent "id" intent_id Hid) as Hdict.
  unfold create_payment_intent.
  rewrite run_bind. unfold load_conversion at 1. rewrite Hc. cbv beta iota.
  rewrite Hpaid.
  run_lift_step Hprice. rewrite Hpos.
  rewrite run_bind, run_lift.
  change (PaymentMethod_of "credit_card") with (Ok CREDIT_CARD). cbv beta iota.
  rewrite run_bind. unfold utcnow at 1, at_moment at 1. cbv beta iota.
  rewrite run_bind. unfold db_add at 1. cbv beta iota zeta.
  unfold with_session. cbn [session store clock_reads provider_calls log payments_seq].
  rewrite run_bind. unfold db_commit at 1.
  cbn [session store clock_reads provider_calls log]. cbv beta iota.
  rewrite run_bind. unfold db_refresh at 1.
  rewrite run_bind. unfold load_payment at 1.
  cbn [session payments]. rewrite lookup_insert_eq. cbv beta iota.
  unfold ret at 1. cbv beta iota.
  rewrite run_try.
  change (method_eq "credit_card" CREDIT_CARD) with true. cbv beta iota.
  unfold _process_credit_card_payment. rewrite run_try.
  rewrite run_bind. unfold load_payment at 1.
  cbn [session payments]. rewrite lookup_insert_eq. cbv beta iota.
  rewrite run_bind. unfold load_conversion at 1.
  cbn [session conversions]. rewrite Hc. cbv beta iota.
  fold (new_payment env w user c CREDIT_CARD amount).
  run_lift_step Hparams.
  rewrite run_bind. unfold call_provider at 1.
  cbn [session store clock_reads provider_calls log]. rewrite Hcreate.
  cbv beta iota.
  rewrite run_bind. unfold setattr_payment at 1, with_session, with_payments.
  cbn [session store clock_reads provider_calls log payments conversions
       metrics payments_seq]. cbv beta iota.
  run_lift_step Hid.
  rewrite run_bind. unfold setattr_payment at 1, with_session, with_payments.
  cbn [session store clock_reads provider_calls log payments conversions
       metrics payments_seq]. cbv beta iota.
  run_lift_step Hdict.
  rewrite run_bind. unfold setattr_payment at 1, with_session, with_payments.
  cbn [session store clock_reads provider_calls log payments conversions
       metrics payments_seq]. cbv beta iota.
  rewrite run_bind. unfold db_commit at 1.
  cbn [session store clock_reads provider_calls log]. cbv beta iota.
  rewrite run_bind. unfold load_payment at 1.
  cbn [session payments]. rewrite !alter_insert_eq, lookup_insert_eq.
  cbv beta iota.
  run_lift_step Hsecret.
  reflexivity.
Qed.

Lemma card_intent_is_opened_witness :
  fst (create_payment_intent (sample_settings "") (sample_env stripe_accepts)
         1 "credit_card" None JNull (fresh_world 80 false))
  = Ok (JObj
      [("payment_id", JInt 1);
       ("client_secret", JStr "cs_1");
       ("publishable_key", JStr "pk_test");
       ("amount", JFloat 3%float);
       ("currency", JStr "USD");
       ("status", JStr "pending");
       ("requires_action", JBool true);
       ("payment_method_types", JArr [JStr "card"])]).
Proof.
  erewrite (card_intent_is_opened (sample_settings "")
              (sample_env stripe_accepts) 1 None JNull (fresh_world 80 false)
              (sample_conversion 80 false) 3%float);
    reflexivity.
Defined.

(** X12: when a crypto credential is configured and the crypto provider
    answers with a charge that has an id, addresses, a local price and a
    hosted URL, the charge for an unpaid conversion with a price is opened:
    the payment is committed PENDING with provider [coinbase], the charge's
    id, the charge itself, the local amount and, as address, the bitcoin
    address when there is one and the ethereum address otherwise. *)
Theorem crypto_charge_is_opened (settings : Settings) (env : Env)
  (conversion : Z) (payment_method : string) (user : option Z) (metadata : json)
  (w : World) (c : Conversion.t) (amount : float) (key : string)
  (method : PaymentMethod)
  (charge_data charge charge_id addresses btc eth pricing local local_amount
     hosted_url : json) (crypto_amount : float) :
  coinbase (payment_clients settings) = Some key ->
  PaymentMethod_of payment_method = Ok method ->
  method_eq payment_method BTC || method_eq payment_method ETH
  || method_eq payment_method USDT || method_eq payment_method OTHER_CRYPTO = true ->
  conversions (session w) !! conversion = Some c ->
  Conversion.is_paid c = false ->
  calculate_price settings (Conversion.page_count c) = Ok amount ->
  PrimFloat.leb amount 0%float = false ->
  coinbase_charge_data settings env c (new_payment env w user c method amount)
    metadata = Ok charge_data ->
  coinbase_charge_create env (provider_calls w) charge_data = Ok charge ->
  getattr charge "id" = Ok charge_id ->
  getattr charge "addresses" = Ok addresses ->
  dict_get addresses "bitcoin" = Ok btc ->
  dict_get addresses "ethereum" = Ok eth ->
  getattr charge "pricing" = Ok pricing ->
  getitem pricing "local" = Ok local ->
  getitem local "amount" = Ok local_amount ->
  py_float env local_amount = Ok crypto_amount ->
  getattr charge "hosted_url" = Ok hosted_url ->
  let address := if truthy btc then btc else eth in
  create_payment_intent settings env conversion payment_method user metadata w
  = (Ok (JObj
       [("payment_id", JInt (payments_seq (session w)));
        ("checkout_url", hosted_url);
        ("crypto_address", address);
        ("crypto_amount", JFloat crypto_amount);
        ("currency", JStr "USD");
        ("status", JStr "pending");
        ("expires_at",
         JStr (isoformat env (utc env (clock_reads w) + 24 * 3600)))]),
     committed
       (tables_with_new
          (Payment.set_provider_data charge
             (Payment.set_crypto_amount (Some crypto_amount)
                (Payment.set_crypto_address address
                   (Payment.set_provider_payment_id charge_id
                      (Payment.set_provider (Some "coinbase")
                         (new_payment env w user c method amount))))))
          (session w))
       (called (tick w))).
Proof.
  intros Hkey Hm Hcrypto Hc Hpaid Hprice Hpos Hdata Hcreate Hid Haddr Hbtc Heth
    Hpricing Hlocal Hamount Hfloat Hurl address.
  assert (Hcard : method_eq payment_method CREDIT_CARD = false).
  { destruct (crypto_method_cases _ Hcrypto) as [-> | [-> | [-> | ->]]];
      reflexivity. }
  unfold create_payment_intent.
  rewrite run_bind. unfold load_conversion at 1. rewrite Hc. cbv beta iota.
  rewrite Hpaid.
  run_lift_step Hprice. rewrite Hpos.
  run_lift_step Hm.
  rewrite run_bind. unfold utcnow at 1, at_moment at 1. cbv beta iota.
  rewrite run_bind. unfold db_add at 1. cbv beta iota zeta.
  unfold with_session. cbn [session store clock_reads provider_calls log payments_seq].
  rewrite run_bind. unfold db_commit at 1.
  cbn [session store clock_reads provider_calls log]. cbv beta iota.
  rewrite run_bind. unfold db_refresh at 1.
  rewrite run_bind. unfold load_payment at 1.
  cbn [session payments]. rewrite lookup_insert_eq. cbv beta iota.
  unfold ret at 1. cbv beta iota.
  rewrite run_try. rewrite Hcard, Hcrypto.
  unfold _process_crypto_payment. rewrite Hkey. rewrite run_try.
  rewrite run_bind. unfold load_conversion at 1.
  cbn [session conversions]. rewrite Hc. cbv beta iota.
  rewrite run_bind. unfold load_payment at 1.
  cbn [session payments]. rewrite lookup_insert_eq. cbv beta iota.
  fold (new_payment env w user c method amount).
  run_lift_step Hdata.
  rewrite run_bind. unfold call_provider at 1.
  cbn [session store clock_reads provider_calls log]. rewrite Hcreate.
  cbv beta iota.
  rewrite run_bind. unfold setattr_payment at 1, with_session, with_payments.
  cbn [session store clock_reads provider_calls log payments conversions
       metrics payments_seq]. cbv beta iota.
  run_lift_step Hid.
  rewrite run_bind. unfold setattr_payment at 1, with_session, with_payments.
  cbn [session store clock_reads provider_calls log payments conversions
       metrics payments_seq]. cbv beta iota.
  run_lift_step Haddr. run_lift_step Hbtc.
  rewrite run_bind.
  assert (Hpick : forall w0,
            (if truthy btc then ret btc else lift (dict_get addresses "ethereum")) w0
            = (Ok address, w0)).
  { intros w0. subst address. destruct (truthy btc); [reflexivity|].
    rewrite run_lift, Heth. reflexivity. }
  rewrite Hpick. cbv beta iota.
  rewrite run_bind. unfold setattr_payment at 1, with_session, with_payments.
  cbn [session store clock_reads provider_calls log payments conversions
       metrics payments_seq]. cbv beta iota.
  run_lift_step Hpricing. run_lift_step Hlocal. run_lift_step Hamount.
  run_lift_step Hfloat.
  rewrite run_bind. unfold setattr_payment at 1, with_session, with_payments.
  cbn [session store clock_reads provider_calls log payments conversions
       metrics payments_seq]. cbv beta iota.
  rewrite run_bind. unfold setattr_payment at 1, with_session, with_payments.
  cbn [session store clock_reads provider_calls log payments conversions
       metrics payments_seq]. cbv beta iota.
  rewrite run_bind. unfold db_commit at 1.
  cbn [session store clock_reads provider_calls log]. cbv beta iota.
  rewrite run_bind. unfold load_payment at 1.
  cbn [session payments]. rewrite !alter_insert_eq, lookup_insert_eq.
  cbv beta iota.
  run_lift_step Hurl.
  reflexivity.
Qed.

Lemma crypto_charge_is_opened_witness :
  let charge :=
    JObj [("id", JStr "CH1");
          ("addresses", JObj [("ethereum", JStr "0xabc")]);
          ("pricing", JObj [("local", JObj [("amount", JStr "0.0015")])]);
          ("hosted_url", JStr "https://pay.example/CH1")] in
  fst (create_payment_intent (sample_settings "ck_test") (env_delivering charge)
         1 "ethereum" None JNull (fresh_world 80 false))
  = Ok (JObj
      [("payment_id", JInt 1);
       ("checkout_url", JStr "https://pay.example/CH1");
       ("crypto_address", JStr "0xabc");
       ("crypto_amount", JFloat 0.0015%float);
       ("currency", JStr "USD");
       ("status", JStr "pending");
       ("expires_at", JStr "1700086400")]).
Proof.
  intros charge.
  pose proof (fun charge_data =>
    crypto_charge_is_opened (sample_settings "ck_test")
      (env_delivering charge) 1 "ethereum" None JNull
      (fresh_world 80 false) (sample_conversion 80 false) 3%float
      "ck_test" ETH charge_data charge (JStr "CH1")
      (JObj [("ethereum", JStr "0xabc")]) JNull (JStr "0xabc")
      (JObj [("local", JObj [("amount", JStr "0.0015")])])
      (JObj [("amount", JStr "0.0015")]) (JStr "0.0015")
      (JStr "https://pay.example/CH1") 0.0015%float) as H.
  erewrite H; reflexivity.
Defined.

(** ** The status resolver *)

Lemma get_payment_status_polls (settings : Settings) (env : Env) (payment_id : Z)
  (w : World) (p : Payment.t) :
  payments (session w) !! payment_id = Some p ->
  Payment.status p <> COMPLETED ->
  get_payment_status settings env payment_id w
  = match try_except (poll_provider settings env payment_id p)
            (fun e =>
               logger_error ("Error checking payment status: " ++ str_exn env e) ;;;
               ret None) w with
    | (Ok (Some r), w') => (Ok r, w')
    | (Ok None, w') =>
        match payments (session w') !! payment_id with
        | Some p' =>
            (Ok (JObj
               [("status", JStr (PaymentStatus_value (Payment.status p')));
                ("paid", JBool (bool_decide (Payment.status p' = COMPLETED)));
                ("payment_id", JInt (Payment.id p'));
                ("conversion_id", JInt (Payment.conversion_id p'));
                ("amount", JFloat (Payment.amount p'));
                ("currency", JStr (Payment.currency p'));
                ("expires_at",
                 opt_json (fun t => JStr (isoformat env t))
                   (Payment.expires_at p'))]), w')
        | None => (Raise (ProviderException "ObjectDeletedError" "payments"), w')
        end
    | (Raise e, w') => (Raise e, w')
    end.
Proof.
  intros Hp Hst.
  unfold get_payment_status.
  rewrite run_bind. unfold query_payment at 1. simpl payment_key. cbv beta iota.
  rewrite Hp. cbv beta iota.
  rewrite run_bind. unfold load_payment at 1. rewrite Hp. cbv beta iota.
  destruct (decide (Payment.status p = COMPLETED)) as [Hc|_]; [contradiction|].
  rewrite run_bind.
  destruct (try_except _ _ w) as [[[r|]|e] w']; try reflexivity.
  rewrite run_bind. unfold load_payment.
  destruct (payments (session w') !! payment_id); reflexivity.
Qed.

(** X13: when the provider reports success for a payment that is not
    COMPLETED, the status call reconciles it as a webhook would, with the
    provider's answer as [provider_data], after one request: for a card
    payment when the intent's status is [succeeded], for a crypto payment
    when the charge's status is CONFIRMED or RESOLVED. *)
Theorem status_poll_reconciles (settings : Settings) (env : Env) (payment_id : Z)
  (w : World) (p : Payment.t) (answer : json) :
  payment_id <> 0 ->
  payments (session w) !! payment_id = Some p ->
  Payment.status p <> COMPLETED ->
  (Payment.provider p = Some "stripe" ->
   stripe_PaymentIntent_retrieve env (provider_calls w)
     (Payment.provider_payment_id p) = Ok answer ->
   getattr answer "status" = Ok (JStr "succeeded") ->
   get_payment_status settings env payment_id w
   = (Ok (reconciled_reply p), reconciled_world env answer payment_id p (called w)))
  /\ (Payment.provider p = Some "coinbase" ->
      forall key st,
        coinbase (payment_clients settings) = Some key ->
        coinbase_charge_retrieve env (provider_calls w)
          (Payment.provider_payment_id p) = Ok answer ->
        getitem answer "status" = Ok st ->
        eq_str st "CONFIRMED" || eq_str st "RESOLVED" = true ->
        get_payment_status settings env payment_id w
        = (Ok (reconciled_reply p),
           reconciled_world env answer payment_id p (called w))).
Proof.
  intros Hnz Hp Hst.
  assert (Ht : truthy (JInt payment_id) = true).
  { simpl. apply negb_true_iff, Z.eqb_neq, Hnz. }
  pose proof (reconcile_run env (JInt payment_id) answer (called w) payment_id p
                Ht eq_refl Hp) as Hrun.
  unfold called at 1 in Hrun.
  split.
  - intros Hprov Hret Hstatus.
    rewrite (get_payment_status_polls settings env payment_id w p Hp Hst).
    rewrite run_try. unfold poll_provider. rewrite Hprov.
    change (String.eqb "stripe" "stripe") with true. cbv beta iota.
    rewrite run_bind. unfold call_provider at 1. rewrite Hret. cbv beta iota.
    run_lift_step Hstatus.
    change (eq_str (JStr "succeeded") "succeeded") with true. cbv beta iota.
    rewrite run_bind, Hrun. reflexivity.
  - intros Hprov key st Hkey Hret Hstatus Hconf.
    rewrite (get_payment_status_polls settings env payment_id w p Hp Hst).
    rewrite run_try. unfold poll_provider. rewrite Hprov.
    change (String.eqb "coinbase" "stripe") with false.
    change (String.eqb "coinbase" "coinbase") with true. cbv beta iota.
    rewrite Hkey.
    rewrite run_bind. unfold call_provider at 1. rewrite Hret. cbv beta iota.
    run_lift_step Hstatus. rewrite Hconf.
    rewrite run_bind, Hrun. reflexivity.
Qed.

(** Finish a run of the status call that ends in the reply for the row as
    it is. *)
Ltac poll_done Hp Hpaid :=
  unfold bind, raise, logger_error, ret; cbv beta iota;
  unfold logged, called; cbn [session payments];
  rewrite Hp, Hpaid; reflexivity.

(** Send the request of the poll, answered as [Hret] says. *)
Ltac poll_ask Hret :=
  rewrite run_bind; unfold call_provider at 1; rewrite Hret; cbv beta iota.

(** The reconciliation refuses the payment id [0] before it does anything. *)
Ltac poll_refused Hp Hpaid :=
  rewrite run_bind; unfold _process_successful_payment at 1;
  change (negb (truthy (JInt 0))) with true; cbv beta iota;
  poll_done Hp Hpaid.

(** X14: the poll is advisory, whatever the provider of the payment.  For
    a payment that is not COMPLETED:
    - when its provider is neither the card nor the crypto provider (an
      unknown name, or none), nothing is asked;
    - when the provider cannot be asked (the request fails, or the crypto
      client is not configured), or its answer has no readable status, or
      the reconciliation refuses the falsy payment id [0], the error is
      logged and swallowed;
    - when the provider reports another status than success ([succeeded]
      for a card intent, CONFIRMED or RESOLVED for a crypto charge), nothing
      is done.
    In each case the call returns the status the row has, with [paid]
    false, and the tables are as they were. *)
Theorem status_poll_is_advisory (settings : Settings) (env : Env) (payment_id : Z)
  (w : World) (p : Payment.t) :
  payments (session w) !! payment_id = Some p ->
  Payment.status p <> COMPLETED ->
  (Payment.provider p <> Some "stripe" ->
   Payment.provider p <> Some "coinbase" ->
   get_payment_status settings env payment_id w = (Ok (unpaid_reply env p), w))
  /\ (Payment.provider p = Some "stripe" ->
      (forall e,
         stripe_PaymentIntent_retrieve env (provider_calls w)
           (Payment.provider_payment_id p) = Raise e ->
         get_payment_status settings env payment_id w
         = (Ok (unpaid_reply env p), swallowed env e (called w)))
      /\ (forall answer,
            stripe_PaymentIntent_retrieve env (provider_calls w)
              (Payment.provider_payment_id p) = Ok answer ->
            (forall e,
               getattr answer "status" = Raise e ->
               get_payment_status settings env payment_id w
               = (Ok (unpaid_reply env p), swallowed env e (called w)))
            /\ (forall st,
                  getattr answer "status" = Ok st ->
                  (eq_str st "succeeded" = false ->
                   get_payment_status settings env payment_id w
                   = (Ok (unpaid_reply env p), called w))
                  /\ (eq_str st "succeeded" = true ->
                      payment_id = 0 ->
                      get_payment_status settings env payment_id w
                      = (Ok (unpaid_reply env p),
                         swallowed env (HTTPException 400 "No payment ID provided")
                           (called w))))))
  /\ (Payment.provider p = Some "coinbase" ->
      (coinbase (payment_clients settings) = None ->
       get_payment_status settings env payment_id w
       = (Ok (unpaid_reply env p), swallowed env (AttributeError "charge") w))
      /\ (forall key,
            coinbase (payment_clients settings) = Some key ->
            (forall e,
               coinbase_charge_retrieve env (provider_calls w)
                 (Payment.provider_payment_id p) = Raise e ->
               get_payment_status settings env payment_id w
               = (Ok (unpaid_reply env p), swallowed env e (called w)))
            /\ (forall answer,
                  coinbase_charge_retrieve env (provider_calls w)
                    (Payment.provider_payment_id p) = Ok answer ->
                  (forall e,
                     getitem answer "status" = Raise e ->
                     get_payment_status settings env payment_id w
                     = (Ok (unpaid_reply env p), swallowed env e (called w)))
                  /\ (forall st,
                        getitem answer "status" = Ok st ->
                        (eq_str st "CONFIRMED" || eq_str st "RESOLVED" = false ->
                         get_payment_status settings env payment_id w
                         = (Ok (unpaid_reply env p), called w))
                        /\ (eq_str st "CONFIRMED" || eq_str st "RESOLVED" = true ->
                            payment_id = 0 ->
                            get_payment_status settings env payment_id w
                            = (Ok (unpaid_reply env p),
                               swallowed env
                                 (HTTPException 400 "No payment ID provided")
                                 (called w))))))).
Proof.
  intros Hp Hst.
  assert (Hpaid : bool_decide (Payment.status p = COMPLETED) = false)
    by (apply bool_decide_eq_false; exact Hst).
  rewrite (get_payment_status_polls settings env payment_id w p Hp Hst).
  rewrite run_try. unfold poll_provider, unpaid_reply, swallowed.
  split; [|split].
  - intros Hcard Hcrypto.
    destruct (Payment.provider p) as [name|]; [|poll_done Hp Hpaid].
    destruct (String.eqb_spec name "stripe") as [->|_]; [congruence|].
    destruct (String.eqb_spec name "coinbase") as [->|_]; [congruence|].
    poll_done Hp Hpaid.
  - intros Hprov. rewrite Hprov.
    change (String.eqb "stripe" "stripe") with true. cbv beta iota.
    split; [intros e Hret
           |intros answer Hret;
            split; [intros e Hstatus
                   |intros st Hstatus; split; [intros Hne|intros Hyes ->]]];
      poll_ask Hret; [|run_lift_step Hstatus..]; rewrite ?Hne, ?Hyes.
    + poll_done Hp Hpaid.
    + poll_done Hp Hpaid.
    + poll_done Hp Hpaid.
    + poll_refused Hp Hpaid.
  - intros Hprov. rewrite Hprov.
    change (String.eqb "coinbase" "stripe") with false.
    change (String.eqb "coinbase" "coinbase") with true. cbv beta iota.
    split; [intros Hkey; rewrite Hkey; poll_done Hp Hpaid|].
    intros key Hkey. rewrite Hkey.
    split; [intros e Hret
           |intros answer Hret;
            split; [intros e Hstatus
                   |intros st Hstatus; split; [intros Hne|intros Hyes ->]]];
      poll_ask Hret; [|run_lift_step Hstatus..]; rewrite ?Hne, ?Hyes.
    + poll_done Hp Hpaid.
    + poll_done Hp Hpaid.
    + poll_done Hp Hpaid.
    + poll_refused Hp Hpaid.
Qed.

Lemma status_poll_reconciles_witness :
  let crypto := Payment.set_provider (Some "coinbase") (sample_payment PENDING) in
  let confirmed := JObj [("status", JStr "CONFIRMED")] in
  get_payment_status (sample_settings "") (sample_env stripe_accepts) 1
    (paying_world PENDING false)
  = (Ok (reconciled_reply (sample_payment PENDING)),
     reconciled_world (sample_env stripe_accepts) (succeeded_intent "1") 1
       (sample_payment PENDING) (called (paying_world PENDING false)))
  /\ get_payment_status (sample_settings "ck_test") (env_delivering confirmed) 1
       (world_with_payment crypto)
     = (Ok (reconciled_reply crypto),
        reconciled_world (env_delivering confirmed) confirmed 1 crypto
          (called (world_with_payment crypto))).
Proof.
  intros crypto confirmed. split.
  - destruct (status_poll_reconciles (sample_settings "")
                (sample_env stripe_accepts) 1 (paying_world PENDING false)
                (sample_payment PENDING) (succeeded_intent "1"))
      as [H _]; [lia | reflexivity | discriminate |].
    apply H; reflexivity.
  - destruct (status_poll_reconciles (sample_settings "ck_test")
                (env_delivering confirmed) 1 (world_with_payment crypto)
                crypto confirmed)
      as [_ H]; [lia | reflexivity | discriminate |].
    apply (H eq_refl "ck_test" (JStr "CONFIRMED")); reflexivity.
Defined.

Lemma status_poll_is_advisory_witness :
  let processing := JObj [("status", JStr "processing")] in
  let pending := JObj [("status", JStr "PENDING")] in
  let odd := JObj [("code", JStr "PENDING")] in
  let manual := Payment.set_provider None (sample_payment FAILED) in
  let other := Payment.set_provider (Some "paypal") (sample_payment PENDING) in
  let crypto := Payment.set_provider (Some "coinbase") (sample_payment PENDING) in
  get_payment_status (sample_settings "") env_offline 1 (paying_world EXPIRED false)
  = (Ok (unpaid_reply env_offline (sample_payment EXPIRED)),
     logged "Error checking payment status: connection refused"
       (called (paying_world EXPIRED false)))
  /\ get_payment_status (sample_settings "") (env_delivering processing) 1
       (paying_world PENDING false)
     = (Ok (unpaid_reply (env_delivering processing) (sample_payment PENDING)),
        called (paying_world PENDING false))
  /\ get_payment_status (sample_settings "") env_offline 1
       (world_with_payment manual)
     = (Ok (unpaid_reply env_offline manual), world_with_payment manual)
  /\ get_payment_status (sample_settings "ck_test") (env_delivering pending) 1
       (world_with_payment other)
     = (Ok (unpaid_reply (env_delivering pending) other), world_with_payment other)
  /\ get_payment_status (sample_settings "") (env_delivering pending) 1
       (world_with_payment crypto)
     = (Ok (unpaid_reply (env_delivering pending) crypto),
        logged "Error checking payment status: charge" (world_with_payment crypto))
  /\ get_payment_status (sample_settings "ck_test") env_offline 1
       (world_with_payment crypto)
     = (Ok (unpaid_reply env_offline crypto),
        logged "Error checking payment status: connection refused"
          (called (world_with_payment crypto)))
  /\ get_payment_status (sample_settings "ck_test") (env_delivering odd) 1
       (world_with_payment crypto)
     = (Ok (unpaid_reply (env_delivering odd) crypto),
        logged "Error checking payment status: status"
          (called (world_with_payment crypto)))
  /\ get_payment_status (sample_settings "ck_test") (env_delivering pending) 1
       (world_with_payment crypto)
     = (Ok (unpaid_reply (env_delivering pending) crypto),
        called (world_with_payment crypto)).
Proof.
  intros processing pending odd manual other crypto.
  destruct (status_poll_is_advisory (sample_settings "") env_offline 1
              (paying_world EXPIRED false) (sample_payment EXPIRED))
    as (_ & Hdown & _); [reflexivity | discriminate |].
  destruct (status_poll_is_advisory (sample_settings "")
              (env_delivering processing) 1 (paying_world PENDING false)
              (sample_payment PENDING))
    as (_ & Hwait & _); [reflexivity | discriminate |].
  destruct (status_poll_is_advisory (sample_settings "") env_offline 1
              (world_with_payment manual) manual)
    as (Hnone & _ & _); [reflexivity | discriminate |].
  destruct (status_poll_is_advisory (sample_settings "ck_test")
              (env_delivering pending) 1 (world_with_payment other) other)
    as (Hother & _ & _); [reflexivity | discriminate |].
  destruct (status_poll_is_advisory (sample_settings "")
              (env_delivering pending) 1 (world_with_payment crypto) crypto)
    as (_ & _ & Hnokey); [reflexivity | discriminate |].
  destruct (status_poll_is_advisory (sample_settings "ck_test") env_offline 1
              (world_with_payment crypto) crypto)
    as (_ & _ & Hoff); [reflexivity | discriminate |].
  destruct (status_poll_is_advisory (sample_settings "ck_test")
              (env_delivering odd) 1 (world_with_payment crypto) crypto)
    as (_ & _ & Hodd); [reflexivity | discriminate |].
  destruct (status_poll_is_advisory (sample_settings "ck_test")
              (env_delivering pending) 1 (world_with_payment crypto) crypto)
    as (_ & _ & Hpend); [reflexivity | discriminate |].
  repeat match goal with |- _ /\ _ => split end.
  - destruct (Hdown eq_refl) as [H _].
    apply (H (ProviderException "APIConnectionError" "connection refused")).
    reflexivity.
  - destruct (Hwait eq_refl) as [_ H].
    destruct (H processing eq_refl) as [_ H'].
    destruct (H' (JStr "processing") eq_refl) as [H'' _].
    apply H''. reflexivity.
  - apply Hnone; discriminate.
  - apply Hother; discriminate.
  - destruct (Hnokey eq_refl) as [H _]. apply H. reflexivity.
  - destruct (Hoff eq_refl) as [_ H].
    destruct (H "ck_test" eq_refl) as [H' _].
    apply (H' (ProviderException "APIConnectionError" "connection refused")).
    reflexivity.
  - destruct (Hodd eq_refl) as [_ H].
    destruct (H "ck_test" eq_refl) as [_ H'].
    destruct (H' odd eq_refl) as [H'' _].
    apply (H'' (KeyError "status")). reflexivity.
  - destruct (Hpend eq_refl) as [_ H].
    destruct (H "ck_test" eq_refl) as [_ H'].
    destruct (H' pending eq_refl) as [_ H''].
    destruct (H'' (JStr "PENDING") eq_refl) as [H3 _].
    apply H3. reflexivity.
Defined.

(** ** Refusals and the billing invariant *)

(** The ways [create_payment_intent] can go: it raises before anything is
    changed; or the conversion is free and is marked paid; or the conversion
    has a price and a payment row is added. *)
Lemma create_run_cases (settings : Settings) (env : Env) (conversion : Z)
  (payment_method : string) (user : option Z) (metadata : json) (w : World) :
  let r := create_payment_intent settings env conversion payment_method user
             metadata w in
  ((exists e, fst r = Raise e) /\ snd r = w)
  \/ (exists c,
        conversions (session w) !! conversion = Some c
        /\ Conversion.is_paid c = false
        /\ (exists a, fst r = Ok a)
        /\ session (snd r)
           = with_conversions
               (alter (Conversion.set_is_paid true) conversion
                  (conversions (session w))) (session w))
  \/ (exists c amount method,
        conversions (session w) !! conversion = Some c
        /\ Conversion.is_paid c = false
        /\ calculate_price settings (Conversion.page_count c) = Ok amount
        /\ PrimFloat.leb amount 0%float = false
        /\ PaymentMethod_of payment_method = Ok method).
Proof.
  intros r. subst r.
  destruct (create_payment_intent settings env conversion payment_method user
              metadata w) as [out w'] eqn:Hrun.
  unfold create_payment_intent in Hrun.
  rewrite run_bind in Hrun. unfold load_conversion at 1 in Hrun.
  destruct (conversions (session w) !! conversion) as [c|] eqn:Hc;
    cbv beta iota in Hrun;
    [|injection Hrun as <- <-; left; split; [eexists|]; reflexivity].
  destruct (Conversion.is_paid c) eqn:Hpaid;
    [injection Hrun as <- <-; left; split; [eexists|]; reflexivity|].
  rewrite run_bind, run_lift in Hrun.
  destruct (calculate_price settings (Conversion.page_count c)) as [amount|e]
    eqn:Hprice; cbv beta iota in Hrun;
    [|injection Hrun as <- <-; left; split; [eexists|]; reflexivity].
  destruct (PrimFloat.leb amount 0%float) eqn:Hpos.
  - right. left. exists c. split; [reflexivity|]. split; [exact Hpaid|].
    unfold bind, setattr_conversion, db_commit, ret, with_session in Hrun.
    simpl in Hrun. injection Hrun as <- <-.
    split; [eexists; reflexivity | reflexivity].
  - rewrite run_bind, run_lift in Hrun.
    destruct (PaymentMethod_of payment_method) as [method|e] eqn:Hm;
      cbv beta iota in Hrun;
      [|injection Hrun as <- <-; left; split; [eexists|]; reflexivity].
    right. right. exists c, amount, method. auto.
Qed.

(** X15: [create_payment_intent] leaves no half-done work when it raises.
    An already paid conversion is refused with status 400 and the world
    untouched; and whenever the call raises, either the world is exactly as
    it was, or the exception is the 500 of a failed provider call and the
    payment added for the call is FAILED. *)
Theorem create_raises_cleanly (settings : Settings) (env : Env) (conversion : Z)
  (payment_method : string) (user : option Z) (metadata : json) (w : World) :
  let r := create_payment_intent settings env conversion payment_method user
             metadata w in
  (forall c, conversions (session w) !! conversion = Some c ->
             Conversion.is_paid c = true ->
             r = (Raise (HTTPException 400
                           "This conversion has already been paid for"), w))
  /\ (forall e, fst r = Raise e ->
        snd r = w
        \/ exists cause p,
             e = HTTPException 500
                   ("Error processing payment: " ++ str_exn env cause)
             /\ payments (session (snd r)) !! payments_seq (session w) = Some p
             /\ Payment.status p = FAILED
             /\ store (snd r) = session (snd r)).
Proof.
  intros r. split.
  - intros c Hc Hpaid. subst r. unfold create_payment_intent.
    rewrite run_bind. unfold load_conversion at 1. rewrite Hc. cbv beta iota.
    rewrite Hpaid. reflexivity.
  - intros e He.
    destruct (create_run_cases settings env conversion payment_method user
                metadata w)
      as [[_ Hw] | [(c & _ & _ & [a Ha] & _) | (c & amount & method & H)]].
    + left. exact Hw.
    + fold r in Ha. congruence.
    + destruct H as (Hc & Hpaid & Hprice & Hpos & Hm).
      destruct (priced_intent_outcome settings env conversion payment_method
                  user metadata w c amount method Hc Hpaid Hprice Hpos Hm)
        as (Hst & _ & _ & _ & p & Hp & _ & Hcase).
      fold r in Hst, Hp, Hcase. rewrite He in Hcase.
      destruct Hcase as (Hfailed & cause & -> & _).
      right. exists cause, p. auto.
Qed.

Lemma create_raises_cleanly_witness :
  create_payment_intent (sample_settings "") (sample_env stripe_accepts) 1
    "credit_card" None JNull (fresh_world 80 true)
  = (Raise (HTTPException 400 "This conversion has already been paid for"),
     fresh_world 80 true).
Proof.
  destruct (create_raises_cleanly (sample_settings "")
              (sample_env stripe_accepts) 1 "credit_card" None JNull
              (fresh_world 80 true)) as [H _].
  apply (H (sample_conversion 80 true)); reflexivity.
Defined.

Lemma completed_after_reconcile (env : Env) (pd : json) (n : nat) (i : Z)
  (p : Payment.t) (t : Tables) :
  payments t !! i = Some p ->
  completed_are_paid t ->
  completed_are_paid (reconciled_tables env pd n i p t).
Proof.
  intros Hp Hinv j q c Hq Hst Hc.
  unfold reconciled_tables in Hq, Hc. cbn -[insert alter] in Hq, Hc.
  assert (Hcid : Payment.conversion_id (reconciled_row env pd n p)
                 = Payment.conversion_id p).
  { unfold reconciled_row. destruct (truthy pd); reflexivity. }
  rewrite lookup_alter in Hc.
  destruct (decide (Payment.conversion_id p = Payment.conversion_id q)) as [E|E].
  - destruct (conversions t !! Payment.conversion_id p); simpl in Hc;
      [|discriminate].
    injection Hc as <-. reflexivity.
  - rewrite lookup_insert in Hq. case_decide.
    + injection Hq as <-. rewrite Hcid in E. contradiction.
    + exact (Hinv j q c Hq Hst Hc).
Qed.

Lemma completed_after_op (settings : Settings) (env : Env) (o : op) (w : World) :
  completed_are_paid (session w) ->
  completed_are_paid (session (snd (run_op settings env o w))).
Proof.
  intros Hinv. destruct o as [conversion method user metadata
                             | provider payload signature | payment_id]; simpl.
  - destruct (create_run_cases settings env conversion method user metadata w)
      as [[_ Hw] | [(c & Hc & _ & _ & Hs) | (c & amount & pm & H)]].
    + rewrite Hw. exact Hinv.
    + rewrite Hs. intros j q c' Hq Hst Hc'. cbn -[alter] in Hq, Hc'.
      rewrite lookup_alter in Hc'. case_decide.
      * destruct (conversions (session w) !! conversion); simpl in Hc';
          [|discriminate].
        injection Hc' as <-. reflexivity.
      * exact (Hinv j q c' Hq Hst Hc').
    + destruct H as (Hc & Hpaid & Hprice & Hpos & Hm).
      destruct (priced_intent_outcome settings env conversion method user
                  metadata w c amount pm Hc Hpaid Hprice Hpos Hm)
        as (_ & _ & Hcv & Hoth & p & Hp & _ & Hcase).
      intros j q c' Hq Hst Hc'. rewrite Hcv in Hc'.
      destruct (decide (j = payments_seq (session w))) as [->|Hj].
      * rewrite Hp in Hq. injection Hq as <-.
        destruct (fst _) in Hcase; [congruence|].
        destruct Hcase as [Hf _]. congruence.
      * rewrite (Hoth j Hj) in Hq. exact (Hinv j q c' Hq Hst Hc').
  - destruct (reconciling_handle_webhook settings env provider payload
                signature w) as [[Hs _] | (i & p & pd & n & Hp & Hs & _)];
      rewrite Hs; [exact Hinv | apply completed_after_reconcile; assumption].
  - destruct (reconciling_get_payment_status settings env payment_id w)
      as [[Hs _] | (i & p & pd & n & Hp & Hs & _)];
      rewrite Hs; [exact Hinv | apply completed_after_reconcile; assumption].
Qed.

(** X16: over every sequence of operations, if each COMPLETED payment with
    a conversion had it marked paid at the start, so it is at the end: a
    payment is never COMPLETED while its conversion is left unpaid. *)
Theorem completed_payments_stay_paid (settings : Settings) (env : Env)
  (os : list op) (w : World) :
  completed_are_paid (session w) ->
  completed_are_paid (session (run_ops settings env os w)).
Proof.
  revert w. induction os as [|o os IH]; intros w H; simpl; [exact H|].
  apply IH, completed_after_op, H.
Qed.

Lemma completed_payments_stay_paid_witness :
  completed_are_paid
    (session (run_ops (sample_settings "") (sample_env stripe_accepts)
                [CreateIntent 1 "credit_card" None JNull;
                 HandleWebhook "stripe" "succeeded:1" (Some "whsec_stripe");
                 GetStatus 1]
                (fresh_world 80 false))).
Proof.
  apply (completed_payments_stay_paid (sample_settings "")
           (sample_env stripe_accepts)).
  intros i p c Hp. simpl in Hp. rewrite lookup_empty in Hp. discriminate.
Defined.
